(** * NeuroLens: the trend-and-scoring aggregation engine

    A shallow embedding of the computations behind the detection-results,
    wellness-plan and wearable-data API routes, together with the record
    store they talk to, and the properties the specification states about
    them.

    Numbers.  A JavaScript number is an IEEE-754 double.  This development
    idealises the finite doubles as exact rationals ([Q]) and keeps the
    non-finite values ([NaN], the two infinities) that the arithmetic of the
    routes can produce: rounding error of binary64 is outside the model,
    the behaviour of [0 / 0], of comparisons with [NaN] and of [!==] is in
    it.  Signed zeros are not distinguished.  Numbers read from a row or a
    request body ([confidence_score], [value]) are finite.

    Store.  The hosted database is a record of tables; a request sees it
    through calls that either answer or report an error, as decided by the
    request's environment.  One clock reading serves a whole request, for
    [Date.now()] and for the [created_at] default of an inserted row. *)

From Stdlib Require Import ZArith QArith Qround Qabs List String Ascii Bool Arith.
From Stdlib Require Import Lia Lqa Permutation Sorted.
Import ListNotations.

Local Open Scope Z_scope.

(* ------------------------------------------------------------------ *)
(** ** JavaScript numbers *)
(* ------------------------------------------------------------------ *)

Module Js.

Inductive number : Type :=
| NaN
| Inf (negative : bool)
| Fin (q : Q).

Definition Qlt_bool (x y : Q) : bool := negb (Qle_bool y x).

Definition is_zero (q : Q) : bool := Qeq_bool q 0.

Definition is_neg (q : Q) : bool := Qlt_bool q 0.

(** [x + y] *)
Definition add (x y : number) : number :=
  match x, y with
  | NaN, _ | _, NaN => NaN
  | Inf a, Inf b => if Bool.eqb a b then Inf a else NaN
  | Inf a, Fin _ => Inf a
  | Fin _, Inf b => Inf b
  | Fin a, Fin b => Fin (a + b)
  end.

(** [- x] *)
Definition neg (x : number) : number :=
  match x with
  | NaN => NaN
  | Inf a => Inf (negb a)
  | Fin a => Fin (- a)
  end.

(** [x - y] *)
Definition sub (x y : number) : number := add x (neg y).

(** [x * y] *)
Definition mul (x y : number) : number :=
  match x, y with
  | NaN, _ | _, NaN => NaN
  | Inf a, Inf b => Inf (xorb a b)
  | Inf a, Fin q | Fin q, Inf a =>
      if is_zero q then NaN else Inf (xorb a (is_neg q))
  | Fin a, Fin b => Fin (a * b)
  end.

(** [x / y]: a zero divisor gives [NaN] for a zero dividend and an
    infinity otherwise. *)
Definition div (x y : number) : number :=
  match x, y with
  | NaN, _ | _, NaN => NaN
  | Inf _, Inf _ => NaN
  | Inf a, Fin q => Inf (xorb a (is_neg q))
  | Fin _, Inf _ => Fin 0
  | Fin a, Fin b =>
      if is_zero b then (if is_zero a then NaN else Inf (is_neg a))
      else Fin (a / b)
  end.

(** [Math.abs] *)
Definition abs (x : number) : number :=
  match x with
  | NaN => NaN
  | Inf _ => Inf false
  | Fin a => Fin (Qabs a)
  end.

(** [x < y]; every comparison with [NaN] is false. *)
Definition lt (x y : number) : bool :=
  match x, y with
  | NaN, _ | _, NaN => false
  | Inf a, Inf b => a && negb b
  | Inf a, Fin _ => a
  | Fin _, Inf b => negb b
  | Fin a, Fin b => Qlt_bool a b
  end.

(** [x > y] *)
Definition gt (x y : number) : bool := lt y x.

(** [x <= y] *)
Definition le (x y : number) : bool :=
  match x, y with
  | NaN, _ | _, NaN => false
  | Inf a, Inf b => a || negb b
  | Inf a, Fin _ => a
  | Fin _, Inf b => negb b
  | Fin a, Fin b => Qle_bool a b
  end.

(** [x >= y] *)
Definition ge (x y : number) : bool := le y x.

(** [x !== y] on numbers: [NaN] differs from everything, itself included. *)
Definition strict_neq (x y : number) : bool :=
  match x, y with
  | NaN, _ | _, NaN => true
  | Inf a, Inf b => negb (Bool.eqb a b)
  | Inf _, Fin _ | Fin _, Inf _ => true
  | Fin a, Fin b => negb (Qeq_bool a b)
  end.

(** Rounding to the nearest integer, ties towards plus infinity. *)
Definition round_half_up (q : Q) : Z := Qfloor (q + (1 # 2)).

(** [Math.round] *)
Definition Math_round (x : number) : number :=
  match x with
  | Fin q => Fin (inject_Z (round_half_up q))
  | other => other
  end.

(** An integer as a number. *)
Definition of_Z (z : Z) : number := Fin (inject_Z z).

Definition of_nat (n : nat) : number := of_Z (Z.of_nat n).

End Js.

Import Js.

(* ------------------------------------------------------------------ *)
(** ** JSON values and objects *)
(* ------------------------------------------------------------------ *)

(** The values a [risk_indicators] entry can hold ([z.any()]): only their
    truthiness is ever inspected. *)
Inductive jsval : Type :=
| JNull
| JBool (b : bool)
| JNum (q : Q)
| JStr (s : string)
| JComposite.        (* an array or an object: always truthy *)

Definition truthy (v : jsval) : bool :=
  match v with
  | JNull => false
  | JBool b => b
  | JNum q => negb (is_zero q)
  | JStr s => negb (String.eqb s "")
  | JComposite => true
  end.

(** A row of [detection_results].  [risk_indicators] is a nullable JSON
    object, given by its entries in the order [Object.entries] lists
    them; [created_at] is in milliseconds since the epoch. *)
Record DetectionResult : Type := {
  user_id : string;
  detection_type : string;
  confidence_score : Q;
  risk_indicators : option (list (string * jsval));
  created_at : Z
}.

(** [items.reduce((sum, item) => sum + item.confidence_score, 0)] *)
Definition sumScores (items : list DetectionResult) : number :=
  fold_left (fun sum item => add sum (Fin (confidence_score item))) items (Fin 0).

(** What a store call resolves to: the client hands back [{ data, error }]
    and reports a failed request through [error]; it does not reject. *)
Inductive reply (A : Type) : Type :=
| Data (a : A)
| Failure.
Arguments Data {A} a.
Arguments Failure {A}.

(* ------------------------------------------------------------------ *)
(** ** Composite score calculator (detection-results route) *)
(* ------------------------------------------------------------------ *)

Record ComponentScores : Type := {
  facial : number;
  speech : number;
  behavioral : number
}.

Record CognitiveHealth : Type := {
  cognitive_score : number;
  status : string;
  areas_of_concern : list string;
  component_scores : ComponentScores;
  last_updated : Z
}.

Definition facialWeight : number := Fin (35 # 100).
Definition speechWeight : number := Fin (4 # 10).
Definition behavioralWeight : number := Fin (25 # 100).

(** [let avg = 0; if (results && results.length > 0) avg = sum / length] *)
Definition channelAverage (results : list DetectionResult) : number :=
  if (0 <? List.length results)%nat
  then div (sumScores results) (of_nat (List.length results))
  else Fin 0.

(** The status ladder; the initial value ['normal'] is overwritten on
    each of its three branches. *)
Definition statusOf (cognitiveScore : number) : string :=
  if lt cognitiveScore (of_Z 50) then "concerning"%string
  else if lt cognitiveScore (of_Z 70) then "moderate"%string
  else "healthy"%string.

(** The body of [calculateCognitiveScore] after its three queries: the
    arguments are the rows the queries returned, [now] is the clock. *)
Definition scoreFromResults (facialResults speechResults behavioralResults : list DetectionResult)
    (now : Z) : CognitiveHealth :=
  let facialAvg := channelAverage facialResults in
  let speechAvg := channelAverage speechResults in
  let behavioralAvg := channelAverage behavioralResults in
  let cognitiveScore :=
    Math_round
      (mul (add (add (mul facialAvg facialWeight) (mul speechAvg speechWeight))
                (mul behavioralAvg behavioralWeight))
           (of_Z 100)) in
  let areasOfConcern :=
    (if lt facialAvg (Fin (6 # 10)) then ["facial expressions"%string] else []) ++
    (if lt speechAvg (Fin (6 # 10)) then ["speech patterns"%string] else []) ++
    (if lt behavioralAvg (Fin (6 # 10)) then ["behavioral responses"%string] else []) in
  {| cognitive_score := cognitiveScore;
     status := statusOf cognitiveScore;
     areas_of_concern := areasOfConcern;
     component_scores :=
       {| facial := Math_round (mul facialAvg (of_Z 100));
          speech := Math_round (mul speechAvg (of_Z 100));
          behavioral := Math_round (mul behavioralAvg (of_Z 100)) |};
     last_updated := now |}.

(* ------------------------------------------------------------------ *)
(** ** Ordinary objects used as maps *)
(* ------------------------------------------------------------------ *)

(** An ordinary object whose own properties are all enumerable data
    properties, kept as the list of its properties in creation order.
    Reading follows the source's use ([o[key] || 0], [Object.entries]).
    Names that [Object.prototype] already defines ([constructor],
    [toString], [__proto__], ...) read as inherited members on a fresh
    object; the model treats every name as absent until it is set, so it
    speaks only for names outside [inherited_names]. *)
Module Obj.

Definition t (V : Type) : Type := list (string * V).

Definition empty {V : Type} : t V := [].

Fixpoint get {V : Type} (key : string) (o : t V) : option V :=
  match o with
  | [] => None
  | (k, v) :: rest => if String.eqb k key then Some v else get key rest
  end.

(** [o[key] = v]: an existing property keeps its place, a new one is
    created last. *)
Fixpoint set {V : Type} (key : string) (v : V) (o : t V) : t V :=
  match o with
  | [] => [(key, v)]
  | (k, w) :: rest =>
      if String.eqb k key then (k, v) :: rest else (k, w) :: set key v rest
  end.

Definition digit (c : ascii) : option N :=
  let n := N_of_ascii c in
  if ((48 <=? n) && (n <=? 57))%N then Some (n - 48)%N else None.

Fixpoint digits (s : string) (acc : N) : option N :=
  match s with
  | EmptyString => Some acc
  | String c rest =>
      match digit c with
      | Some d => digits rest (acc * 10 + d)%N
      | None => None
      end
  end.

(** An array index: the canonical decimal of an integer in [0, 2^32 - 2]. *)
Definition array_index (s : string) : option N :=
  match s with
  | EmptyString => None
  | String "0"%char EmptyString => Some 0%N
  | String "0"%char _ => None
  | _ =>
      match digits s 0 with
      | Some n => if (n <? 4294967295)%N then Some n else None
      | None => None
      end
  end.

Definition is_index (s : string) : bool :=
  match array_index s with Some _ => true | None => false end.

Definition index_of (s : string) : N :=
  match array_index s with Some n => n | None => 0%N end.

Fixpoint insert_index {V : Type} (e : string * V) (l : list (string * V)) : list (string * V) :=
  match l with
  | [] => [e]
  | x :: rest =>
      if (index_of (fst e) <? index_of (fst x))%N then e :: l
      else x :: insert_index e rest
  end.

(** Own property keys are listed array indices first, in ascending
    numeric order, then the other names in creation order
    (OrdinaryOwnPropertyKeys); [Object.entries] follows that order. *)
Definition entries {V : Type} (o : t V) : list (string * V) :=
  fold_right insert_index [] (filter (fun e => is_index (fst e)) o)
  ++ filter (fun e => negb (is_index (fst e))) o.

Definition inherited_names : list string :=
  ["constructor"; "__defineGetter__"; "__defineSetter__"; "hasOwnProperty";
   "__lookupGetter__"; "__lookupSetter__"; "isPrototypeOf";
   "propertyIsEnumerable"; "toString"; "valueOf"; "__proto__";
   "toLocaleString"]%string.

Definition inherited (s : string) : bool :=
  existsb (String.eqb s) inherited_names.

End Obj.

(* ------------------------------------------------------------------ *)
(** ** Trend analyzer and risk-indicator ranking (detection-results route) *)
(* ------------------------------------------------------------------ *)

Record Trend : Type := {
  direction : string;
  (** the number handed to [toFixed(2)]; its decimal formatting is not
      modelled *)
  change_percentage : number
}.

Record RiskIndicator : Type := {
  indicator : string;
  frequency : nat;
  percentage : number
}.

Record TrendReport : Type := {
  timeframe : string;
  data_points : nat;
  average_score : number;
  trend : Trend;
  common_risk_indicators : list RiskIndicator;
  raw_data : list (Z * Q)       (* date and score of each row *)
}.

Inductive TrendAnalysis : Type :=
| TrendFailure (error : string)
| NoData (message : string)
| Report (r : TrendReport).

(** [items.reduce(...) / items.length] *)
Definition averageOf (items : list DetectionResult) : number :=
  div (sumScores items) (of_nat (List.length items)).

Definition firstHalf (data : list DetectionResult) : list DetectionResult :=
  firstn (List.length data / 2) data.

Definition secondHalf (data : list DetectionResult) : list DetectionResult :=
  skipn (List.length data / 2) data.

Definition trendDirection (firstHalfAvg secondHalfAvg : number) : string :=
  if gt secondHalfAvg firstHalfAvg then "improving"%string
  else if lt secondHalfAvg firstHalfAvg then "declining"%string
  else "stable"%string.

Definition changePercentage (firstHalfAvg secondHalfAvg : number) : number :=
  if strict_neq firstHalfAvg (of_Z 0)
  then abs (mul (div (sub secondHalfAvg firstHalfAvg) firstHalfAvg) (of_Z 100))
  else of_Z 0.

Definition trendOf (data : list DetectionResult) : Trend :=
  let firstHalfAvg := averageOf (firstHalf data) in
  let secondHalfAvg := averageOf (secondHalf data) in
  {| direction := trendDirection firstHalfAvg secondHalfAvg;
     change_percentage := changePercentage firstHalfAvg secondHalfAvg |}.

(** [riskIndicators[key] = (riskIndicators[key] || 0) + 1] *)
Definition bump (riskIndicators : Obj.t nat) (key : string) : Obj.t nat :=
  let old := match Obj.get key riskIndicators with Some n => n | None => O end in
  Obj.set key (S old) riskIndicators.

(** The inner [forEach] over one row's entries. *)
Definition tallyEntries (riskIndicators : Obj.t nat) (entries : list (string * jsval)) : Obj.t nat :=
  fold_left (fun acc e => if truthy (snd e) then bump acc (fst e) else acc)
            entries riskIndicators.

(** The outer [data.forEach]. *)
Definition tally (data : list DetectionResult) : Obj.t nat :=
  fold_left (fun acc item =>
               match risk_indicators item with
               | Some entries => tallyEntries acc entries
               | None => acc
               end)
            data Obj.empty.

(** [.sort((a, b) => b[1] - a[1])]: the sort is stable, so an entry is
    placed after those of greater count and before those of equal or
    smaller count that followed it. *)
Fixpoint insertByCount (e : string * nat) (sorted : list (string * nat)) : list (string * nat) :=
  match sorted with
  | [] => [e]
  | x :: rest =>
      if (snd e <? snd x)%nat then x :: insertByCount e rest
      else e :: sorted
  end.

Definition sortByCount (l : list (string * nat)) : list (string * nat) :=
  fold_right insertByCount [] l.

Definition sortedRiskIndicators (data : list DetectionResult) : list RiskIndicator :=
  map (fun e => {| indicator := fst e;
                   frequency := snd e;
                   percentage := mul (div (of_nat (snd e)) (of_nat (List.length data)))
                                     (of_Z 100) |})
      (sortByCount (Obj.entries (tally data))).

(** [analyzeTrends], given what its query resolved to: the rows of the
    user, type and time window asked for, in ascending date order. *)
Definition analyzeTrends (timeframe : string) (rows : reply (list DetectionResult))
    : TrendAnalysis :=
  match rows with
  | Failure => TrendFailure "Failed to analyze trends"
  | Data [] => NoData "No data available for trend analysis"
  | Data data =>
      Report {| timeframe := timeframe;
                data_points := List.length data;
                average_score := averageOf data;
                trend := trendOf data;
                common_risk_indicators := firstn 5 (sortedRiskIndicators data);
                raw_data := map (fun item => (created_at item, confidence_score item)) data |}
  end.

(* ------------------------------------------------------------------ *)
(** ** Wellness plan synthesis (wellness-plan route) *)
(* ------------------------------------------------------------------ *)

Record Activity : Type := {
  id : string;
  title : string;
  description : string;
  frequency_label : string;      (* the [frequency] field *)
  duration_minutes : nat;
  difficulty : string;
  category : string
}.

(** A row of [cognitive_scores], or the default object used when there
    is none; [areas_of_concern] may be absent. *)
Record CognitiveScore : Type := {
  score : number;
  score_status : string;
  score_areas_of_concern : option (list string);
  score_user_id : string;
  score_created_at : Z
}.

Definition defaultCognitiveScore : CognitiveScore :=
  {| score := of_Z 75;
     score_status := "moderate";
     score_areas_of_concern := Some [];
     score_user_id := "";
     score_created_at := 0 |}.

Record Schedule : Type := {
  recommended_time_of_day : list (string * string);
  weekly_distribution : list (string * list string);
  adaptability : string
}.

Record WellnessPlan : Type := {
  plan_title : string;
  plan_description : string;
  activities : list Activity;
  schedule : Schedule;
  recommendations : list (string * string);
  plan_created_at : Z;
  plan_last_updated : Z
}.

Definition dailyCheckIn : Activity :=
  {| id := "daily-check-in";
     title := "Daily Cognitive Check-in";
     description := "Complete a brief daily assessment to track your cognitive health";
     frequency_label := "daily";
     duration_minutes := 5;
     difficulty := "easy";
     category := "monitoring" |}.

Definition mindfulnessPractice : Activity :=
  {| id := "mindfulness-practice";
     title := "Mindfulness Practice";
     description := "Practice mindfulness meditation to improve focus and reduce stress";
     frequency_label := "daily";
     duration_minutes := 10;
     difficulty := "easy";
     category := "wellness" |}.

Definition facialExercises : Activity :=
  {| id := "facial-exercises";
     title := "Facial Expression Exercises";
     description := "Practice facial movements and expressions to maintain muscle tone and expressiveness";
     frequency_label := "3x-weekly";
     duration_minutes := 15;
     difficulty := "moderate";
     category := "facial" |}.

Definition speechPractice : Activity :=
  {| id := "speech-practice";
     title := "Speech Articulation Practice";
     description := "Read passages aloud focusing on clear articulation and varied intonation";
     frequency_label := "daily";
     duration_minutes := 15;
     difficulty := "moderate";
     category := "speech" |}.

Definition wordRetrieval : Activity :=
  {| id := "word-retrieval";
     title := "Word Retrieval Exercises";
     description := "Practice word-finding exercises to strengthen lexical retrieval";
     frequency_label := "2x-weekly";
     duration_minutes := 20;
     difficulty := "challenging";
     category := "speech" |}.

Definition memoryTraining : Activity :=
  {| id := "memory-training";
     title := "Memory Enhancement Training";
     description := "Complete memory exercises designed to strengthen recall and recognition";
     frequency_label := "daily";
     duration_minutes := 20;
     difficulty := "adaptive";
     category := "cognitive" |}.

Definition socialEngagement : Activity :=
  {| id := "social-engagement";
     title := "Social Engagement Activity";
     description := "Schedule and participate in a social activity with friends or family";
     frequency_label := "weekly";
     duration_minutes := 60;
     difficulty := "moderate";
     category := "social" |}.

Definition physicalExercise : Activity :=
  {| id := "physical-exercise";
     title := "Physical Exercise Session";
     description := "Engage in moderate physical activity to promote brain health";
     frequency_label := "3x-weekly";
     duration_minutes := 30;
     difficulty := "moderate";
     category := "physical" |}.

(** [detectionResults.filter(r => r.detection_type === type)] *)
Definition ofType (type : string) (detectionResults : list DetectionResult) : list DetectionResult :=
  filter (fun r => String.eqb (detection_type r) type) detectionResults.

(** [areas_of_concern?.includes(name)]; an absent list gives [undefined],
    which is falsy. *)
Definition includes (areas : option (list string)) (name : string) : bool :=
  match areas with
  | Some l => existsb (String.eqb name) l
  | None => false
  end.

(** [r.risk_indicators && r.risk_indicators.social_withdrawal], for its
    truthiness. *)
Definition socialWithdrawal (r : DetectionResult) : bool :=
  match risk_indicators r with
  | Some entries =>
      match Obj.get "social_withdrawal" entries with
      | Some v => truthy v
      | None => false
      end
  | None => false
  end.

(** An activity list under construction: each step is one
    [activities.push(...)], possibly guarded. *)
Definition push (a : Activity) (acts : list Activity) : list Activity := acts ++ [a].

Definition pushWhen (cond : bool) (new : list Activity) (acts : list Activity) : list Activity :=
  if cond then fold_left (fun l a => push a l) new acts else acts.

Definition planActivities (cognitiveScore : CognitiveScore)
    (detectionResults : list DetectionResult) : list Activity :=
  let facialResults := ofType "facial" detectionResults in
  let speechResults := ofType "speech" detectionResults in
  let behavioralResults := ofType "behavioral" detectionResults in
  let activities := [] in
  let activities := push dailyCheckIn activities in
  let activities := push mindfulnessPractice activities in
  let activities :=
    pushWhen ((0 <? List.length facialResults)%nat
              && existsb (fun r => lt (Fin (confidence_score r)) (Fin (7 # 10))) facialResults)
             [facialExercises] activities in
  let activities :=
    pushWhen ((0 <? List.length speechResults)%nat
              && existsb (fun r => lt (Fin (confidence_score r)) (Fin (7 # 10))) speechResults)
             [speechPractice; wordRetrieval] activities in
  let activities :=
    pushWhen (lt (score cognitiveScore) (of_Z 70)
              || includes (score_areas_of_concern cognitiveScore) "memory")
             [memoryTraining] activities in
  let activities :=
    pushWhen ((0 <? List.length behavioralResults)%nat
              && existsb socialWithdrawal behavioralResults)
             [socialEngagement] activities in
  push physicalExercise activities.

Definition planSchedule : Schedule :=
  {| recommended_time_of_day :=
       [("cognitive_exercises", "morning");
        ("physical_activities", "afternoon");
        ("relaxation", "evening")]%string;
     weekly_distribution :=
       [("monday", ["daily-check-in"; "mindfulness-practice"; "memory-training"]);
        ("tuesday", ["daily-check-in"; "physical-exercise"; "speech-practice"]);
        ("wednesday", ["daily-check-in"; "mindfulness-practice"; "facial-exercises"]);
        ("thursday", ["daily-check-in"; "physical-exercise"; "word-retrieval"]);
        ("friday", ["daily-check-in"; "mindfulness-practice"; "memory-training"]);
        ("saturday", ["daily-check-in"; "physical-exercise"; "social-engagement"]);
        ("sunday", ["daily-check-in"; "mindfulness-practice"; "rest-day"])]%string;
     adaptability :=
       "Adjust schedule based on energy levels and cognitive load throughout the day" |}.

(** [areas.join(", ")] *)
Fixpoint join (sep : string) (l : list string) : string :=
  match l with
  | [] => ""
  | [x] => x
  | x :: rest => x ++ sep ++ join sep rest
  end.

(** [areas_of_concern?.join(", ") || "overall cognitive health"] *)
Definition focusAreas (areas : option (list string)) : string :=
  match areas with
  | Some l => let joined := join ", " l in
              if String.eqb joined "" then "overall cognitive health"%string else joined
  | None => "overall cognitive health"%string
  end.

(** The body of [generateWellnessPlan] after its queries: [cognitiveScores]
    and [detectionResults] are the rows they returned. *)
Definition planFromData (cognitiveScores : list CognitiveScore)
    (detectionResults : list DetectionResult) (now : Z) : WellnessPlan :=
  let cognitiveScore :=
    match cognitiveScores with
    | latest :: _ => latest
    | [] => defaultCognitiveScore
    end in
  {| plan_title := "Personalized Cognitive Wellness Plan";
     plan_description :=
       ("Customized plan based on your cognitive profile and recent assessments. Focus areas include "
        ++ focusAreas (score_areas_of_concern cognitiveScore) ++ ".")%string;
     activities := planActivities cognitiveScore detectionResults;
     schedule := planSchedule;
     recommendations :=
       [("sleep", "Aim for 7-8 hours of quality sleep each night");
        ("nutrition", "Follow a Mediterranean-style diet rich in omega-3 fatty acids");
        ("hydration", "Drink at least 8 glasses of water daily");
        ("technology", "Take regular breaks from screens and practice digital detox")]%string;
     plan_created_at := now;
     plan_last_updated := now |}.

(* ------------------------------------------------------------------ *)
(** ** Health metric updater (wearable-data route) *)
(* ------------------------------------------------------------------ *)

(** The [updateData] object: each field is set by at most one case. *)
Record MetricUpdate : Type := {
  resting_heart_rate : option Q;
  sleep_quality : option string;
  activity_level : option string;
  stress_level : option string
}.

(** The [switch (dataType)]: [None] is the [default] case, which returns
    from [updateHealthMetrics] without writing. *)
Definition metricUpdate (dataType : string) (value : Q) : option MetricUpdate :=
  let v := Fin value in
  if String.eqb dataType "heart_rate" then
    Some {| resting_heart_rate := Some value; sleep_quality := None;
            activity_level := None; stress_level := None |}
  else if String.eqb dataType "sleep" then
    Some {| resting_heart_rate := None;
            sleep_quality := Some (if ge v (of_Z 7) then "good"
                                   else if ge v (of_Z 5) then "fair" else "poor")%string;
            activity_level := None; stress_level := None |}
  else if String.eqb dataType "activity" then
    Some {| resting_heart_rate := None; sleep_quality := None;
            activity_level := Some (if ge v (of_Z 10000) then "high"
                                    else if ge v (of_Z 5000) then "moderate" else "low")%string;
            stress_level := None |}
  else if String.eqb dataType "stress" then
    Some {| resting_heart_rate := None; sleep_quality := None; activity_level := None;
            stress_level := Some (if le v (of_Z 30) then "low"
                                  else if le v (of_Z 70) then "moderate" else "high")%string |}
  else None.

(* ------------------------------------------------------------------ *)
(** ** The record store and the request handlers *)
(* ------------------------------------------------------------------ *)

Record WellnessPlanRow : Type := {
  row_id : nat;
  row_user_id : string;
  row_title : string;
  row_description : string;
  row_activities : list Activity;
  row_schedule : Schedule;
  is_active : bool;
  row_created_at : Z
}.

Record CognitiveScoreRow : Type := {
  stored_score : CognitiveScore;
  stored_component_scores : ComponentScores
}.

Record WearableInput : Type := {
  in_userId : string;
  device_type : string;
  data_type : string;
  timestamp : string;
  value : Q;
  unit_label : option string      (* the [unit] field *)
}.

Record WearableRow : Type := {
  wearable_id : nat;
  wearable_input : WearableInput
}.

(** A row of [health_metrics].  [metrics_created_at] is [None] when the
    stored value does not denote a date, in which case
    [new Date(...).toISOString()] throws. *)
Record HealthMetricsRow : Type := {
  metrics_id : nat;
  metrics_user_id : string;
  metrics_created_at : option Z;
  metrics : MetricUpdate
}.

Record Db : Type := {
  detection_results : list DetectionResult;
  cognitive_scores : list CognitiveScoreRow;
  wellness_plans : list WellnessPlanRow;
  wearable_data : list WearableRow;
  health_metrics : list HealthMetricsRow;
  next_id : nat
}.

(** What a request sees besides the tables: the authenticated user, the
    clock, and which of its store calls (numbered in issue order) fail. *)
Record Env : Type := {
  session : option string;
  clock : Z;
  fails : nat -> bool
}.

Record World : Type := {
  tables : Db;
  issued : nat
}.

Inductive outcome (A : Type) : Type :=
| Returned (a : A)
| Thrown.
Arguments Returned {A} a.
Arguments Thrown {A}.

(** Handlers run in a state monad over the world, with exceptions. *)
Definition Eff (A : Type) : Type := World -> outcome A * World.

Definition ret {A : Type} (a : A) : Eff A := fun w => (Returned a, w).

Definition bind {A B : Type} (c : Eff A) (k : A -> Eff B) : Eff B :=
  fun w =>
    match c w with
    | (Returned a, w') => k a w'
    | (Thrown, w') => (Thrown, w')
    end.

Definition throw {A : Type} : Eff A := fun w => (Thrown, w).

(** [try { c } catch { handler }] *)
Definition try_catch {A : Type} (c : Eff A) (handler : Eff A) : Eff A :=
  fun w =>
    match c w with
    | (Returned a, w') => (Returned a, w')
    | (Thrown, w') => handler w'
    end.

Notation "x <- c ;; k" := (bind c (fun x => k))
  (at level 61, c at next level, right associativity).

(** One awaited store call: it fails when the environment says so and
    otherwise runs on the tables. *)
Definition call {A : Type} (env : Env) (run : Db -> A * Db) : Eff (reply A) :=
  fun w =>
    let k := issued w in
    if fails env k then (Returned Failure, {| tables := tables w; issued := S k |})
    else let (a, db') := run (tables w) in
         (Returned (Data a), {| tables := db'; issued := S k |}).

Definition query {A : Type} (env : Env) (read : Db -> A) : Eff (reply A) :=
  call env (fun db => (read db, db)).

(** [.order("created_at", { ascending: false })]; rows of equal date keep
    their table order. *)
Fixpoint insertLatest {A : Type} (key : A -> Z) (x : A) (sorted : list A) : list A :=
  match sorted with
  | [] => [x]
  | y :: rest => if key x <? key y then y :: insertLatest key x rest else x :: sorted
  end.

Definition latestFirst {A : Type} (key : A -> Z) (rows : list A) : list A :=
  fold_right (insertLatest key) [] rows.

Definition selectDetections (userId type : string) (limit : nat) (db : Db) : list DetectionResult :=
  firstn limit
    (latestFirst created_at
       (filter (fun r => String.eqb (user_id r) userId && String.eqb (detection_type r) type)
               (detection_results db))).

Definition selectRecentDetections (userId : string) (limit : nat) (db : Db) : list DetectionResult :=
  firstn limit
    (latestFirst created_at
       (filter (fun r => String.eqb (user_id r) userId) (detection_results db))).

Definition selectLatestScores (userId : string) (db : Db) : list CognitiveScore :=
  firstn 1
    (latestFirst score_created_at
       (filter (fun s => String.eqb (score_user_id s) userId)
               (map stored_score (cognitive_scores db)))).

Definition selectActivePlans (userId : string) (db : Db) : list WellnessPlanRow :=
  firstn 1
    (latestFirst row_created_at
       (filter (fun p => String.eqb (row_user_id p) userId && is_active p)
               (wellness_plans db))).

(** [.limit(1).maybeSingle()]; a row without a valid date sorts as the
    epoch. *)
Definition selectLatestMetrics (userId : string) (db : Db) : option HealthMetricsRow :=
  hd_error
    (latestFirst (fun m => match metrics_created_at m with Some t => t | None => 0 end)
       (filter (fun m => String.eqb (metrics_user_id m) userId) (health_metrics db))).

Definition insertScore (userId : string) (h : CognitiveHealth) (now : Z) (db : Db) : unit * Db :=
  (tt,
   {| detection_results := detection_results db;
      cognitive_scores :=
        cognitive_scores db ++
        [{| stored_score :=
              {| score := cognitive_score h;
                 score_status := status h;
                 score_areas_of_concern := Some (areas_of_concern h);
                 score_user_id := userId;
                 score_created_at := now |};
            stored_component_scores := component_scores h |}];
      wellness_plans := wellness_plans db;
      wearable_data := wearable_data db;
      health_metrics := health_metrics db;
      next_id := next_id db |}).

(** [.insert({...}).select().single()] on [wellness_plans]: the stored
    row, with its generated id and creation date, is handed back. *)
Definition insertPlan (userId : string) (plan : WellnessPlan) (now : Z) (db : Db)
    : WellnessPlanRow * Db :=
  let row := {| row_id := next_id db;
                row_user_id := userId;
                row_title := plan_title plan;
                row_description := plan_description plan;
                row_activities := activities plan;
                row_schedule := schedule plan;
                is_active := true;
                row_created_at := now |} in
  (row,
   {| detection_results := detection_results db;
      cognitive_scores := cognitive_scores db;
      wellness_plans := wellness_plans db ++ [row];
      wearable_data := wearable_data db;
      health_metrics := health_metrics db;
      next_id := S (next_id db) |}).

Definition insertWearable (input : WearableInput) (db : Db) : WearableRow * Db :=
  let row := {| wearable_id := next_id db; wearable_input := input |} in
  (row,
   {| detection_results := detection_results db;
      cognitive_scores := cognitive_scores db;
      wellness_plans := wellness_plans db;
      wearable_data := wearable_data db ++ [row];
      health_metrics := health_metrics db;
      next_id := S (next_id db) |}).

Definition orElse {A : Type} (new old : option A) : option A :=
  match new with Some _ => new | None => old end.

(** The columns named in [updateData] are overwritten, the others kept. *)
Definition mergeUpdate (updateData current : MetricUpdate) : MetricUpdate :=
  {| resting_heart_rate := orElse (resting_heart_rate updateData) (resting_heart_rate current);
     sleep_quality := orElse (sleep_quality updateData) (sleep_quality current);
     activity_level := orElse (activity_level updateData) (activity_level current);
     stress_level := orElse (stress_level updateData) (stress_level current) |}.

Definition withMetrics (rows : list HealthMetricsRow) (db : Db) : Db :=
  {| detection_results := detection_results db;
     cognitive_scores := cognitive_scores db;
     wellness_plans := wellness_plans db;
     wearable_data := wearable_data db;
     health_metrics := rows;
     next_id := next_id db |}.

(** [.update(updateData).eq("id", id)] *)
Definition updateMetrics (rowId : nat) (updateData : MetricUpdate) (db : Db) : unit * Db :=
  (tt,
   withMetrics
     (map (fun m => if Nat.eqb (metrics_id m) rowId
                    then {| metrics_id := metrics_id m;
                            metrics_user_id := metrics_user_id m;
                            metrics_created_at := metrics_created_at m;
                            metrics := mergeUpdate updateData (metrics m) |}
                    else m)
          (health_metrics db))
     db).

(** [.insert({ user_id: userId, ...updateData })] *)
Definition insertMetrics (userId : string) (updateData : MetricUpdate) (now : Z) (db : Db)
    : unit * Db :=
  (tt,
   {| detection_results := detection_results db;
      cognitive_scores := cognitive_scores db;
      wellness_plans := wellness_plans db;
      wearable_data := wearable_data db;
      health_metrics :=
        health_metrics db ++
        [{| metrics_id := next_id db;
            metrics_user_id := userId;
            metrics_created_at := Some now;
            metrics := updateData |}];
      next_id := S (next_id db) |}).

Inductive PlanPayload : Type :=
| SavedPlan (row : WellnessPlanRow)     (* the stored row *)
| UnsavedPlan (plan : WellnessPlan).    (* the generated object *)

Inductive Response : Type :=
| ErrorResponse (http_status : nat) (error : string)
| ScoreResponse (body : CognitiveHealth)
| PlanResponse (plan : PlanPayload) (is_new : bool) (days_remaining : Z)
| WearableResponse (data : WearableRow) (message : string).

(** [!user || user.id !== userId] *)
Definition unauthorized (env : Env) (userId : string) : bool :=
  match session env with
  | Some uid => negb (String.eqb uid userId)
  | None => true
  end.

(** *** detection-results route: [calculateCognitiveScore] and [PUT] *)

Definition calculateCognitiveScore (env : Env) (userId : string)
    : Eff (string + CognitiveHealth) :=
  facialResults <- query env (selectDetections userId "facial" 5) ;;
  speechResults <- query env (selectDetections userId "speech" 5) ;;
  behavioralResults <- query env (selectDetections userId "behavioral" 5) ;;
  match facialResults, speechResults, behavioralResults with
  | Data f, Data s, Data b => ret (inr (scoreFromResults f s b (clock env)))
  | _, _, _ => ret (inl "Failed to calculate cognitive score"%string)
  end.

Definition PUT (env : Env) (userIdParam : option string) : Eff Response :=
  try_catch
    (match userIdParam with
     | None => ret (ErrorResponse 400 "Missing userId parameter")
     | Some userId =>
         if String.eqb userId "" then ret (ErrorResponse 400 "Missing userId parameter")
         else if unauthorized env userId then ret (ErrorResponse 401 "Unauthorized")
         else
           cognitiveHealth <- calculateCognitiveScore env userId ;;
           match cognitiveHealth with
           | inl error => ret (ErrorResponse 500 error)
           | inr health =>
               (* a failed insert is logged and otherwise ignored *)
               _ <- call env (insertScore userId health (clock env)) ;;
               ret (ScoreResponse health)
           end
     end)
    (ret (ErrorResponse 500 "Internal server error")).

(** *** wellness-plan route: [generateWellnessPlan] and [GET] *)

Definition generateWellnessPlan (env : Env) (userId : string)
    : Eff (string + WellnessPlan) :=
  cognitiveScores <- query env (selectLatestScores userId) ;;
  match cognitiveScores with
  | Failure => ret (inl "Failed to fetch cognitive data"%string)
  | Data cognitiveScores =>
      detectionResults <- query env (selectRecentDetections userId 10) ;;
      match detectionResults with
      | Failure => ret (inl "Failed to fetch detection results"%string)
      | Data detectionResults =>
          (* the profile is fetched, its error logged, its data unused *)
          _ <- query env (fun _ => tt) ;;
          ret (inr (planFromData cognitiveScores detectionResults (clock env)))
      end
  end.

Definition msPerDay : Z := 1000 * 60 * 60 * 24.

(** [Math.floor((Date.now() - planDate.getTime()) / msPerDay)] *)
Definition daysSinceCreation (env : Env) (p : WellnessPlanRow) : Z :=
  (clock env - row_created_at p) / msPerDay.

(** The tail of [GET], reached when no fresh plan is cached: generate,
    try to save, answer with the saved row or else the generated plan. *)
Definition synthesizeAndSave (env : Env) (userId : string) : Eff Response :=
  wellnessPlan <- generateWellnessPlan env userId ;;
  match wellnessPlan with
  | inl error => ret (ErrorResponse 500 error)
  | inr wellnessPlan =>
      savedPlan <- call env (insertPlan userId wellnessPlan (clock env)) ;;
      ret (PlanResponse
             (match savedPlan with
              | Data row => SavedPlan row
              | Failure => UnsavedPlan wellnessPlan
              end)
             true 7)
  end.

Definition GET (env : Env) (userIdParam : option string) : Eff Response :=
  try_catch
    (match userIdParam with
     | None => ret (ErrorResponse 400 "Invalid query parameters")
     | Some userId =>
         if unauthorized env userId then ret (ErrorResponse 401 "Unauthorized")
         else
           existingPlan <- query env (selectActivePlans userId) ;;
           match existingPlan with
           | Failure => ret (ErrorResponse 500 "Failed to check existing plans")
           | Data existingPlan =>
               match existingPlan with
               | p :: _ =>
                   if daysSinceCreation env p <? 7
                   then ret (PlanResponse (SavedPlan p) false (7 - daysSinceCreation env p))
                   else synthesizeAndSave env userId
               | [] => synthesizeAndSave env userId
               end
           end
     end)
    (ret (ErrorResponse 500 "Internal server error")).

(** *** wearable-data route: [updateHealthMetrics] and [POST] *)

(** [new Date(t).toISOString().split('T')[0]], as the number of the UTC
    day; it throws on an invalid date. *)
Definition isoDay (t : option Z) : Eff Z :=
  match t with
  | Some ms => ret (ms / msPerDay)
  | None => throw
  end.

Definition updateHealthMetrics (env : Env) (userId dataType : string) (value : Q) : Eff unit :=
  try_catch
    (latestMetrics <- query env (selectLatestMetrics userId) ;;
     match latestMetrics with
     | Failure => ret tt
     | Data latestMetrics =>
         match metricUpdate dataType value with
         | None => ret tt
         | Some updateData =>
             match latestMetrics with
             | Some m =>
                 today <- isoDay (Some (clock env)) ;;
                 metricsDate <- isoDay (metrics_created_at m) ;;
                 if today =? metricsDate
                 then _ <- call env (updateMetrics (metrics_id m) updateData) ;; ret tt
                 else _ <- call env (insertMetrics userId updateData (clock env)) ;; ret tt
             | None =>
                 _ <- call env (insertMetrics userId updateData (clock env)) ;; ret tt
             end
         end
     end)
    (ret tt).

(** The request body: [request.json()] throws on text that is not JSON,
    and the schema rejects JSON of the wrong shape. *)
Inductive Body : Type :=
| Malformed
| Invalid
| Valid (input : WearableInput).

Definition POST (env : Env) (body : Body) : Eff Response :=
  try_catch
    (match body with
     | Malformed => throw
     | Invalid => ret (ErrorResponse 400 "Invalid request body")
     | Valid input =>
         let userId := in_userId input in
         if unauthorized env userId then ret (ErrorResponse 401 "Unauthorized")
         else
           wearableData <- call env (insertWearable input) ;;
           match wearableData with
           | Failure => ret (ErrorResponse 500 "Failed to save wearable data")
           | Data wearableData =>
               _ <- updateHealthMetrics env userId (data_type input) (value input) ;;
               ret (WearableResponse wearableData "Wearable data saved successfully")
           end
     end)
    (ret (ErrorResponse 500 "Internal server error")).

(** A request starts with no call issued and leaves the tables behind. *)
Definition serve {A : Type} (handler : Eff A) (db : Db) : outcome A * Db :=
  let (r, w) := handler {| tables := db; issued := 0 |} in (r, tables w).

(* ------------------------------------------------------------------ *)
(** ** The specification's vocabulary *)
(* ------------------------------------------------------------------ *)

(** The data-model invariant of a detection result: its confidence lies
    in [[0, 1]]. *)
Definition validResult (r : DetectionResult) : Prop :=
  (0 <= confidence_score r /\ confidence_score r <= 1)%Q.

(** Sum and arithmetic mean of the confidence scores; an empty channel
    has mean [0]. *)
Definition totalScore (items : list DetectionResult) : Q :=
  fold_right (fun r acc => confidence_score r + acc)%Q 0%Q items.

Definition meanScore (items : list DetectionResult) : Q :=
  match items with
  | [] => 0%Q
  | _ => (totalScore items / inject_Z (Z.of_nat (List.length items)))%Q
  end.

(** [round((facialAvg*0.35 + speechAvg*0.40 + behavioralAvg*0.25) * 100)] *)
Definition weightedScore (facialAvg speechAvg behavioralAvg : Q) : Z :=
  round_half_up ((facialAvg * (35 # 100) + speechAvg * (40 # 100) + behavioralAvg * (25 # 100))
                 * 100)%Q.

(** A detection row with the given type and confidence, for examples. *)
Definition sample (type : string) (confidence : Q) : DetectionResult :=
  {| user_id := "u1"; detection_type := type; confidence_score := confidence;
     risk_indicators := None; created_at := 0 |}.

(** [l] when [cond] holds, nothing otherwise. *)
Definition whenever {A : Type} (cond : bool) (l : list A) : list A :=
  if cond then l else [].

(** The gates of the conditional activities, over the whole recent set. *)
Definition someBelow (type : string) (threshold : Q) (detections : list DetectionResult) : bool :=
  existsb (fun r => String.eqb (detection_type r) type
                    && Qlt_bool (confidence_score r) threshold) detections.

Definition memoryGate (cognitiveScore : CognitiveScore) : bool :=
  lt (score cognitiveScore) (of_Z 70)
  || includes (score_areas_of_concern cognitiveScore) "memory".

Definition someWithdrawn (detections : list DetectionResult) : bool :=
  existsb (fun r => String.eqb (detection_type r) "behavioral" && socialWithdrawal r) detections.

(** An update that sets one qualitative bucket. *)
Definition sleepUpdate (q : string) : MetricUpdate :=
  {| resting_heart_rate := None; sleep_quality := Some q;
     activity_level := None; stress_level := None |}.

Definition activityUpdate (q : string) : MetricUpdate :=
  {| resting_heart_rate := None; sleep_quality := None;
     activity_level := Some q; stress_level := None |}.

Definition stressUpdate (q : string) : MetricUpdate :=
  {| resting_heart_rate := None; sleep_quality := None;
     activity_level := None; stress_level := Some q |}.

Definition heartRateUpdate (v : Q) : MetricUpdate :=
  {| resting_heart_rate := Some v; sleep_quality := None;
     activity_level := None; stress_level := None |}.

(** Sample worlds for the examples. *)
Definition emptyDb : Db :=
  {| detection_results := []; cognitive_scores := []; wellness_plans := [];
     wearable_data := []; health_metrics := []; next_id := 0 |}.

Definition sampleDb : Db :=
  {| detection_results :=
       [sample "facial" (8 # 10); sample "speech" (5 # 10); sample "behavioral" (9 # 10)];
     cognitive_scores := []; wellness_plans := [];
     wearable_data := []; health_metrics := []; next_id := 7 |}.

(** An environment for user [u1] at time [now] in which exactly the store
    calls numbered in [failing] fail. *)
Definition sampleEnv (now : Z) (failing : list nat) : Env :=
  {| session := Some "u1"%string;
     clock := now;
     fails := fun k => existsb (Nat.eqb k) failing |}.

(** A store whose only metrics row carries a date that does not parse. *)
Definition undatedMetricsDb : Db :=
  {| detection_results := []; cognitive_scores := []; wellness_plans := [];
     wearable_data := [];
     health_metrics :=
       [{| metrics_id := 0; metrics_user_id := "u1"; metrics_created_at := None;
           metrics := sleepUpdate "poor" |}];
     next_id := 1 |}.

Definition sampleReading : WearableInput :=
  {| in_userId := "u1"; device_type := "smartwatch"; data_type := "sleep";
     timestamp := "2024-01-01T00:00:00Z"; value := 6; unit_label := None |}.

(** [p] is an active plan of [userId] in the store. *)
Definition activePlanOf (userId : string) (db : Db) (p : WellnessPlanRow) : Prop :=
  In p (wellness_plans db) /\ row_user_id p = userId /\ is_active p = true.

(** The age of a plan, in milliseconds, and the freshness window. *)
Definition ageMs (env : Env) (p : WellnessPlanRow) : Z := clock env - row_created_at p.

Definition freshAt (env : Env) (p : WellnessPlanRow) : Prop := ageMs env p < 7 * msPerDay.

(** The plan that a request of [userId] synthesizes from the store. *)
Definition synthesized (env : Env) (userId : string) (db : Db) : WellnessPlan :=
  planFromData (selectLatestScores userId db) (selectRecentDetections userId 10 db) (clock env).

(** No store call of the request fails. *)
Definition reliable (env : Env) : Prop := forall k, fails env k = false.

(** The content of a plan: what the caller displays. *)
Definition rowContent (p : WellnessPlanRow) : string * string * list Activity * Schedule :=
  (row_title p, row_description p, row_activities p, row_schedule p).

Definition planContent (p : WellnessPlan) : string * string * list Activity * Schedule :=
  (plan_title p, plan_description p, activities p, schedule p).

(** *** Risk ranking, in the words of the specification *)

(** The value of a row's [riskIndicators] at [key] is truthy. *)
Definition truthyAt (key : string) (r : DetectionResult) : bool :=
  match risk_indicators r with
  | Some entries =>
      match Obj.get key entries with
      | Some v => truthy v
      | None => false
      end
  | None => false
  end.

(** The number of results whose value at [key] is truthy. *)
Definition frequencyOf (key : string) (data : list DetectionResult) : nat :=
  List.length (filter (truthyAt key) data).

(** [frequency / totalResultCount * 100] *)
Definition percentOf (count total : nat) : number :=
  Fin (inject_Z (Z.of_nat count) / inject_Z (Z.of_nat total) * 100)%Q.

(** The keys of a row that hold a truthy value, in the row's own order. *)
Definition truthyKeys (r : DetectionResult) : list string :=
  match risk_indicators r with
  | Some entries => map fst (filter (fun e => truthy (snd e)) entries)
  | None => []
  end.

(** Every sighting of an indicator, rows in sequence order. *)
Definition sightings (data : list DetectionResult) : list string :=
  flat_map truthyKeys data.

(** The first occurrence of each name, in order. *)
Fixpoint firstOccurrences (l : list string) : list string :=
  match l with
  | [] => []
  | k :: rest => k :: filter (fun x => negb (String.eqb x k)) (firstOccurrences rest)
  end.

(** The indicators in first-seen order. *)
Definition firstSeen (data : list DetectionResult) : list string :=
  firstOccurrences (sightings data).

(** [out] is the ranking the specification describes for [data]: one
    entry per indicator seen, with its frequency and percentage, in
    descending order of frequency, indicators of equal frequency in
    first-seen order, cut to the first five. *)
Definition rankedAsSpecified (data : list DetectionResult) (out : list RiskIndicator) : Prop :=
  exists ranked : list RiskIndicator,
    out = firstn 5 ranked
    /\ Permutation (map indicator ranked) (firstSeen data)
    /\ (forall e, In e ranked ->
          frequency e = frequencyOf (indicator e) data
          /\ percentage e = percentOf (frequency e) (List.length data))
    /\ StronglySorted (fun a b => (frequency b <= frequency a)%nat) ranked
    /\ (forall f : nat,
          filter (fun k => Nat.eqb (frequencyOf k data) f) (map indicator ranked)
          = filter (fun k => Nat.eqb (frequencyOf k data) f) (firstSeen data)).

(** A row's [riskIndicators] object has each name once. *)
Definition wellFormed (r : DetectionResult) : Prop :=
  match risk_indicators r with
  | Some entries => NoDup (map fst entries)
  | None => True
  end.

(** No indicator seen is an array index or a name that [Object.prototype]
    defines. *)
Definition plainNames (data : list DetectionResult) : Prop :=
  forall k, In k (sightings data) -> Obj.is_index k = false /\ Obj.inherited k = false.

(** A row with the given indicators, for examples. *)
Definition flagged (indicators : list (string * jsval)) : DetectionResult :=
  {| user_id := "u1"; detection_type := "behavioral"; confidence_score := 5 # 10;
     risk_indicators := Some indicators; created_at := 0 |}.

(** The count held for [k], [0] when there is none, and membership of a
    name in a list. *)
Definition countOf (k : string) (o : Obj.t nat) : nat :=
  match Obj.get k o with Some n => n | None => O end.

Definition mem (k : string) (l : list string) : bool := existsb (String.eqb k) l.

(** Two rows, the second of which names an indicator by an array index. *)
Definition indexNamed : list DetectionResult :=
  [flagged [("tremor", JBool true)]; flagged [("7", JBool true)]]%string.

(** Three rows with plain indicator names. *)
Definition plainNamed : list DetectionResult :=
  [flagged [("tremor", JBool true); ("apathy", JNum 0)];
   flagged [("social_withdrawal", JBool true); ("tremor", JNum 1)];
   flagged [("apathy", JStr "yes"); ("social_withdrawal", JBool false)]]%string.

(* ------------------------------------------------------------------ *)
(** ** Further vocabulary *)
(* ------------------------------------------------------------------ *)

(** The labels [calculateCognitiveScore] uses for the three channels. *)
Definition concernLabels : list string :=
  ["facial expressions"; "speech patterns"; "behavioral responses"]%string.

(** The row that a successful [PUT] stores for [health]. *)
Definition storedScore (userId : string) (health : CognitiveHealth) (now : Z) : CognitiveScore :=
  {| score := cognitive_score health;
     score_status := status health;
     score_areas_of_concern := Some (areas_of_concern health);
     score_user_id := userId;
     score_created_at := now |}.

(** The score that a request of [userId] computes from the store. *)
Definition computedScore (env : Env) (userId : string) (db : Db) : CognitiveHealth :=
  scoreFromResults (selectDetections userId "facial" 5 db)
                   (selectDetections userId "speech" 5 db)
                   (selectDetections userId "behavioral" 5 db)
                   (clock env).

(** The [cognitive_scores] row that a successful [PUT] appends. *)
Definition storedRow (userId : string) (health : CognitiveHealth) (now : Z) : CognitiveScoreRow :=
  {| stored_score := storedScore userId health now;
     stored_component_scores := component_scores health |}.

(** The text that opens every plan description. *)
Definition descriptionLead : string :=
  "Customized plan based on your cognitive profile and recent assessments. Focus areas include ".

(** From [db] to [db'] only [cognitive_scores] grew, by the rows [new]. *)
Definition onlyScoresGrow (db db' : Db) (new : list CognitiveScoreRow) : Prop :=
  detection_results db' = detection_results db
  /\ cognitive_scores db' = cognitive_scores db ++ new
  /\ wellness_plans db' = wellness_plans db
  /\ wearable_data db' = wearable_data db
  /\ health_metrics db' = health_metrics db.




(** No indicator seen is a name that [Object.prototype] defines. *)
Definition ownNames (data : list DetectionResult) : Prop :=
  forall k, In k (sightings data) -> Obj.inherited k = false.

(** Rows whose indicators include array indices. *)
Definition mixedNamed : list DetectionResult :=
  [flagged [("tremor", JBool true); ("12", JNum 1)];
   flagged [("7", JBool true); ("tremor", JStr "mild")];
   flagged [("12", JBool true); ("apathy", JNull)]]%string.

(** From [db] to [db'] only [wellness_plans] grew, by the rows [new]. *)
Definition onlyPlansGrow (db db' : Db) (new : list WellnessPlanRow) : Prop :=
  detection_results db' = detection_results db
  /\ cognitive_scores db' = cognitive_scores db
  /\ wellness_plans db' = wellness_plans db ++ new
  /\ wearable_data db' = wearable_data db
  /\ health_metrics db' = health_metrics db.

(** The active plans of a user. *)
Definition activePlans (userId : string) (db : Db) : list WellnessPlanRow :=
  filter (fun p => String.eqb (row_user_id p) userId && is_active p) (wellness_plans db).

(** The error answers of the plan endpoint. *)
Definition planErrors : list (nat * string) :=
  [(400%nat, "Invalid query parameters");
   (401%nat, "Unauthorized");
   (500%nat, "Failed to check existing plans");
   (500%nat, "Failed to fetch cognitive data");
   (500%nat, "Failed to fetch detection results")]%string.

(** Two environments that differ at most in the outcome of store call
    [k]. *)
Definition sameBut (k : nat) (env env' : Env) : Prop :=
  session env' = session env /\ clock env' = clock env
  /\ forall i, i <> k -> fails env' i = fails env i.

(** A store whose only plan, active and of user [u1], was created at
    time 0. *)
Definition oldPlanRow : WellnessPlanRow :=
  {| row_id := 3; row_user_id := "u1"; row_title := "Personalized Cognitive Wellness Plan";
     row_description := ""; row_activities := [dailyCheckIn; physicalExercise];
     row_schedule := planSchedule; is_active := true; row_created_at := 0 |}.

Definition oldPlanDb : Db :=
  {| detection_results := []; cognitive_scores := []; wellness_plans := [oldPlanRow];
     wearable_data := []; health_metrics := []; next_id := 4 |}.

(* ------------------------------------------------------------------ *)
(** ** The wellness-plan page (caller of the plan endpoint) *)
(* ------------------------------------------------------------------ *)

(** The days the page can select: [weekdays[new Date().getDay()]] at
    first, then one of the same seven. *)
Definition weekdays : list string :=
  ["sunday"; "monday"; "tuesday"; "wednesday"; "thursday"; "friday"; "saturday"]%string.

(** [plan.schedule.weekly_distribution[selectedDay] || []], for a
    [selectedDay] among [weekdays]. *)
Definition todayActivities (sched : Schedule) (selectedDay : string) : list string :=
  match Obj.get selectedDay (weekly_distribution sched) with
  | Some ids => ids
  | None => []
  end.

(** [plan.activities.filter(activity => todayActivities.includes(activity.id))] *)
Definition filteredActivities (acts : list Activity) (sched : Schedule) (selectedDay : string)
    : list Activity :=
  filter (fun activity => existsb (String.eqb (id activity)) (todayActivities sched selectedDay))
         acts.

(* ------------------------------------------------------------------ *)
(** ** Wearable readings and the daily metrics row *)
(* ------------------------------------------------------------------ *)

(** The row that [insertMetrics] creates. *)
Definition metricsRow (rowId : nat) (userId : string) (now : Z) (updateData : MetricUpdate)
    : HealthMetricsRow :=
  {| metrics_id := rowId; metrics_user_id := userId;
     metrics_created_at := Some now; metrics := updateData |}.

(** The row carries a valid date that falls on a day before [day]. *)
Definition datedBefore (day : Z) (m : HealthMetricsRow) : Prop :=
  match metrics_created_at m with
  | Some t => t / msPerDay < day
  | None => False
  end.

(** The tables that [updateHealthMetrics] never writes. *)
Definition sameButMetrics (db db' : Db) : Prop :=
  detection_results db' = detection_results db
  /\ cognitive_scores db' = cognitive_scores db
  /\ wellness_plans db' = wellness_plans db
  /\ wearable_data db' = wearable_data db.

(** A second reading for the examples: 12000 steps. *)
Definition stepsReading : WearableInput :=
  {| in_userId := "u1"; device_type := "fitness_tracker"; data_type := "activity";
     timestamp := "2024-01-01T18:00:00Z"; value := 12000; unit_label := Some "steps"%string |}.

(* ------------------------------------------------------------------ *)
(** ** The rate-limiting middleware *)
(* ------------------------------------------------------------------ *)

Module Middleware.

(** The value of an entry object of the [rateLimit] map. *)
Record Entry : Type := {
  count : nat;
  resetTime : number
}.

(** The module state.  Entry objects live at addresses; the [rateLimit]
    map takes an identifier to the address of its entry object, and a
    variable that holds an entry holds its address, so that an update
    through the variable is seen through the map exactly as long as the
    map still holds the object. *)
Record Limiter : Type := {
  objects : nat -> Entry;
  allocated : nat;
  rateLimit : Obj.t nat
}.

(** The configuration read from the process environment. *)
Record Config : Type := {
  MAX_REQUESTS : number;
  WINDOW_MS : number;
  OPENAI_API_KEY : option string
}.

(** The configuration when the two limits are not set. *)
Definition defaultConfig (key : option string) : Config :=
  {| MAX_REQUESTS := of_Z 100; WINDOW_MS := of_Z 60000; OPENAI_API_KEY := key |}.

Record Request : Type := {
  x_forwarded_for : option string;     (* the header of that name *)
  pathname : string
}.

(** [null] lets the request through to its handler. *)
Inductive Verdict : Type :=
| Continue
| Reject (http_status : nat) (error : string).

(** [new Map()] *)
Definition start : Limiter :=
  {| objects := fun _ => {| count := 0; resetTime := NaN |};
     allocated := 0;
     rateLimit := [] |}.

(** [rateLimit.delete(identifier)]: the object itself stays where it is. *)
Definition map_delete (identifier : string) (st : Limiter) : Limiter :=
  {| objects := objects st;
     allocated := allocated st;
     rateLimit := filter (fun e => negb (String.eqb (fst e) identifier)) (rateLimit st) |}.

(** [rateLimit.set(identifier, { count, resetTime })] with a new object. *)
Definition map_set (identifier : string) (entry : Entry) (st : Limiter) : Limiter :=
  {| objects := fun a => if Nat.eqb a (allocated st) then entry else objects st a;
     allocated := S (allocated st);
     rateLimit := Obj.set identifier (allocated st) (rateLimit st) |}.

(** [entry.count += 1] on the object at [address]. *)
Definition increment (address : nat) (st : Limiter) : Limiter :=
  {| objects := fun a => if Nat.eqb a address
                         then {| count := S (count (objects st address));
                                 resetTime := resetTime (objects st address) |}
                         else objects st a;
     allocated := allocated st;
     rateLimit := rateLimit st |}.

(** [s.includes(needle)] *)
Fixpoint includes_text (needle s : string) : bool :=
  String.prefix needle s
  || match s with
     | EmptyString => false
     | String _ rest => includes_text needle rest
     end.

(** [req.headers.get('x-forwarded-for') || 'unknown'] *)
Definition ipOf (req : Request) : string :=
  match x_forwarded_for req with
  | Some h => if String.eqb h "" then "unknown" else h
  | None => "unknown"
  end.

(** [`${user.id}:${ip}`] *)
Definition identifierOf (uid : string) (req : Request) : string :=
  (uid ++ ":" ++ ipOf req)%string.

(** Step 3: the chatbot paths need the OpenAI key. *)
Definition keyCheck (cfg : Config) (req : Request) : Verdict :=
  let configured := match OPENAI_API_KEY cfg with
                    | Some k => negb (String.eqb k "")
                    | None => false
                    end in
  if includes_text "/chatbot" (pathname req) && negb configured
  then Reject 500 "OpenAI API key not configured"
  else Continue.

(** The session lookup is taken to resolve, as in the route handlers, so
    the [catch] branch is not reached. *)
Definition mlApiMiddleware (cfg : Config) (env : Env) (req : Request) (st : Limiter)
    : Verdict * Limiter :=
  match session env with
  | None => (Reject 401 "Unauthorized", st)
  | Some uid =>
      let identifier := identifierOf uid req in
      let now := of_Z (clock env) in
      match Obj.get identifier (rateLimit st) with
      | Some userRateLimit =>
          let st1 := if gt now (resetTime (objects st userRateLimit))
                     then map_delete identifier st else st in
          if ge (of_nat (count (objects st1 userRateLimit))) (MAX_REQUESTS cfg)
          then (Reject 429 "Rate limit exceeded. Try again later.", st1)
          else (keyCheck cfg req, increment userRateLimit st1)
      | None =>
          (keyCheck cfg req,
           map_set identifier {| count := 1; resetTime := add now (WINDOW_MS cfg) |} st)
      end
  end.

(** Requests served one after the other. *)
Fixpoint serveAll (cfg : Config) (requests : list (Env * Request)) (st : Limiter)
    : list Verdict * Limiter :=
  match requests with
  | [] => ([], st)
  | (env, req) :: rest =>
      let (v, st1) := mlApiMiddleware cfg env req st in
      let (vs, st2) := serveAll cfg rest st1 in
      (v :: vs, st2)
  end.

(** What the map holds for an identifier. *)
Definition entryOf (st : Limiter) (identifier : string) : option Entry :=
  option_map (objects st) (Obj.get identifier (rateLimit st)).

(** The map holds allocated objects, each under one identifier. *)
Definition separate (st : Limiter) : Prop :=
  (forall identifier a, Obj.get identifier (rateLimit st) = Some a -> (a < allocated st)%nat)
  /\ (forall id1 id2 a, Obj.get id1 (rateLimit st) = Some a ->
                        Obj.get id2 (rateLimit st) = Some a -> id1 = id2).

(** The request was turned away for its rate. *)
Definition limited (v : Verdict) : bool :=
  match v with
  | Reject status _ => Nat.eqb status 429
  | Continue => false
  end.

(** A request of [uid] from [ip] at time [now]. *)
Definition requestAt (uid ip : string) (now : Z) : Env * Request :=
  ({| session := Some uid; clock := now; fails := fun _ => false |},
   {| x_forwarded_for := Some ip; pathname := "/api/ml/analyze" |}).

End Middleware.

(* ------------------------------------------------------------------ *)
(** ** The wearable-data page (caller of the wearable endpoints) *)
(* ------------------------------------------------------------------ *)

(** The label shown beside a reading. *)
Definition getStatusText (dataType : string) (value : Q) : string :=
  let v := Fin value in
  if String.eqb dataType "heart_rate" then
    if lt v (of_Z 60) then "Low" else if gt v (of_Z 100) then "High" else "Normal"
  else if String.eqb dataType "sleep" then
    if lt v (of_Z 6) then "Poor" else if ge v (of_Z 8) then "Excellent" else "Good"
  else if String.eqb dataType "activity" then
    if lt v (of_Z 5000) then "Low" else if ge v (of_Z 10000) then "Excellent" else "Good"
  else if String.eqb dataType "stress" then
    if lt v (of_Z 30) then "Low" else if gt v (of_Z 70) then "High" else "Moderate"
  else "Normal".

Definition red : string := "bg-red-100 text-red-800".
Definition amber : string := "bg-amber-100 text-amber-800".
Definition green : string := "bg-green-100 text-green-800".
Definition gray : string := "bg-gray-100 text-gray-800".

(** The colour of that label. *)
Definition getStatusColor (dataType : string) (value : Q) : string :=
  let status := getStatusText dataType value in
  if String.eqb dataType "heart_rate" then
    if String.eqb status "Normal" then green else amber
  else if String.eqb dataType "sleep" then
    if String.eqb status "Poor" then red
    else if String.eqb status "Good" then amber else green
  else if String.eqb dataType "activity" then
    if String.eqb status "Low" then red
    else if String.eqb status "Good" then amber else green
  else if String.eqb dataType "stress" then
    if String.eqb status "High" then red
    else if String.eqb status "Moderate" then amber else green
  else gray.

(* ------------------------------------------------------------------ *)
(** ** detection-results route: the trend endpoint *)
(* ------------------------------------------------------------------ *)

Module DetectionRoute.

(** [.order('created_at', { ascending: true })]; rows of equal date keep
    their table order. *)
Fixpoint insertEarliest {A : Type} (key : A -> Z) (x : A) (sorted : list A) : list A :=
  match sorted with
  | [] => [x]
  | y :: rest => if key y <? key x then y :: insertEarliest key x rest else x :: sorted
  end.

Definition earliestFirst {A : Type} (key : A -> Z) (rows : list A) : list A :=
  fold_right (insertEarliest key) [] rows.

(** The row is one of [userId] and of the detection type asked for,
    dated in [[startDate, now]]. *)
Definition inWindow (userId type : string) (startDate now : Z) (r : DetectionResult)
    : bool :=
  String.eqb (user_id r) userId
  && String.eqb (detection_type r) type
  && (startDate <=? created_at r)
  && (created_at r <=? now).

(** The query of [analyzeTrends]. *)
Definition selectWindow (userId type : string) (startDate now : Z) (db : Db)
    : list DetectionResult :=
  earliestFirst created_at (filter (inWindow userId type startDate now)
                                   (detection_results db)).

Inductive TrendResponse : Type :=
| TrendError (http_status : nat) (error : string)
| TrendBody (analysis : TrendAnalysis).

(** The values of [z.enum(['day', 'week', 'month', 'year'])]. *)
Definition timeframes : list string := ["day"; "week"; "month"; "year"]%string.

(** [url.searchParams.get('timeframe') || 'week'] *)
Definition timeframeOf (timeframeParam : option string) : string :=
  match timeframeParam with
  | Some t => if String.eqb t "" then "week" else t
  | None => "week"
  end%string.

Section Calendar.

(** The start of the window: [now] moved back by a day, a week, a month
    or a year with the calendar arithmetic of [Date]. *)
Variable startDate : string -> Z -> Z.

(** [analyzeTrends] as a whole: its query, then the analysis of the rows
    by the [analyzeTrends] of the first part. *)
Definition analyzeTrends (env : Env) (userId detection_type timeframe : string)
    : Eff TrendAnalysis :=
  let now := clock env in
  rows <- query env (selectWindow userId detection_type (startDate timeframe now) now) ;;
  ret (analyzeTrends timeframe rows).

Definition PATCH (env : Env) (userIdParam detectionTypeParam timeframeParam : option string)
    : Eff TrendResponse :=
  try_catch
    (match userIdParam, detectionTypeParam with
     | Some userId, Some detection_type =>
         let timeframe := timeframeOf timeframeParam in
         if negb (mem timeframe timeframes) then ret (TrendError 400 "Invalid query parameters")
         else if unauthorized env userId then ret (TrendError 401 "Unauthorized")
         else
           trendAnalysis <- analyzeTrends env userId detection_type timeframe ;;
           match trendAnalysis with
           | TrendFailure error => ret (TrendError 500 error)
           | _ => ret (TrendBody trendAnalysis)
           end
     | _, _ => ret (TrendError 400 "Invalid query parameters")
     end)
    (ret (TrendError 500 "Internal server error")).

End Calendar.

End DetectionRoute.

(* ------------------------------------------------------------------ *)
(** ** Binary64 arithmetic *)
(* ------------------------------------------------------------------ *)

(** The arithmetic of the routes as JavaScript performs it: every
    operation returns the double nearest to the exact result, ties to
    even, and an infinity when that double would reach [2^1024].  A
    finite number is still carried as the rational it denotes; the
    doubles are the multiples of [2^-1074] with at most 53 significant
    bits.  Signed zeros are not distinguished. *)
Module Binary64.

Definition scale : Z := 2 ^ 1074.

(** The integer nearest to [m], a tie going to the even one. *)
Definition round_half_even (m : Q) : Z :=
  let f := Qfloor m in
  match (m - inject_Z f ?= 1 # 2)%Q with
  | Lt => f
  | Gt => f + 1
  | Eq => if Z.even f then f else f + 1
  end.

(** The nearest number of 53 significant bits and exponent at least
    [-1074], the exponent unbounded above: [q] is counted in units of
    [2^-1074], and rounded to a multiple of [2^k] where [k] leaves 53
    bits. *)
Definition nearest (q : Q) : Q :=
  let x := (q * inject_Z scale)%Q in
  let k := Z.max (Z.log2 (Qfloor (Qabs x)) - 52) 0 in
  let n := round_half_even (x / inject_Z (2 ^ k)) * 2 ^ k in
  Qred (inject_Z n / inject_Z scale).

Definition huge : Q := inject_Z (2 ^ 1024).

(** The double that stands for the exact value [q]. *)
Definition fl (q : Q) : number :=
  let r := nearest q in
  if Qle_bool huge (Qabs r) then Inf (is_neg r) else Fin r.

Definition rounded (x : number) : number :=
  match x with
  | Fin q => fl q
  | other => other
  end.

(** A decimal literal of the source, or a decimal column read as a
    number. *)
Definition literal (q : Q) : number := fl q.

Definition add (x y : number) : number := rounded (Js.add x y).
Definition sub (x y : number) : number := rounded (Js.sub x y).
Definition mul (x y : number) : number := rounded (Js.mul x y).
Definition div (x y : number) : number := rounded (Js.div x y).

(** The error of one rounding: relative [2^-53], absolute [2^-1075] near
    zero. *)
Definition unit_roundoff : Q := 1 # 9007199254740992.
Definition eta : Q := (1 / inject_Z scale) / 2.

End Binary64.

(* ------------------------------------------------------------------ *)
(** ** The scoring and trend computations in binary64 *)
(* ------------------------------------------------------------------ *)

(** The functions of the detection-results route whose result depends on
    how the arithmetic rounds, with every operation taken from
    [Binary64].  Comparisons, [Math.round] and [Math.abs] are exact on
    doubles and are those of [Js]. *)
Module Route64.

(** [item.confidence_score]: the stored decimal, as the number the client
    parses it to. *)
Definition scoreOf (item : DetectionResult) : number :=
  Binary64.literal (confidence_score item).

(** [items.reduce((sum, item) => sum + item.confidence_score, 0)] *)
Definition sumScores (items : list DetectionResult) : number :=
  fold_left (fun sum item => Binary64.add sum (scoreOf item)) items (Fin 0).

Definition facialWeight : number := Binary64.literal (35 # 100).
Definition speechWeight : number := Binary64.literal (4 # 10).
Definition behavioralWeight : number := Binary64.literal (25 # 100).
Definition concernThreshold : number := Binary64.literal (6 # 10).

(** [let avg = 0; if (results && results.length > 0) avg = sum / length] *)
Definition channelAverage (results : list DetectionResult) : number :=
  if (0 <? List.length results)%nat
  then Binary64.div (sumScores results) (of_nat (List.length results))
  else Fin 0.

(** The weighted sum handed to [Math.round]. *)
Definition weighted (facialAvg speechAvg behavioralAvg : number) : number :=
  Binary64.mul
    (Binary64.add (Binary64.add (Binary64.mul facialAvg facialWeight)
                                (Binary64.mul speechAvg speechWeight))
                  (Binary64.mul behavioralAvg behavioralWeight))
    (of_Z 100).

(** The body of [calculateCognitiveScore] after its three queries. *)
Definition scoreFromResults (facialResults speechResults behavioralResults : list DetectionResult)
    (now : Z) : CognitiveHealth :=
  let facialAvg := channelAverage facialResults in
  let speechAvg := channelAverage speechResults in
  let behavioralAvg := channelAverage behavioralResults in
  let cognitiveScore := Math_round (weighted facialAvg speechAvg behavioralAvg) in
  let areasOfConcern :=
    (if lt facialAvg concernThreshold then ["facial expressions"%string] else []) ++
    (if lt speechAvg concernThreshold then ["speech patterns"%string] else []) ++
    (if lt behavioralAvg concernThreshold then ["behavioral responses"%string] else []) in
  {| cognitive_score := cognitiveScore;
     status := statusOf cognitiveScore;
     areas_of_concern := areasOfConcern;
     component_scores :=
       {| facial := Math_round (Binary64.mul facialAvg (of_Z 100));
          speech := Math_round (Binary64.mul speechAvg (of_Z 100));
          behavioral := Math_round (Binary64.mul behavioralAvg (of_Z 100)) |};
     last_updated := now |}.

Definition calculateCognitiveScore (env : Env) (userId : string)
    : Eff (string + CognitiveHealth) :=
  facialResults <- query env (selectDetections userId "facial" 5) ;;
  speechResults <- query env (selectDetections userId "speech" 5) ;;
  behavioralResults <- query env (selectDetections userId "behavioral" 5) ;;
  match facialResults, speechResults, behavioralResults with
  | Data f, Data s, Data b => ret (inr (scoreFromResults f s b (clock env)))
  | _, _, _ => ret (inl "Failed to calculate cognitive score"%string)
  end.

(** [items.reduce(...) / items.length] *)
Definition averageOf (items : list DetectionResult) : number :=
  Binary64.div (sumScores items) (of_nat (List.length items)).

Definition changePercentage (firstHalfAvg secondHalfAvg : number) : number :=
  if strict_neq firstHalfAvg (of_Z 0)
  then abs (Binary64.mul (Binary64.div (Binary64.sub secondHalfAvg firstHalfAvg) firstHalfAvg)
                         (of_Z 100))
  else of_Z 0.

Definition trendOf (data : list DetectionResult) : Trend :=
  let firstHalfAvg := averageOf (firstHalf data) in
  let secondHalfAvg := averageOf (secondHalf data) in
  {| direction := trendDirection firstHalfAvg secondHalfAvg;
     change_percentage := changePercentage firstHalfAvg secondHalfAvg |}.

Definition sortedRiskIndicators (data : list DetectionResult) : list RiskIndicator :=
  map (fun e => {| indicator := fst e;
                   frequency := snd e;
                   percentage :=
                     Binary64.mul (Binary64.div (of_nat (snd e)) (of_nat (List.length data)))
                                  (of_Z 100) |})
      (sortByCount (Obj.entries (tally data))).

(** [analyzeTrends], given what its query resolved to. *)
Definition analyzeTrends (timeframe : string) (rows : reply (list DetectionResult))
    : TrendAnalysis :=
  match rows with
  | Failure => TrendFailure "Failed to analyze trends"
  | Data [] => NoData "No data available for trend analysis"
  | Data data =>
      Report {| timeframe := timeframe;
                data_points := List.length data;
                average_score := averageOf data;
                trend := trendOf data;
                common_risk_indicators := firstn 5 (sortedRiskIndicators data);
                raw_data := map (fun item => (created_at item, confidence_score item)) data |}
  end.

End Route64.

(** *** Vocabulary for the binary64 statements *)

(** The distance allowed between a channel mean computed in binary64
    and the exact mean ([10^-14]), between the weighted sum handed to
    [Math.round] and the exact weighted sum, on the scale of 0 to 100
    ([10^-11]), and between the mean of a series computed in binary64
    and its exact mean ([2 * 10^-9]). *)
Definition channelTolerance : Q := 1 # 100000000000000.
Definition scoreTolerance : Q := 1 # 100000000000.
Definition seriesTolerance : Q := 1 # 500000000.

(** At most five rows, each within the data-model invariant: what a
    channel query of [calculateCognitiveScore] returns from a valid
    store. *)
Definition validChannel (results : list DetectionResult) : Prop :=
  (List.length results <= 5)%nat /\ Forall validResult results.

(** A series of a trend window: valid rows, and no more than [2^20] of
    them. *)
Definition validSeries (data : list DetectionResult) : Prop :=
  Z.of_nat (List.length data) <= 1048576 /\ Forall validResult data.

(** The exact weighted sum of three means, on the scale of 0 to 100. *)
Definition exactWeighted (facialAvg speechAvg behavioralAvg : Q) : Q :=
  ((facialAvg * (35 # 100) + speechAvg * (40 # 100) + behavioralAvg * (25 # 100)) * 100)%Q.

(** How a channel comes to be listed among the areas of concern: by its
    mean as computed against the double of 0.6, which settles every
    channel whose exact mean is not within [channelTolerance] of 0.6, and
    an empty channel. *)
Definition concernRule (label : string) (results : list DetectionResult) (areas : list string)
    : Prop :=
  (In label areas <-> lt (Route64.channelAverage results) Route64.concernThreshold = true)
  /\ ((meanScore results < (6 # 10) - channelTolerance)%Q -> In label areas)
  /\ (((6 # 10) + channelTolerance <= meanScore results)%Q -> ~ In label areas)
  /\ (results = [] -> In label areas).

(** A result of [changePercentage] is not [NaN] and not negative. *)
Definition magnitude (c : number) : Prop :=
  c = Inf false \/ exists q, c = Fin q /\ (0 <= q)%Q.

(* ================================================================== *)
(** * Properties *)
(* ================================================================== *)

(** ** Arithmetic of the number model *)

Lemma Qle_bool_inject_Z (a b : Z) : Qle_bool (inject_Z a) (inject_Z b) = (a <=? b).
Proof. unfold Qle_bool; simpl. now rewrite !Z.mul_1_r. Qed.

Lemma lt_of_Z (a b : Z) : lt (of_Z a) (of_Z b) = (a <? b).
Proof.
  unfold of_Z, lt, Qlt_bool. rewrite Qle_bool_inject_Z.
  rewrite Z.ltb_antisym. reflexivity.
Qed.

Lemma Qlt_bool_iff (x y : Q) : Qlt_bool x y = true <-> (x < y)%Q.
Proof.
  unfold Qlt_bool. rewrite negb_true_iff. split; intro H.
  - apply Qnot_le_lt. intro Hle. apply Qle_bool_iff in Hle. congruence.
  - destruct (Qle_bool y x) eqn:E; [|reflexivity].
    apply Qle_bool_iff in E. exfalso. apply (Qlt_not_le _ _ H E).
Qed.

Lemma is_zero_iff (q : Q) : is_zero q = true <-> (q == 0)%Q.
Proof. unfold is_zero. apply Qeq_bool_iff. Qed.

Lemma round_half_up_comp (x y : Q) : (x == y)%Q -> round_half_up x = round_half_up y.
Proof. intro H. unfold round_half_up. now rewrite H. Qed.

Lemma round_half_up_bounds (x : Q) (n : Z) :
  (0 <= x)%Q -> (x <= inject_Z n)%Q -> 0 <= round_half_up x <= n.
Proof.
  intros H0 Hn. unfold round_half_up. split.
  - change 0 with (Qfloor 0). apply Qfloor_resp_le. lra.
  - apply Z.lt_succ_r. rewrite Zlt_Qlt.
    apply Qle_lt_trans with (x + (1 # 2))%Q; [apply Qfloor_le|].
    unfold Z.succ. rewrite inject_Z_plus. change (inject_Z 1) with 1%Q. lra.
Qed.

(** ** Composite score *)

Lemma sumScores_from (items : list DetectionResult) (acc : Q) :
  exists q, fold_left (fun sum item => add sum (Fin (confidence_score item))) items (Fin acc) = Fin q
            /\ (q == acc + totalScore items)%Q.
Proof.
  revert acc. induction items as [|r items IH]; intros acc; simpl.
  - exists acc. split; [reflexivity | lra].
  - destruct (IH (acc + confidence_score r)%Q) as [q [Hq Heq]].
    exists q. split; [exact Hq | lra].
Qed.

Lemma sumScores_total (items : list DetectionResult) :
  exists q, sumScores items = Fin q /\ (q == totalScore items)%Q.
Proof.
  destruct (sumScores_from items 0) as [q [Hq Heq]].
  exists q. split; [exact Hq | lra].
Qed.

Lemma is_zero_of_pos (n : nat) : (0 < n)%nat -> is_zero (inject_Z (Z.of_nat n)) = false.
Proof.
  intro H. destruct (is_zero (inject_Z (Z.of_nat n))) eqn:E; [|reflexivity].
  apply is_zero_iff in E. unfold Qeq in E. simpl in E. lia.
Qed.

Lemma channelAverage_mean (results : list DetectionResult) :
  exists q, channelAverage results = Fin q /\ (q == meanScore results)%Q.
Proof.
  unfold channelAverage. destruct results as [|r rest].
  - exists 0%Q. split; reflexivity.
  - change (0 <? List.length (r :: rest))%nat with true. cbv iota.
    destruct (sumScores_total (r :: rest)) as [q [Hq Heq]]. rewrite Hq.
    unfold of_nat, of_Z, div. rewrite is_zero_of_pos by (simpl; lia).
    eexists. split; [reflexivity|].
    unfold meanScore. now rewrite Heq.
Qed.

Lemma totalScore_bounds (items : list DetectionResult) :
  Forall validResult items ->
  (0 <= totalScore items /\ totalScore items <= inject_Z (Z.of_nat (List.length items)))%Q.
Proof.
  induction 1 as [|r items [Hr0 Hr1] _ [IH0 IH1]].
  - simpl. split; apply Qle_refl.
  - change (List.length (r :: items)) with (S (List.length items)).
    rewrite Nat2Z.inj_succ. unfold Z.succ. rewrite inject_Z_plus.
    change (inject_Z 1) with 1%Q. simpl totalScore. split; lra.
Qed.

Lemma meanScore_bounds (items : list DetectionResult) :
  Forall validResult items -> (0 <= meanScore items /\ meanScore items <= 1)%Q.
Proof.
  intro H. destruct items as [|r rest].
  - simpl. split; [apply Qle_refl | discriminate].
  - destruct (totalScore_bounds _ H) as [H0 H1].
    unfold meanScore.
    set (n := inject_Z (Z.of_nat (List.length (r :: rest)))) in *.
    assert (Hn : (0 < n)%Q).
    { unfold n. change 0%Q with (inject_Z 0). rewrite <- Zlt_Qlt. simpl. lia. }
    split.
    + apply Qle_shift_div_l; [exact Hn | lra].
    + apply Qle_shift_div_r; [exact Hn | lra].
Qed.

Lemma scoreFromResults_values
    (facialResults speechResults behavioralResults : list DetectionResult) (now : Z) :
  let r := scoreFromResults facialResults speechResults behavioralResults now in
  cognitive_score r
    = of_Z (weightedScore (meanScore facialResults) (meanScore speechResults)
                          (meanScore behavioralResults)) /\
  facial (component_scores r) = of_Z (round_half_up (meanScore facialResults * 100)) /\
  speech (component_scores r) = of_Z (round_half_up (meanScore speechResults * 100)) /\
  behavioral (component_scores r) = of_Z (round_half_up (meanScore behavioralResults * 100)).
Proof.
  cbv zeta.
  destruct (channelAverage_mean facialResults) as [fa [Hfa Ef]].
  destruct (channelAverage_mean speechResults) as [sa [Hsa Es]].
  destruct (channelAverage_mean behavioralResults) as [ba [Hba Eb]].
  unfold scoreFromResults. rewrite Hfa, Hsa, Hba.
  cbn [cognitive_score component_scores facial speech behavioral].
  unfold facialWeight, speechWeight, behavioralWeight, of_Z, mul, add, Math_round, weightedScore.
  change (inject_Z 100) with 100%Q.
  split; [|split; [|split]]; f_equal; f_equal; apply round_half_up_comp.
  - rewrite Ef, Es, Eb. lra.
  - now rewrite Ef.
  - now rewrite Es.
  - now rewrite Eb.
Qed.


Lemma weightedScore_range (facialAvg speechAvg behavioralAvg : Q) :
  (0 <= facialAvg)%Q -> (facialAvg <= 1)%Q ->
  (0 <= speechAvg)%Q -> (speechAvg <= 1)%Q ->
  (0 <= behavioralAvg)%Q -> (behavioralAvg <= 1)%Q ->
  0 <= weightedScore facialAvg speechAvg behavioralAvg <= 100.
Proof.
  intros. apply (round_half_up_bounds _ 100); change (inject_Z 100) with 100%Q; lra.
Qed.


Ltac valid_samples :=
  repeat (apply Forall_cons; [split; discriminate|]); apply Forall_nil.


(** ** Status ladder *)

Lemma statusOf_cases (z : Z) :
  statusOf (of_Z z) =
    if z <? 50 then "concerning"%string
    else if z <? 70 then "moderate"%string else "healthy"%string.
Proof. unfold statusOf. now rewrite !lt_of_Z. Qed.

(** C2.  The status is "concerning" exactly below 50, "moderate" exactly
    on [50, 70), "healthy" exactly from 70 up, and always one of the
    three; for results that satisfy the data-model invariant the score
    lies in [0, 100], so that "concerning" is exactly [0, 50). *)
Theorem status_partition
    (facialResults speechResults behavioralResults : list DetectionResult) (now : Z) :
  let r := scoreFromResults facialResults speechResults behavioralResults now in
  exists z : Z,
    cognitive_score r = of_Z z /\
    (status r = "concerning"%string <-> z < 50) /\
    (status r = "moderate"%string <-> 50 <= z < 70) /\
    (status r = "healthy"%string <-> 70 <= z) /\
    (status r = "concerning" \/ status r = "moderate" \/ status r = "healthy")%string /\
    (Forall validResult facialResults -> Forall validResult speechResults ->
     Forall validResult behavioralResults ->
     0 <= z <= 100 /\ (status r = "concerning"%string <-> 0 <= z < 50)).
Proof.
  intros r.
  destruct (scoreFromResults_values facialResults speechResults behavioralResults now)
    as (Hscore & _).
  set (z := weightedScore (meanScore facialResults) (meanScore speechResults)
                          (meanScore behavioralResults)) in *.
  exists z. split; [exact Hscore|].
  assert (Hst : status r = statusOf (of_Z z)).
  { unfold r at 1. unfold scoreFromResults. cbn [status].
    unfold scoreFromResults in Hscore. cbn [cognitive_score] in Hscore.
    now rewrite Hscore. }
  assert (Hrange : Forall validResult facialResults -> Forall validResult speechResults ->
                   Forall validResult behavioralResults -> 0 <= z <= 100).
  { intros Hf Hs Hb.
    destruct (meanScore_bounds _ Hf) as [? ?].
    destruct (meanScore_bounds _ Hs) as [? ?].
    destruct (meanScore_bounds _ Hb) as [? ?].
    now apply weightedScore_range. }
  rewrite Hst, statusOf_cases.
  destruct (z <? 50) eqn:E50; [|destruct (z <? 70) eqn:E70].
  - apply Z.ltb_lt in E50.
    repeat split; try discriminate; try lia; auto; intros; try apply Hrange; auto; lia.
  - apply Z.ltb_ge in E50. apply Z.ltb_lt in E70.
    repeat split; try discriminate; try lia; auto; intros; try apply Hrange; auto; lia.
  - apply Z.ltb_ge in E50. apply Z.ltb_ge in E70.
    repeat split; try discriminate; try lia; auto; intros; try apply Hrange; auto; lia.
Qed.

(** The same scenario: a score of 71 is "healthy". *)
Lemma status_partition_witness :
  exists z : Z,
    cognitive_score
      (scoreFromResults [sample "facial" (8 # 10)] [sample "speech" (5 # 10)]
                        [sample "behavioral" (9 # 10)] 0) = of_Z z /\
    status
      (scoreFromResults [sample "facial" (8 # 10)] [sample "speech" (5 # 10)]
                        [sample "behavioral" (9 # 10)] 0) = "healthy"%string /\
    70 <= z <= 100.
Proof.
  destruct (status_partition
              [sample "facial" (8 # 10)] [sample "speech" (5 # 10)]
              [sample "behavioral" (9 # 10)] 0) as (z & Hz & _ & _ & Hh & _ & Hvalid).
  exists z. split; [exact Hz|]. split; [reflexivity|].
  destruct Hvalid as (Hrange & _); [valid_samples ..|].
  assert (70 <= z) by (apply Hh; reflexivity). lia.
Defined.

(** ** Trend analyzer *)


(** C4 (as the code behaves).  With one observation the first half is
    empty, its average is [0 / 0], and the trend is "stable" with a change
    percentage of [NaN], not 0. *)
Theorem single_observation_trend (timeframe : string) (r : DetectionResult) :
  exists rep,
    analyzeTrends timeframe (Data [r]) = Report rep /\
    direction (trend rep) = "stable"%string /\
    change_percentage (trend rep) = NaN /\
    change_percentage (trend rep) <> of_Z 0.
Proof.
  eexists. split; [reflexivity|]. cbn.
  repeat split. discriminate.
Qed.

(** The failing input of C4, evaluated. *)
Example single_observation_example :
  trendOf [sample "facial" (5 # 10)] = {| direction := "stable"; change_percentage := NaN |}.
Proof. reflexivity. Qed.



(** ** Wellness plan synthesis *)

Lemma existsb_ofType (type : string) (f : DetectionResult -> bool) (l : list DetectionResult) :
  (0 <? List.length (ofType type l))%nat && existsb f (ofType type l)
  = existsb (fun r => String.eqb (detection_type r) type && f r) l.
Proof.
  assert (H : existsb f (ofType type l)
              = existsb (fun r => String.eqb (detection_type r) type && f r) l).
  { induction l as [|r l IH]; [reflexivity|].
    simpl. destruct (String.eqb (detection_type r) type); simpl; now rewrite IH. }
  rewrite <- H. destruct (ofType type l); reflexivity.
Qed.


(** ** Health metric updater *)

Lemma ge_Fin (v : Q) (n : Z) : ge (Fin v) (of_Z n) = Qle_bool (inject_Z n) v.
Proof. reflexivity. Qed.

Lemma le_Fin (v : Q) (n : Z) : le (Fin v) (of_Z n) = Qle_bool v (inject_Z n).
Proof. reflexivity. Qed.

Lemma Qle_bool_false (x y : Q) : Qle_bool x y = false <-> (y < x)%Q.
Proof.
  rewrite <- Qlt_bool_iff. unfold Qlt_bool.
  destruct (Qle_bool x y); simpl; split; congruence.
Qed.

Ltac bucket :=
  repeat match goal with
         | |- context [Qle_bool ?a ?b] =>
             let E := fresh "E" in
             destruct (Qle_bool a b) eqn:E;
             [apply Qle_bool_iff in E | apply Qle_bool_false in E]
         end;
  repeat split; intros; try reflexivity;
  unfold inject_Z in *; exfalso; lra.

(** C8.  The update built from a reading: heart rate verbatim; sleep,
    activity and stress by their thresholds; no update, and no write, for
    any other data type. *)
Theorem metric_update_mapping (value : Q) :
  metricUpdate "heart_rate" value = Some (heartRateUpdate value)
  /\ (exists q, metricUpdate "sleep" value = Some (sleepUpdate q)
                /\ ((7 <= value)%Q -> q = "good"%string)
                /\ ((5 <= value)%Q -> (value < 7)%Q -> q = "fair"%string)
                /\ ((value < 5)%Q -> q = "poor"%string))
  /\ (exists q, metricUpdate "activity" value = Some (activityUpdate q)
                /\ ((10000 <= value)%Q -> q = "high"%string)
                /\ ((5000 <= value)%Q -> (value < 10000)%Q -> q = "moderate"%string)
                /\ ((value < 5000)%Q -> q = "low"%string))
  /\ (exists q, metricUpdate "stress" value = Some (stressUpdate q)
                /\ ((value <= 30)%Q -> q = "low"%string)
                /\ ((30 < value)%Q -> (value <= 70)%Q -> q = "moderate"%string)
                /\ ((70 < value)%Q -> q = "high"%string))
  /\ (forall dataType : string,
        dataType <> "heart_rate"%string -> dataType <> "sleep"%string ->
        dataType <> "activity"%string -> dataType <> "stress"%string ->
        metricUpdate dataType value = None
        /\ forall env userId w,
             exists w', updateHealthMetrics env userId dataType value w = (Returned tt, w')
                        /\ tables w' = tables w).
Proof.
  split; [reflexivity|]. split; [|split; [|split]].
  - eexists. split; [reflexivity|]. rewrite !ge_Fin. bucket.
  - eexists. split; [reflexivity|]. rewrite !ge_Fin. bucket.
  - eexists. split; [reflexivity|]. rewrite !le_Fin. bucket.
  - intros dataType H1 H2 H3 H4.
    assert (Hnone : metricUpdate dataType value = None).
    { unfold metricUpdate.
      apply String.eqb_neq in H1, H2, H3, H4. now rewrite H1, H2, H3, H4. }
    split; [exact Hnone|]. intros env userId w.
    unfold updateHealthMetrics, try_catch, bind, query, call. rewrite Hnone.
    destruct (fails env (issued w)); eexists; split; reflexivity.
Qed.

(** The bucket example of the specification: 7.5 hours of sleep are
    "good", 6 are "fair", 4 are "poor". *)
Lemma metric_update_witness :
  metricUpdate "sleep" (75 # 10) = Some (sleepUpdate "good")
  /\ metricUpdate "sleep" 6 = Some (sleepUpdate "fair")
  /\ metricUpdate "sleep" 4 = Some (sleepUpdate "poor").
Proof.
  destruct (metric_update_mapping (75 # 10)) as (_ & (q1 & E1 & G1 & _) & _).
  destruct (metric_update_mapping 6) as (_ & (q2 & E2 & _ & F2 & _) & _).
  destruct (metric_update_mapping 4) as (_ & (q3 & E3 & _ & _ & P3) & _).
  rewrite E1, E2, E3, G1, F2, P3; try (repeat split; reflexivity); try discriminate; reflexivity.
Defined.

(** ** Request handlers *)

Lemma updateHealthMetrics_returns (env : Env) (userId dataType : string) (value : Q) (w : World) :
  exists w', updateHealthMetrics env userId dataType value w = (Returned tt, w').
Proof.
  unfold updateHealthMetrics, try_catch, bind, query, call, isoDay, ret, throw,
    updateMetrics, insertMetrics.
  destruct (fails env (issued w)); [eexists; reflexivity|].
  destruct (metricUpdate dataType value) as [updateData|]; [|eexists; reflexivity].
  destruct (selectLatestMetrics userId (tables w)) as [m|]; cbn [issued tables].
  - destruct (metrics_created_at m) as [t|]; [|eexists; reflexivity].
    destruct (clock env / msPerDay =? t / msPerDay); cbn [issued tables];
      destruct (fails env (S (issued w))); eexists; reflexivity.
  - destruct (fails env (S (issued w))); eexists; reflexivity.
Qed.

(** C10.  Once the wearable row is inserted the endpoint answers with
    success and that row, whatever happens in [updateHealthMetrics]: a
    failed fetch, a failed or skipped write and an exception all end in a
    plain return. *)
Theorem wearable_post_ignores_metrics (env : Env) (input : WearableInput) (w : World) :
  unauthorized env (in_userId input) = false ->
  fails env (issued w) = false ->
  (exists w',
     POST env (Valid input) w =
       (Returned (WearableResponse
                    {| wearable_id := next_id (tables w); wearable_input := input |}
                    "Wearable data saved successfully"),
        w'))
  /\ (forall userId dataType value w0,
        exists w1, updateHealthMetrics env userId dataType value w0 = (Returned tt, w1)).
Proof.
  intros Hauth Hins. split.
  - unfold POST, try_catch. rewrite Hauth.
    unfold bind at 1. unfold call at 1. rewrite Hins. cbn [insertWearable].
    unfold bind.
    match goal with
    | |- context [updateHealthMetrics ?e ?u ?d ?v ?w0] =>
        destruct (updateHealthMetrics_returns e u d v w0) as [w1 Hw1]; rewrite Hw1
    end.
    eexists. reflexivity.
  - intros. apply updateHealthMetrics_returns.
Qed.

(** Three submissions answered with success: the metrics fetch (store
    call 1) fails; the latest metrics row carries no valid date, so
    comparing the days throws; the metrics write (store call 2) fails. *)
Lemma wearable_post_witness :
  (exists w',
     POST (sampleEnv 86400000 [1%nat]) (Valid sampleReading)
          {| tables := emptyDb; issued := 0 |} =
       (Returned (WearableResponse {| wearable_id := 0; wearable_input := sampleReading |}
                                   "Wearable data saved successfully"), w'))
  /\ (exists w',
        POST (sampleEnv 86400000 []) (Valid sampleReading)
             {| tables := undatedMetricsDb; issued := 0 |} =
          (Returned (WearableResponse {| wearable_id := 1; wearable_input := sampleReading |}
                                      "Wearable data saved successfully"), w'))
  /\ (exists w',
        POST (sampleEnv 86400000 [2%nat]) (Valid sampleReading)
             {| tables := emptyDb; issued := 0 |} =
          (Returned (WearableResponse {| wearable_id := 0; wearable_input := sampleReading |}
                                      "Wearable data saved successfully"), w')).
Proof.
  split; [|split].
  - destruct (wearable_post_ignores_metrics
                (sampleEnv 86400000 [1%nat]) sampleReading {| tables := emptyDb; issued := 0 |})
      as [H _]; [reflexivity | reflexivity | exact H].
  - destruct (wearable_post_ignores_metrics
                (sampleEnv 86400000 []) sampleReading
                {| tables := undatedMetricsDb; issued := 0 |})
      as [H _]; [reflexivity | reflexivity | exact H].
  - destruct (wearable_post_ignores_metrics
                (sampleEnv 86400000 [2%nat]) sampleReading {| tables := emptyDb; issued := 0 |})
      as [H _]; [reflexivity | reflexivity | exact H].
Defined.

(** The second submission, traced: the exception is caught, nothing is
    written to [health_metrics]. *)
Example undated_metrics_example :
  exists row w',
    POST (sampleEnv 86400000 []) (Valid sampleReading)
         {| tables := undatedMetricsDb; issued := 0 |}
    = (Returned (WearableResponse row "Wearable data saved successfully"), w')
    /\ health_metrics (tables w') = health_metrics undatedMetricsDb.
Proof. eexists _, _. split; reflexivity. Qed.

(** What [calculateCognitiveScore] computes when its three queries
    succeed: the score of the five latest rows of each channel. *)
Lemma calculateCognitiveScore_reads (env : Env) (userId : string) (w : World) :
  fails env (issued w) = false ->
  fails env (S (issued w)) = false ->
  fails env (S (S (issued w))) = false ->
  calculateCognitiveScore env userId w =
    (Returned (inr (scoreFromResults
                      (selectDetections userId "facial" 5 (tables w))
                      (selectDetections userId "speech" 5 (tables w))
                      (selectDetections userId "behavioral" 5 (tables w))
                      (clock env))),
     {| tables := tables w; issued := S (S (S (issued w))) |}).
Proof.
  intros H0 H1 H2. unfold calculateCognitiveScore, bind, query, call.
  rewrite H0. cbn [issued tables]. rewrite H1. cbn [issued tables]. rewrite H2.
  reflexivity.
Qed.

Lemma selectDetections_limit (userId type : string) (limit : nat) (db : Db) :
  (List.length (selectDetections userId type limit db) <= limit)%nat.
Proof. unfold selectDetections. apply firstn_le_length. Qed.

(** C9.  When the score has been computed, a failed insert into
    [cognitive_scores] stores nothing and the score is returned all the
    same; when a plan has been generated, a failed insert into
    [wellness_plans] stores nothing and the generated plan is returned as
    a new plan. *)
Theorem result_returned_when_save_fails (env : Env) (userId : string) :
  unauthorized env userId = false ->
  (forall w w' health,
     userId <> ""%string ->
     calculateCognitiveScore env userId w = (Returned (inr health), w') ->
     fails env (issued w') = true ->
     PUT env (Some userId) w =
       (Returned (ScoreResponse health), {| tables := tables w'; issued := S (issued w') |}))
  /\
  (forall w w1 w2 existing wellnessPlan,
     query env (selectActivePlans userId) w = (Returned (Data existing), w1) ->
     match existing with
     | p :: _ => 7 <= daysSinceCreation env p
     | [] => True
     end ->
     generateWellnessPlan env userId w1 = (Returned (inr wellnessPlan), w2) ->
     fails env (issued w2) = true ->
     GET env (Some userId) w =
       (Returned (PlanResponse (UnsavedPlan wellnessPlan) true 7),
        {| tables := tables w2; issued := S (issued w2) |})).
Proof.
  intros Hauth. split.
  - intros w w' health Hne Hcalc Hfail.
    unfold PUT, try_catch. apply String.eqb_neq in Hne. rewrite Hne, Hauth.
    unfold bind at 1. rewrite Hcalc.
    unfold bind, call. rewrite Hfail. reflexivity.
  - intros w w1 w2 existing wellnessPlan Hq Hstale Hgen Hfail.
    unfold GET, try_catch. rewrite Hauth.
    unfold bind at 1. rewrite Hq.
    assert (Hsyn : synthesizeAndSave env userId w1
                   = (Returned (PlanResponse (UnsavedPlan wellnessPlan) true 7),
                      {| tables := tables w2; issued := S (issued w2) |})).
    { unfold synthesizeAndSave. unfold bind at 1. rewrite Hgen.
      unfold bind, call. rewrite Hfail. reflexivity. }
    destruct existing as [|p rest].
    + rewrite Hsyn. reflexivity.
    + apply Z.ltb_ge in Hstale. rewrite Hstale. rewrite Hsyn. reflexivity.
Qed.

(** Store call 3 of the score request and store call 4 of the plan
    request are the inserts; both fail here. *)
Lemma result_returned_witness :
  fst (PUT (sampleEnv 0 [3%nat]) (Some "u1"%string) {| tables := sampleDb; issued := 0 |})
  = Returned (ScoreResponse
                (scoreFromResults [sample "facial" (8 # 10)] [sample "speech" (5 # 10)]
                                  [sample "behavioral" (9 # 10)] 0))
  /\ fst (GET (sampleEnv 0 [4%nat]) (Some "u1"%string) {| tables := sampleDb; issued := 0 |})
     = Returned (PlanResponse
                   (UnsavedPlan (planFromData [] (detection_results sampleDb) 0)) true 7).
Proof.
  split.
  - destruct (result_returned_when_save_fails (sampleEnv 0 [3%nat]) "u1" eq_refl) as [Hput _].
    rewrite (Hput {| tables := sampleDb; issued := 0 |}
                  {| tables := sampleDb; issued := 3 |}
                  (scoreFromResults [sample "facial" (8 # 10)] [sample "speech" (5 # 10)]
                                    [sample "behavioral" (9 # 10)] 0)).
    + reflexivity.
    + discriminate.
    + reflexivity.
    + reflexivity.
  - destruct (result_returned_when_save_fails (sampleEnv 0 [4%nat]) "u1" eq_refl) as [_ Hget].
    rewrite (Hget {| tables := sampleDb; issued := 0 |}
                  {| tables := sampleDb; issued := 1 |}
                  {| tables := sampleDb; issued := 4 |}
                  [] (planFromData [] (detection_results sampleDb) 0)).
    + reflexivity.
    + reflexivity.
    + exact I.
    + reflexivity.
    + reflexivity.
Defined.

(** ** Plan caching *)

Lemma insertLatest_In {A : Type} (key : A -> Z) (x y : A) (l : list A) :
  In y (insertLatest key x l) <-> y = x \/ In y l.
Proof.
  induction l as [|a l IH]; simpl.
  - intuition.
  - destruct (key x <? key a); simpl; rewrite ?IH; intuition.
Qed.

Lemma latestFirst_In {A : Type} (key : A -> Z) (y : A) (l : list A) :
  In y (latestFirst key l) <-> In y l.
Proof.
  induction l as [|a l IH]; simpl; [reflexivity|].
  rewrite insertLatest_In, IH. intuition.
Qed.

Lemma latestFirst_head {A : Type} (key : A -> Z) (l : list A) (x : A) (rest : list A) :
  latestFirst key l = x :: rest -> forall y, In y l -> key y <= key x.
Proof.
  revert x rest. induction l as [|a l IH]; intros x rest H y Hy; [easy|].
  simpl in H. destruct (latestFirst key l) as [|b r] eqn:E.
  - simpl in H. injection H as <- _.
    destruct Hy as [<-|Hy]; [lia|].
    apply (latestFirst_In key) in Hy. rewrite E in Hy. easy.
  - simpl in H. destruct (key a <? key b) eqn:Hab; injection H as <- _.
    + apply Z.ltb_lt in Hab. destruct Hy as [<-|Hy]; [lia|]. now apply (IH b r).
    + apply Z.ltb_ge in Hab. destruct Hy as [<-|Hy]; [lia|].
      specialize (IH b r eq_refl y Hy). lia.
Qed.

Lemma latestFirst_newest {A : Type} (key : A -> Z) (l : list A) (n : A) :
  (forall y, In y l -> key y < key n) ->
  latestFirst key (l ++ [n]) = n :: latestFirst key l.
Proof.
  induction l as [|a l IH]; intro H; [reflexivity|].
  simpl. rewrite IH by (intros y Hy; apply H; now right).
  simpl. assert (Ha : (key a <? key n) = true) by (apply Z.ltb_lt, H; now left).
  now rewrite Ha.
Qed.

Lemma msPerDay_pos : 0 < msPerDay.
Proof. reflexivity. Qed.

Lemma fresh_days (env : Env) (p : WellnessPlanRow) :
  daysSinceCreation env p < 7 <-> freshAt env p.
Proof.
  unfold daysSinceCreation, freshAt, ageMs. pose proof msPerDay_pos as Hpos. split; intro H.
  - destruct (Z_lt_ge_dec (clock env - row_created_at p) (7 * msPerDay)) as [Hlt|Hge]; [exact Hlt|].
    exfalso. assert (7 <= (clock env - row_created_at p) / msPerDay).
    { apply Z.div_le_lower_bound; lia. }
    lia.
  - apply Z.div_lt_upper_bound; lia.
Qed.

Lemma activePlan_filter (userId : string) (db : Db) (p : WellnessPlanRow) :
  In p (filter (fun p => String.eqb (row_user_id p) userId && is_active p) (wellness_plans db))
  <-> activePlanOf userId db p.
Proof.
  unfold activePlanOf. rewrite filter_In, andb_true_iff, String.eqb_eq. tauto.
Qed.

(** What the query for the active plan returns: nothing when the user has
    no active plan, otherwise one of the latest. *)
Lemma selectActivePlans_spec (userId : string) (db : Db) :
  match selectActivePlans userId db with
  | [] => forall q, ~ activePlanOf userId db q
  | p :: rest =>
      rest = [] /\ activePlanOf userId db p
      /\ forall q, activePlanOf userId db q -> row_created_at q <= row_created_at p
  end.
Proof.
  unfold selectActivePlans.
  set (cands := filter _ (wellness_plans db)).
  destruct (latestFirst row_created_at cands) as [|p rest] eqn:E; simpl.
  - intros q Hq. apply activePlan_filter in Hq. fold cands in Hq.
    apply (latestFirst_In row_created_at) in Hq. rewrite E in Hq. easy.
  - split; [reflexivity|]. split.
    + apply activePlan_filter. fold cands. apply (latestFirst_In row_created_at).
      rewrite E. now left.
    + intros q Hq. apply (latestFirst_head row_created_at cands p rest E).
      now apply activePlan_filter.
Qed.

Lemma GET_existing (env : Env) (userId : string) (w : World) :
  unauthorized env userId = false ->
  fails env (issued w) = false ->
  forall p rest, selectActivePlans userId (tables w) = p :: rest ->
  freshAt env p ->
  GET env (Some userId) w =
    (Returned (PlanResponse (SavedPlan p) false (7 - daysSinceCreation env p)),
     {| tables := tables w; issued := S (issued w) |}).
Proof.
  intros Hauth Hok p rest Hsel Hfresh.
  unfold GET, try_catch. rewrite Hauth.
  unfold bind at 1. unfold query, call. rewrite Hok, Hsel.
  apply fresh_days in Hfresh. apply Z.ltb_lt in Hfresh. rewrite Hfresh. reflexivity.
Qed.

Lemma generateWellnessPlan_ok (env : Env) (userId : string) (w : World) :
  fails env (issued w) = false ->
  fails env (S (issued w)) = false ->
  generateWellnessPlan env userId w =
    (Returned (inr (synthesized env userId (tables w))),
     {| tables := tables w; issued := S (S (S (issued w))) |}).
Proof.
  intros H0 H1. unfold generateWellnessPlan, bind, query, call. rewrite H0.
  cbn [issued tables]. rewrite H1. cbn [issued tables].
  destruct (fails env (S (S (issued w)))); reflexivity.
Qed.

Lemma GET_synthesizes (env : Env) (userId : string) (w : World) :
  unauthorized env userId = false ->
  fails env (issued w) = false ->
  fails env (S (issued w)) = false ->
  fails env (S (S (issued w))) = false ->
  fails env (S (S (S (S (issued w))))) = false ->
  (forall q, activePlanOf userId (tables w) q -> ~ freshAt env q) ->
  GET env (Some userId) w =
    (Returned (PlanResponse
                 (SavedPlan (fst (insertPlan userId (synthesized env userId (tables w))
                                             (clock env) (tables w))))
                 true 7),
     {| tables := snd (insertPlan userId (synthesized env userId (tables w))
                                  (clock env) (tables w));
        issued := S (S (S (S (S (issued w))))) |}).
Proof.
  intros Hauth H0 H1 H2 H4 Hstale.
  unfold GET, try_catch. rewrite Hauth.
  unfold bind at 1. unfold query at 1, call at 1. rewrite H0.
  pose proof (selectActivePlans_spec userId (tables w)) as Hsel.
  set (w1 := {| tables := tables w; issued := S (issued w) |}).
  assert (Hsyn : synthesizeAndSave env userId w1
    = (Returned (PlanResponse
                   (SavedPlan (fst (insertPlan userId (synthesized env userId (tables w))
                                               (clock env) (tables w))))
                   true 7),
       {| tables := snd (insertPlan userId (synthesized env userId (tables w))
                                    (clock env) (tables w));
          issued := S (S (S (S (S (issued w))))) |})).
  { unfold synthesizeAndSave. unfold bind at 1.
    rewrite generateWellnessPlan_ok by assumption.
    unfold bind, call. cbn [issued tables w1]. rewrite H4. reflexivity. }
  destruct (selectActivePlans userId (tables w)) as [|p rest].
  - fold w1. rewrite Hsyn. reflexivity.
  - destruct Hsel as (_ & Hact & _).
    assert (Hd : (daysSinceCreation env p <? 7) = false).
    { apply Z.ltb_ge. destruct (Z_lt_ge_dec (daysSinceCreation env p) 7) as [Hlt|Hge]; [|lia].
      apply fresh_days in Hlt. now elim (Hstale p Hact). }
    rewrite Hd. fold w1. rewrite Hsyn. reflexivity.
Qed.

Lemma selectActivePlans_after_insert (env : Env) (userId : string) (db : Db) (plan : WellnessPlan) :
  (forall q, activePlanOf userId db q -> ~ freshAt env q) ->
  selectActivePlans userId (snd (insertPlan userId plan (clock env) db))
  = [fst (insertPlan userId plan (clock env) db)].
Proof.
  intro Hstale. unfold selectActivePlans. cbn [insertPlan snd fst wellness_plans].
  rewrite filter_app. cbn [filter row_user_id is_active].
  rewrite String.eqb_refl. cbn [andb].
  rewrite latestFirst_newest; [reflexivity|].
  intros y Hy. apply activePlan_filter in Hy. cbn [row_created_at].
  specialize (Hstale y Hy). unfold freshAt, ageMs in Hstale.
  pose proof msPerDay_pos. lia.
Qed.

(** C7.  For an authenticated request whose store calls succeed: (1) if
    the user has an active plan younger than 7 days, the latest active
    plan is returned as stored, with [is_new = false] and
    [days_remaining = 7 - ageInDays], and the store is left as it was;
    (2) otherwise a plan is synthesized, stored as an active plan created
    now, and returned with [is_new = true] and [days_remaining = 7];
    (3) hence a second fetch, made while the plan returned by the first
    is still fresh, returns the same plan with [is_new = false]. *)
Theorem plan_cache (env : Env) (userId : string) (db : Db) :
  unauthorized env userId = false ->
  reliable env ->
  (forall q, activePlanOf userId db q -> freshAt env q ->
     exists p,
       activePlanOf userId db p
       /\ row_created_at q <= row_created_at p
       /\ (forall q', activePlanOf userId db q' -> row_created_at q' <= row_created_at p)
       /\ daysSinceCreation env p = ageMs env p / msPerDay
       /\ serve (GET env (Some userId)) db
          = (Returned (PlanResponse (SavedPlan p) false (7 - daysSinceCreation env p)), db))
  /\
  ((forall q, activePlanOf userId db q -> ~ freshAt env q) ->
     let plan := synthesized env userId db in
     let row := fst (insertPlan userId plan (clock env) db) in
     let db' := snd (insertPlan userId plan (clock env) db) in
     serve (GET env (Some userId)) db = (Returned (PlanResponse (SavedPlan row) true 7), db')
     /\ wellness_plans db' = wellness_plans db ++ [row]
     /\ activePlanOf userId db' row
     /\ row_created_at row = clock env
     /\ rowContent row = planContent plan)
  /\
  (forall env2, unauthorized env2 userId = false -> reliable env2 ->
     exists p is_new days db1,
       serve (GET env (Some userId)) db = (Returned (PlanResponse (SavedPlan p) is_new days), db1)
       /\ (freshAt env2 p ->
           serve (GET env2 (Some userId)) db1
           = (Returned (PlanResponse (SavedPlan p) false (7 - daysSinceCreation env2 p)), db1))).
Proof.
  intros Hauth Hrel.
  assert (Hfresh : forall p rest, selectActivePlans userId db = p :: rest -> freshAt env p ->
            serve (GET env (Some userId)) db
            = (Returned (PlanResponse (SavedPlan p) false (7 - daysSinceCreation env p)), db)).
  { intros p rest Hsel Hp. unfold serve.
    rewrite (GET_existing env userId {| tables := db; issued := 0 |} Hauth (Hrel _) p rest Hsel Hp).
    reflexivity. }
  assert (Hnew : (forall q, activePlanOf userId db q -> ~ freshAt env q) ->
            serve (GET env (Some userId)) db
            = (Returned (PlanResponse
                           (SavedPlan (fst (insertPlan userId (synthesized env userId db)
                                                       (clock env) db))) true 7),
               snd (insertPlan userId (synthesized env userId db) (clock env) db))).
  { intro Hstale. unfold serve.
    rewrite (GET_synthesizes env userId {| tables := db; issued := 0 |} Hauth
               (Hrel _) (Hrel _) (Hrel _) (Hrel _) Hstale).
    reflexivity. }
  pose proof (selectActivePlans_spec userId db) as Hsel.
  split; [|split].
  - intros q Hq Hqfresh.
    destruct (selectActivePlans userId db) as [|p rest] eqn:E; [now elim (Hsel q)|].
    destruct Hsel as (_ & Hp & Hmax).
    exists p. split; [exact Hp|]. split; [now apply Hmax|]. split; [exact Hmax|].
    split; [reflexivity|].
    apply (Hfresh p rest eq_refl).
    unfold freshAt, ageMs in *. specialize (Hmax q Hq). lia.
  - intros Hstale plan row db'. split; [now apply Hnew|].
    split; [reflexivity|]. split; [|split; reflexivity].
    unfold activePlanOf. split; [|split; reflexivity].
    unfold db'. cbn [insertPlan snd wellness_plans]. apply in_or_app. right. now left.
  - intros env2 Hauth2 Hrel2.
    destruct (selectActivePlans userId db) as [|p rest] eqn:E.
    + assert (Hstale : forall q, activePlanOf userId db q -> ~ freshAt env q).
      { intros q Hq. now elim (Hsel q). }
      eexists _, _, _, _. split; [now apply Hnew|].
      intro Hf2. unfold serve.
        rewrite (GET_existing env2 userId
                   {| tables := snd (insertPlan userId (synthesized env userId db) (clock env) db);
                      issued := 0 |}
                   Hauth2 (Hrel2 _) _ []
                   (selectActivePlans_after_insert env userId db _ Hstale) Hf2).
      reflexivity.
    + destruct Hsel as (_ & Hp & Hmax).
      destruct (Z_lt_ge_dec (ageMs env p) (7 * msPerDay)) as [Hlt|Hge].
      * eexists _, _, _, _. split; [apply (Hfresh p rest eq_refl Hlt)|].
        intro Hf2. unfold serve.
        rewrite (GET_existing env2 userId {| tables := db; issued := 0 |}
                   Hauth2 (Hrel2 _) p rest E Hf2).
        reflexivity.
      * assert (Hstale : forall q, activePlanOf userId db q -> ~ freshAt env q).
        { intros q Hq. specialize (Hmax q Hq). unfold freshAt, ageMs in *. lia. }
        eexists _, _, _, _. split; [now apply Hnew|].
        intro Hf2. unfold serve.
        rewrite (GET_existing env2 userId
                   {| tables := snd (insertPlan userId (synthesized env userId db) (clock env) db);
                      issued := 0 |}
                   Hauth2 (Hrel2 _) _ []
                   (selectActivePlans_after_insert env userId db _ Hstale) Hf2).
        reflexivity.
Qed.

(** A first fetch at time 0 on a store without plans, then a second one a
    day later: the second returns the plan stored by the first, with six
    days remaining. *)
Lemma plan_cache_witness :
  exists p is_new days db1,
    serve (GET (sampleEnv 0 []) (Some "u1"%string)) sampleDb
    = (Returned (PlanResponse (SavedPlan p) is_new days), db1)
    /\ serve (GET (sampleEnv 86400000 []) (Some "u1"%string)) db1
       = (Returned (PlanResponse (SavedPlan p) false 6), db1).
Proof.
  destruct (plan_cache (sampleEnv 0 []) "u1" sampleDb eq_refl (fun _ => eq_refl))
    as (_ & _ & H).
  destruct (H (sampleEnv 86400000 []) eq_refl (fun _ => eq_refl))
    as (p & is_new & days & db1 & H1 & H2).
  exists p, is_new, days, db1. split; [exact H1|].
  assert (Hp : row_created_at p = 0).
  { clear H2. vm_compute in H1. now injection H1 as <- _ _ _. }
  rewrite H2.
  - unfold daysSinceCreation. rewrite Hp. reflexivity.
  - unfold freshAt, ageMs. rewrite Hp. reflexivity.
Defined.

(** ** Risk-indicator ranking *)

Lemma mem_In (k : string) (l : list string) : mem k l = true <-> In k l.
Proof.
  unfold mem. rewrite existsb_exists. split.
  - intros [x [Hin Hx]]. apply String.eqb_eq in Hx. now subst.
  - intro H. exists k. split; [exact H | apply String.eqb_refl].
Qed.

Lemma get_set_same (k : string) (v : nat) (o : Obj.t nat) :
  Obj.get k (Obj.set k v o) = Some v.
Proof.
  induction o as [|[k' w] o IH]; simpl.
  - now rewrite String.eqb_refl.
  - destruct (String.eqb k' k) eqn:E; simpl; rewrite E; [reflexivity | exact IH].
Qed.

Lemma get_set_other (k k' : string) (v : nat) (o : Obj.t nat) :
  k <> k' -> Obj.get k' (Obj.set k v o) = Obj.get k' o.
Proof.
  intro Hne. induction o as [|[k0 w] o IH]; simpl.
  - apply String.eqb_neq in Hne. now rewrite Hne.
  - destruct (String.eqb k0 k) eqn:E; simpl.
    + apply String.eqb_eq in E. subst k0.
      apply String.eqb_neq in Hne. now rewrite Hne.
    + destruct (String.eqb k0 k'); [reflexivity | exact IH].
Qed.

Lemma keys_set (k : string) (v : nat) (o : Obj.t nat) :
  map fst (Obj.set k v o) = if mem k (map fst o) then map fst o else map fst o ++ [k].
Proof.
  induction o as [|[k' w] o IH]; simpl; [reflexivity|].
  rewrite (String.eqb_sym k k'). destruct (String.eqb k' k) eqn:E; simpl.
  - reflexivity.
  - rewrite IH. unfold mem. now destruct (existsb (String.eqb k) (map fst o)).
Qed.

Lemma countOf_bump (k k' : string) (o : Obj.t nat) :
  countOf k' (bump o k) = if String.eqb k k' then S (countOf k' o) else countOf k' o.
Proof.
  unfold countOf, bump. destruct (String.eqb k k') eqn:E.
  - apply String.eqb_eq in E. subst k'. now rewrite get_set_same.
  - apply String.eqb_neq in E. now rewrite get_set_other.
Qed.

Lemma countOf_fold (k : string) (ks : list string) (o : Obj.t nat) :
  countOf k (fold_left bump ks o) = (count_occ string_dec ks k + countOf k o)%nat.
Proof.
  revert o. induction ks as [|k0 ks IH]; intro o; simpl; [reflexivity|].
  rewrite IH, countOf_bump.
  destruct (string_dec k0 k) as [->|Hne].
  - rewrite String.eqb_refl. lia.
  - apply String.eqb_neq in Hne. rewrite Hne. reflexivity.
Qed.

Lemma filter_filter {A : Type} (f g : A -> bool) (l : list A) :
  filter f (filter g l) = filter (fun x => g x && f x) l.
Proof.
  induction l as [|a l IH]; simpl; [reflexivity|].
  destruct (g a); simpl; [destruct (f a)|]; now rewrite IH.
Qed.

Lemma keys_fold (ks : list string) (o : Obj.t nat) :
  map fst (fold_left bump ks o)
  = map fst o ++ filter (fun k => negb (mem k (map fst o))) (firstOccurrences ks).
Proof.
  revert o. induction ks as [|k ks IH]; intro o; simpl.
  - now rewrite app_nil_r.
  - rewrite IH. unfold bump at 1 2. rewrite keys_set.
    rewrite filter_filter.
    destruct (mem k (map fst o)) eqn:Hk; simpl.
    + f_equal. apply filter_ext_in. intros x _.
      destruct (String.eqb x k) eqn:E; simpl; [|reflexivity].
      apply String.eqb_eq in E. subst x. now rewrite Hk.
    + rewrite <- app_assoc. simpl. f_equal. f_equal.
      apply filter_ext_in. intros x _. unfold mem.
      rewrite existsb_app. simpl. rewrite orb_false_r, negb_orb.
      now rewrite andb_comm.
Qed.

Lemma firstOccurrences_In (k : string) (l : list string) :
  In k (firstOccurrences l) <-> In k l.
Proof.
  induction l as [|a l IH]; simpl; [reflexivity|].
  rewrite filter_In, IH, negb_true_iff, String.eqb_neq.
  destruct (string_dec a k); [subst|]; intuition congruence.
Qed.

Lemma firstOccurrences_NoDup (l : list string) : NoDup (firstOccurrences l).
Proof.
  induction l as [|a l IH]; simpl; constructor.
  - rewrite filter_In, String.eqb_refl. intros [_ H]. discriminate.
  - now apply NoDup_filter.
Qed.

Lemma get_of_In (k : string) (n : nat) (o : Obj.t nat) :
  NoDup (map fst o) -> In (k, n) o -> Obj.get k o = Some n.
Proof.
  induction o as [|[k' w] o IH]; simpl; intros Hnd Hin; [easy|].
  inversion Hnd as [|? ? Hnot Hnd']; subst.
  destruct Hin as [E|Hin].
  - injection E as -> ->. now rewrite String.eqb_refl.
  - destruct (String.eqb k' k) eqn:E.
    + apply String.eqb_eq in E. subst k'. elim Hnot.
      change k with (fst (k, n)). now apply in_map.
    + now apply IH.
Qed.

Lemma tallyEntries_fold (entries : list (string * jsval)) (acc : Obj.t nat) :
  tallyEntries acc entries
  = fold_left bump (map fst (filter (fun e => truthy (snd e)) entries)) acc.
Proof.
  unfold tallyEntries. revert acc.
  induction entries as [|e entries IH]; intro acc; simpl; [reflexivity|].
  destruct (truthy (snd e)); simpl; apply IH.
Qed.

Lemma tally_from (data : list DetectionResult) (acc : Obj.t nat) :
  fold_left (fun acc item =>
               match risk_indicators item with
               | Some entries => tallyEntries acc entries
               | None => acc
               end) data acc
  = fold_left bump (sightings data) acc.
Proof.
  revert acc. induction data as [|r data IH]; intro acc; simpl; [reflexivity|].
  unfold sightings in *. rewrite fold_left_app, IH. f_equal.
  unfold truthyKeys. destruct (risk_indicators r); [apply tallyEntries_fold | reflexivity].
Qed.

Lemma tally_sightings (data : list DetectionResult) :
  tally data = fold_left bump (sightings data) Obj.empty.
Proof. apply tally_from. Qed.

Lemma tally_keys (data : list DetectionResult) : map fst (tally data) = firstSeen data.
Proof.
  rewrite tally_sightings, keys_fold. simpl. unfold firstSeen.
  induction (firstOccurrences (sightings data)) as [|a l IH]; simpl; congruence.
Qed.


Lemma truthyKeys_count (k : string) (r : DetectionResult) :
  wellFormed r ->
  count_occ string_dec (truthyKeys r) k = if truthyAt k r then 1%nat else 0%nat.
Proof.
  unfold wellFormed, truthyKeys, truthyAt.
  destruct (risk_indicators r) as [entries|]; [|reflexivity].
  induction entries as [|[k' v] entries IH]; intro Hnd; [reflexivity|].
  inversion Hnd as [|? ? Hnot Hnd']; subst. specialize (IH Hnd').
  cbn [filter snd Obj.get].
  destruct (String.eqb k' k) eqn:E.
  - apply String.eqb_eq in E. subst k'.
    assert (Hnone : count_occ string_dec
                      (map fst (filter (fun e => truthy (snd e)) entries)) k = 0%nat).
    { apply count_occ_not_In. intro Hin. apply Hnot.
      apply in_map_iff in Hin. destruct Hin as [e [He Hin]].
      apply filter_In in Hin. apply in_map_iff. exists e. tauto. }
    destruct (truthy v); cbn [map fst count_occ].
    + destruct (string_dec k k); [|congruence]. now rewrite Hnone.
    + exact Hnone.
  - apply String.eqb_neq in E.
    destruct (truthy v); cbn [map fst count_occ].
    + destruct (string_dec k' k); [congruence | exact IH].
    + exact IH.
Qed.

Lemma sightings_count (k : string) (data : list DetectionResult) :
  Forall wellFormed data ->
  count_occ string_dec (sightings data) k = frequencyOf k data.
Proof.
  unfold sightings, frequencyOf. induction 1 as [|r data Hr _ IH]; [reflexivity|].
  simpl. rewrite count_occ_app, IH, (truthyKeys_count k r Hr).
  destruct (truthyAt k r); reflexivity.
Qed.

Lemma tally_NoDup (data : list DetectionResult) : NoDup (map fst (tally data)).
Proof. rewrite tally_keys. apply firstOccurrences_NoDup. Qed.

Lemma tally_counts (data : list DetectionResult) (e : string * nat) :
  Forall wellFormed data -> In e (tally data) -> snd e = frequencyOf (fst e) data.
Proof.
  intros Hwf Hin. destruct e as [k n]. simpl.
  pose proof (get_of_In k n (tally data) (tally_NoDup data) Hin) as Hget.
  assert (Hc : countOf k (tally data) = n) by (unfold countOf; now rewrite Hget).
  rewrite tally_sightings, countOf_fold in Hc. unfold countOf in Hc. simpl in Hc.
  rewrite sightings_count in Hc by assumption. lia.
Qed.

Lemma entries_plain {V : Type} (o : Obj.t V) :
  (forall e, In e o -> Obj.is_index (fst e) = false) -> Obj.entries o = o.
Proof.
  intro H. unfold Obj.entries.
  assert (H1 : filter (fun e => Obj.is_index (fst e)) o = []).
  { induction o as [|a o IH]; [reflexivity|]. simpl.
    rewrite (H a) by now left. apply IH. intros e He. apply H. now right. }
  assert (H2 : filter (fun e => negb (Obj.is_index (fst e))) o = o).
  { clear H1. induction o as [|a o IH]; [reflexivity|]. simpl.
    rewrite (H a) by now left. simpl. f_equal. apply IH. intros e He. apply H. now right. }
  now rewrite H1, H2.
Qed.

(** *** The stable descending sort *)

Lemma insertByCount_perm (e : string * nat) (l : list (string * nat)) :
  Permutation (insertByCount e l) (e :: l).
Proof.
  induction l as [|x l IH]; simpl; [reflexivity|].
  destruct (snd e <? snd x)%nat; [|reflexivity].
  rewrite IH. apply perm_swap.
Qed.

Lemma sortByCount_perm (l : list (string * nat)) : Permutation (sortByCount l) l.
Proof.
  induction l as [|e l IH]; simpl; [reflexivity|].
  rewrite insertByCount_perm. now constructor.
Qed.

Lemma insertByCount_sorted (e : string * nat) (l : list (string * nat)) :
  StronglySorted (fun a b => (snd b <= snd a)%nat) l ->
  StronglySorted (fun a b => (snd b <= snd a)%nat) (insertByCount e l).
Proof.
  induction 1 as [|x l Hs IH Hx]; simpl.
  - repeat constructor.
  - destruct (snd e <? snd x)%nat eqn:E.
    + apply Nat.ltb_lt in E. constructor; [exact IH|].
      apply Forall_forall. intros y Hy.
      apply (Permutation_in _ (insertByCount_perm e l)) in Hy.
      destruct Hy as [<-|Hy]; [lia|].
      rewrite Forall_forall in Hx. now apply Hx.
    + apply Nat.ltb_ge in E. constructor; [now constructor|].
      constructor; [exact E|].
      rewrite Forall_forall in Hx |- *. intros y Hy. specialize (Hx y Hy). lia.
Qed.

Lemma sortByCount_sorted (l : list (string * nat)) :
  StronglySorted (fun a b => (snd b <= snd a)%nat) (sortByCount l).
Proof.
  induction l as [|e l IH]; simpl; [constructor | now apply insertByCount_sorted].
Qed.

Lemma insertByCount_stable (f : nat) (e : string * nat) (l : list (string * nat)) :
  filter (fun x => Nat.eqb (snd x) f) (insertByCount e l)
  = filter (fun x => Nat.eqb (snd x) f) (e :: l).
Proof.
  induction l as [|x l IH]; [reflexivity|].
  simpl insertByCount. destruct (snd e <? snd x)%nat eqn:E; [|reflexivity].
  apply Nat.ltb_lt in E. simpl in *. rewrite IH.
  destruct (Nat.eqb (snd e) f) eqn:Ee, (Nat.eqb (snd x) f) eqn:Ex; try reflexivity.
  apply Nat.eqb_eq in Ee, Ex. lia.
Qed.

Lemma sortByCount_stable (f : nat) (l : list (string * nat)) :
  filter (fun x => Nat.eqb (snd x) f) (sortByCount l)
  = filter (fun x => Nat.eqb (snd x) f) l.
Proof.
  induction l as [|e l IH]; [reflexivity|].
  simpl sortByCount. rewrite insertByCount_stable. simpl. now rewrite IH.
Qed.

Lemma percentage_percentOf (count total : nat) :
  (0 < total)%nat ->
  mul (div (of_nat count) (of_nat total)) (of_Z 100) = percentOf count total.
Proof.
  intro H. unfold of_nat, of_Z, div. rewrite is_zero_of_pos by exact H. reflexivity.
Qed.

Lemma filter_keys_by_count (data : list DetectionResult) (f : nat) (l : list (string * nat)) :
  (forall x, In x l -> snd x = frequencyOf (fst x) data) ->
  filter (fun k => Nat.eqb (frequencyOf k data) f) (map fst l)
  = map fst (filter (fun x => Nat.eqb (snd x) f) l).
Proof.
  induction l as [|x l IH]; intro H; [reflexivity|].
  simpl. rewrite <- (H x) by now left.
  rewrite IH by (intros y Hy; apply H; now right).
  now destruct (Nat.eqb (snd x) f).
Qed.

Lemma sorted_map {A B : Type} (R : A -> A -> Prop) (S : B -> B -> Prop) (g : A -> B)
    (l : list A) :
  (forall a b, R a b -> S (g a) (g b)) ->
  StronglySorted R l -> StronglySorted S (map g l).
Proof.
  intros Hg. induction 1 as [|a l Hs IH Ha]; simpl; constructor; [exact IH|].
  rewrite Forall_forall in Ha |- *. intros y Hy.
  apply in_map_iff in Hy. destruct Hy as [b [<- Hb]]. now apply Hg, Ha.
Qed.

Lemma analyzeTrends_nonempty (timeframe : string) (data : list DetectionResult) :
  data <> [] ->
  analyzeTrends timeframe (Data data)
  = Report {| timeframe := timeframe;
              data_points := List.length data;
              average_score := averageOf data;
              trend := trendOf data;
              common_risk_indicators := firstn 5 (sortedRiskIndicators data);
              raw_data := map (fun item => (created_at item, confidence_score item)) data |}.
Proof. intro H. destruct data; [now elim H | reflexivity]. Qed.

(** C3 (amended).  For a non-empty sequence of results whose indicator
    names are plain (no array index, no name that [Object.prototype]
    defines), the ranking counts, for each indicator, the results whose
    value at it is truthy, lists frequency and percentage of the total,
    in descending order of frequency with ties in first-seen order, cut
    to at most five entries. *)
Theorem risk_ranking (timeframe : string) (data : list DetectionResult) :
  data <> [] ->
  Forall wellFormed data ->
  plainNames data ->
  exists rep,
    analyzeTrends timeframe (Data data) = Report rep
    /\ rankedAsSpecified data (common_risk_indicators rep)
    /\ (List.length (common_risk_indicators rep) <= 5)%nat.
Proof.
  intros Hne Hwf Hplain.
  rewrite (analyzeTrends_nonempty timeframe data Hne).
  eexists. split; [reflexivity|]. cbn [common_risk_indicators].
  split; [|apply firstn_le_length].
  exists (sortedRiskIndicators data).
  assert (Hent : Obj.entries (tally data) = tally data).
  { apply entries_plain. intros e He. apply Hplain.
    apply (firstOccurrences_In (fst e)). fold (firstSeen data).
    rewrite <- tally_keys. now apply in_map. }
  assert (Hcnt : forall x, In x (sortByCount (tally data)) ->
                           snd x = frequencyOf (fst x) data).
  { intros x Hx. apply tally_counts; [exact Hwf|].
    now apply (Permutation_in _ (sortByCount_perm (tally data))). }
  assert (Hkeys : map indicator (sortedRiskIndicators data)
                  = map fst (sortByCount (tally data))).
  { unfold sortedRiskIndicators. rewrite Hent, map_map. reflexivity. }
  split; [reflexivity|]. split; [|split; [|split]].
  - rewrite Hkeys, <- tally_keys. apply Permutation_map, sortByCount_perm.
  - intros e He. unfold sortedRiskIndicators in He. rewrite Hent in He.
    apply in_map_iff in He. destruct He as [x [<- Hx]]. cbn [frequency indicator percentage].
    split; [now apply Hcnt|].
    apply percentage_percentOf. destruct data; [now elim Hne | simpl; lia].
  - unfold sortedRiskIndicators. rewrite Hent.
    apply (sorted_map (fun a b => (snd b <= snd a)%nat)); [|apply sortByCount_sorted].
    intros a b H. exact H.
  - intro f. rewrite Hkeys, <- tally_keys.
    rewrite (filter_keys_by_count data f _ Hcnt).
    rewrite (filter_keys_by_count data f (tally data)) by (intros x Hx; now apply tally_counts).
    now rewrite sortByCount_stable.
Qed.

Ltac plain_names :=
  intros k Hk; simpl in Hk;
  repeat (destruct Hk as [<-|Hk]; [split; reflexivity|]); contradiction.

Ltac well_formed :=
  repeat (apply Forall_cons;
          [unfold wellFormed; simpl;
           repeat (constructor; [simpl; intuition discriminate|]); constructor|]);
  apply Forall_nil.

(** "tremor" is seen in two rows, "social_withdrawal" and "apathy" in one
    each, in that first-seen order. *)
Lemma risk_ranking_witness :
  exists rep,
    analyzeTrends "week" (Data plainNamed) = Report rep
    /\ rankedAsSpecified plainNamed (common_risk_indicators rep)
    /\ (List.length (common_risk_indicators rep) <= 5)%nat.
Proof.
  apply risk_ranking.
  - discriminate.
  - well_formed.
  - plain_names.
Defined.

Example risk_ranking_example :
  map (fun e => (indicator e, frequency e)) (sortedRiskIndicators plainNamed)
  = [("tremor", 2); ("social_withdrawal", 1); ("apathy", 1)]%string%nat.
Proof. reflexivity. Qed.

(** C3 as stated fails when an indicator is named by an array index: the
    tally object lists such names first, so "7", seen after "tremor" and
    with the same frequency, is ranked before it. *)
Lemma risk_ranking_counterexample :
  indexNamed <> []
  /\ Forall wellFormed indexNamed
  /\ firstSeen indexNamed = ["tremor"; "7"]%string
  /\ frequencyOf "tremor" indexNamed = frequencyOf "7" indexNamed
  /\ exists rep,
       analyzeTrends "week" (Data indexNamed) = Report rep
       /\ map indicator (common_risk_indicators rep) = ["7"; "tremor"]%string
       /\ ~ rankedAsSpecified indexNamed (common_risk_indicators rep).
Proof.
  split; [discriminate|]. split; [well_formed|].
  split; [reflexivity|]. split; [reflexivity|].
  eexists. split; [reflexivity|]. split; [reflexivity|].
  intros (ranked & Hout & Hperm & _ & _ & Hstable).
  assert (Hlen : List.length ranked = 2%nat).
  { apply Permutation_length in Hperm. now rewrite length_map in Hperm. }
  assert (Hall : firstn 5 ranked = ranked) by (apply firstn_all2; lia).
  rewrite Hall in Hout. subst ranked.
  specialize (Hstable 1%nat). discriminate Hstable.
Qed.

(* ================================================================== *)
(** * Further properties of the routes *)
(* ================================================================== *)

(** ** Areas of concern *)

Lemma Qlt_bool_comp (x x' y : Q) : (x == x')%Q -> Qlt_bool x y = Qlt_bool x' y.
Proof.
  intro H. destruct (Qlt_bool x y) eqn:E, (Qlt_bool x' y) eqn:E'; try reflexivity.
  - apply Qlt_bool_iff in E. rewrite H in E. apply Qlt_bool_iff in E. congruence.
  - apply Qlt_bool_iff in E'. rewrite <- H in E'. apply Qlt_bool_iff in E'. congruence.
Qed.

Lemma channel_below (results : list DetectionResult) (threshold : Q) :
  lt (channelAverage results) (Fin threshold) = Qlt_bool (meanScore results) threshold.
Proof.
  destruct (channelAverage_mean results) as [q [Hq Heq]].
  rewrite Hq. simpl. now apply Qlt_bool_comp.
Qed.

Lemma areas_of_concern_eq
    (facialResults speechResults behavioralResults : list DetectionResult) (now : Z) :
  areas_of_concern (scoreFromResults facialResults speechResults behavioralResults now)
  = whenever (Qlt_bool (meanScore facialResults) (6 # 10)) ["facial expressions"%string]
    ++ whenever (Qlt_bool (meanScore speechResults) (6 # 10)) ["speech patterns"%string]
    ++ whenever (Qlt_bool (meanScore behavioralResults) (6 # 10)) ["behavioral responses"%string].
Proof.
  unfold scoreFromResults. cbn [areas_of_concern]. now rewrite !channel_below.
Qed.


Lemma round_half_up_ge (x : Q) (n : Z) : (inject_Z n <= x)%Q -> n <= round_half_up x.
Proof.
  intro H. unfold round_half_up. rewrite <- (Qfloor_Z n) at 1.
  apply Qfloor_resp_le. lra.
Qed.

Lemma round_half_up_le (x : Q) (n : Z) : (x < inject_Z n)%Q -> round_half_up x <= n.
Proof.
  intro H. unfold round_half_up. apply Z.lt_succ_r. rewrite Zlt_Qlt.
  apply Qle_lt_trans with (x + (1 # 2))%Q; [apply Qfloor_le|].
  unfold Z.succ. rewrite inject_Z_plus. change (inject_Z 1) with 1%Q. lra.
Qed.

Lemma status_of_score
    (facialResults speechResults behavioralResults : list DetectionResult) (now : Z) :
  status (scoreFromResults facialResults speechResults behavioralResults now)
  = statusOf (of_Z (weightedScore (meanScore facialResults) (meanScore speechResults)
                                  (meanScore behavioralResults))).
Proof.
  destruct (scoreFromResults_values facialResults speechResults behavioralResults now)
    as (Hscore & _).
  unfold scoreFromResults in *. cbn [status cognitive_score] in *. now rewrite Hscore.
Qed.

(** X2.  Status and areas of concern agree: a result that lists no area
    of concern has a score of at least 60 and is never "concerning"; a
    result that lists all three has a score of at most 60 and is never
    "healthy". *)
Theorem status_consistent_with_areas
    (facialResults speechResults behavioralResults : list DetectionResult) (now : Z) :
  let r := scoreFromResults facialResults speechResults behavioralResults now in
  exists z : Z,
    cognitive_score r = of_Z z
    /\ (areas_of_concern r = [] -> 60 <= z /\ status r <> "concerning"%string)
    /\ (areas_of_concern r = concernLabels -> z <= 60 /\ status r <> "healthy"%string).
Proof.
  cbv zeta.
  destruct (scoreFromResults_values facialResults speechResults behavioralResults now)
    as (Hscore & _).
  eexists. split; [exact Hscore|].
  rewrite status_of_score, statusOf_cases, areas_of_concern_eq.
  set (fa := meanScore facialResults). set (sa := meanScore speechResults).
  set (ba := meanScore behavioralResults).
  destruct (Qlt_bool fa (6 # 10)) eqn:Ef, (Qlt_bool sa (6 # 10)) eqn:Es,
           (Qlt_bool ba (6 # 10)) eqn:Eb; simpl; split; intro H; try discriminate H.
  - apply Qlt_bool_iff in Ef, Es, Eb.
    assert (Hz : weightedScore fa sa ba <= 60).
    { apply round_half_up_le. change (inject_Z 60) with 60%Q. lra. }
    split; [exact Hz|].
    destruct (weightedScore fa sa ba <? 50) eqn:E50; [discriminate|].
    destruct (weightedScore fa sa ba <? 70) eqn:E70; [discriminate|].
    apply Z.ltb_ge in E70. lia.
  - assert (Hf : (6 # 10 <= fa)%Q).
    { apply Qnot_lt_le. intro Hlt. apply Qlt_bool_iff in Hlt. congruence. }
    assert (Hs : (6 # 10 <= sa)%Q).
    { apply Qnot_lt_le. intro Hlt. apply Qlt_bool_iff in Hlt. congruence. }
    assert (Hb : (6 # 10 <= ba)%Q).
    { apply Qnot_lt_le. intro Hlt. apply Qlt_bool_iff in Hlt. congruence. }
    assert (Hz : 60 <= weightedScore fa sa ba).
    { apply round_half_up_ge. change (inject_Z 60) with 60%Q. lra. }
    split; [exact Hz|].
    destruct (weightedScore fa sa ba <? 50) eqn:E50; [|destruct (_ <? 70); discriminate].
    apply Z.ltb_lt in E50. lia.
Qed.

(** Two facial results of confidence 0.9 and 0.7, one speech result and
    one behavioral result of 0.6: no area of concern, status "moderate". *)
Lemma status_consistent_witness :
  exists z : Z,
    cognitive_score
      (scoreFromResults [sample "facial" (9 # 10); sample "facial" (7 # 10)]
                        [sample "speech" (6 # 10)] [sample "behavioral" (6 # 10)] 0) = of_Z z
    /\ 60 <= z.
Proof.
  destruct (status_consistent_with_areas
              [sample "facial" (9 # 10); sample "facial" (7 # 10)]
              [sample "speech" (6 # 10)] [sample "behavioral" (6 # 10)] 0)
    as (z & Hz & Hnone & _).
  exists z. split; [exact Hz|]. apply Hnone. reflexivity.
Defined.

(** ** The score endpoint as a whole *)

Lemma PUT_success (env : Env) (userId : string) (db : Db) :
  userId <> ""%string ->
  unauthorized env userId = false ->
  fails env 0 = false -> fails env 1 = false -> fails env 2 = false ->
  serve (PUT env (Some userId)) db
  = (Returned (ScoreResponse (computedScore env userId db)),
     if fails env 3 then db
     else snd (insertScore userId (computedScore env userId db) (clock env) db)).
Proof.
  intros Hne Hauth H0 H1 H2. apply String.eqb_neq in Hne.
  unfold serve, PUT, try_catch. rewrite Hne, Hauth.
  unfold bind at 1.
  rewrite (calculateCognitiveScore_reads env userId {| tables := db; issued := 0 |} H0 H1 H2).
  unfold bind, call. cbn [issued tables].
  destruct (fails env 3); reflexivity.
Qed.

Lemma calculateCognitiveScore_fails (env : Env) (userId : string) (w : World) :
  fails env (issued w) || fails env (S (issued w)) || fails env (S (S (issued w))) = true ->
  calculateCognitiveScore env userId w
  = (Returned (inl "Failed to calculate cognitive score"%string),
     {| tables := tables w; issued := S (S (S (issued w))) |}).
Proof.
  intro H. unfold calculateCognitiveScore, bind, query, call. cbn [issued tables].
  destruct (fails env (issued w)); cbn [issued tables];
    destruct (fails env (S (issued w))); cbn [issued tables];
    destruct (fails env (S (S (issued w)))); try reflexivity; discriminate H.
Qed.

(** X3.  The score endpoint always answers and writes only when it
    answers with a score: then it is the score of the authenticated
    user, and the store gains at most the one [cognitive_scores] row that
    carries it, nothing else changing.  Every error answer leaves the
    store as it was: 400 exactly when the user id is absent or empty, 401
    exactly when it is not the session's user, 500 when a read failed. *)
Theorem PUT_writes_only_its_score (env : Env) (userIdParam : option string) (db : Db) :
  exists resp db',
    serve (PUT env userIdParam) db = (Returned resp, db')
    /\ match resp with
       | ScoreResponse health =>
           exists userId,
             userIdParam = Some userId /\ session env = Some userId
             /\ health = computedScore env userId db
             /\ exists new, onlyScoresGrow db db' new
                            /\ (new = [] \/ new = [storedRow userId health (clock env)])
       | ErrorResponse http_status error =>
           db' = db
           /\ In (http_status, error)
                 [(400%nat, "Missing userId parameter"%string);
                  (401%nat, "Unauthorized"%string);
                  (500%nat, "Failed to calculate cognitive score"%string)]
           /\ (http_status = 400%nat <-> userIdParam = None \/ userIdParam = Some ""%string)
           /\ (http_status = 401%nat <->
               exists userId, userIdParam = Some userId /\ userId <> ""%string
                              /\ session env <> Some userId)
       | _ => False
       end.
Proof.
  destruct userIdParam as [userId|].
  2:{ eexists _, _. split; [reflexivity|]. cbn.
      split; [reflexivity|]. split; [now left|]. split.
      - split; auto.
      - split; [discriminate|]. intros [u [H _]]. discriminate H. }
  destruct (String.eqb userId "") eqn:Eempty.
  { apply String.eqb_eq in Eempty. subst userId.
    eexists _, _. split; [reflexivity|]. cbn.
    split; [reflexivity|]. split; [now left|]. split.
    - split; auto.
    - split; [discriminate|]. intros [u [H [Hne _]]]. injection H as <-. now elim Hne. }
  pose proof Eempty as Hne. apply String.eqb_neq in Hne.
  destruct (unauthorized env userId) eqn:Eauth.
  { eexists _, _. split.
    { unfold serve, PUT, try_catch. rewrite Eempty, Eauth. reflexivity. }
    cbn. split; [reflexivity|]. split; [right; now left|]. split.
    - split; [discriminate|]. intros [H|H]; [discriminate H|].
      injection H as ->. now elim Hne.
    - split; [|reflexivity]. intros _. exists userId. split; [reflexivity|].
      split; [exact Hne|]. intro Hs. unfold unauthorized in Eauth. rewrite Hs in Eauth.
      now rewrite String.eqb_refl in Eauth. }
  assert (Hsession : session env = Some userId).
  { unfold unauthorized in Eauth. destruct (session env) as [uid|]; [|discriminate].
    apply negb_false_iff, String.eqb_eq in Eauth. now subst. }
  destruct (fails env 0 || fails env 1 || fails env 2) eqn:Ereads.
  { eexists _, _. split.
    { unfold serve, PUT, try_catch. rewrite Eempty, Eauth. unfold bind at 1.
      rewrite (calculateCognitiveScore_fails env userId {| tables := db; issued := 0 |} Ereads).
      reflexivity. }
    cbn. split; [reflexivity|]. split; [right; right; now left|]. split.
    - split; [discriminate|]. intros [H|H]; [discriminate H|].
      injection H as ->. now elim Hne.
    - split; [discriminate|]. intros [u [H [_ Hs]]]. injection H as <-. now elim Hs. }
  apply orb_false_iff in Ereads. destruct Ereads as [Ereads H2].
  apply orb_false_iff in Ereads. destruct Ereads as [H0 H1].
  eexists _, _. split; [apply (PUT_success env userId db Hne Eauth H0 H1 H2)|].
  cbn. exists userId. split; [reflexivity|]. split; [exact Hsession|]. split; [reflexivity|].
  destruct (fails env 3).
  - exists []. split; [|now left]. unfold onlyScoresGrow. rewrite app_nil_r. repeat split.
  - eexists. split; [|right; reflexivity]. unfold onlyScoresGrow. repeat split.
Qed.

(** ** From a stored score to the next plan *)

Lemma planActivities_eq (cognitiveScore : CognitiveScore) (detections : list DetectionResult) :
  planActivities cognitiveScore detections =
    [dailyCheckIn; mindfulnessPractice]
    ++ whenever (someBelow "facial" (7 # 10) detections) [facialExercises]
    ++ whenever (someBelow "speech" (7 # 10) detections) [speechPractice; wordRetrieval]
    ++ whenever (memoryGate cognitiveScore) [memoryTraining]
    ++ whenever (someWithdrawn detections) [socialEngagement]
    ++ [physicalExercise].
Proof.
  unfold planActivities. rewrite !existsb_ofType.
  change (existsb (fun r => String.eqb (detection_type r) "facial"
                            && lt (Fin (confidence_score r)) (Fin (7 # 10))) detections)
    with (someBelow "facial" (7 # 10) detections).
  change (existsb (fun r => String.eqb (detection_type r) "speech"
                            && lt (Fin (confidence_score r)) (Fin (7 # 10))) detections)
    with (someBelow "speech" (7 # 10) detections).
  fold (someWithdrawn detections). fold (memoryGate cognitiveScore).
  destruct (someBelow "facial" (7 # 10) detections),
           (someBelow "speech" (7 # 10) detections),
           (memoryGate cognitiveScore), (someWithdrawn detections); reflexivity.
Qed.

Lemma memoryTraining_included (cognitiveScore : CognitiveScore)
    (detections : list DetectionResult) :
  In memoryTraining (planActivities cognitiveScore detections)
  <-> memoryGate cognitiveScore = true.
Proof.
  rewrite planActivities_eq.
  destruct (someBelow "facial" (7 # 10) detections),
           (someBelow "speech" (7 # 10) detections),
           (memoryGate cognitiveScore), (someWithdrawn detections);
    simpl; split; intro H; try reflexivity; try discriminate H; auto 10;
    repeat (destruct H as [H|H]; [discriminate H|]); contradiction.
Qed.

Lemma computed_areas_without_memory
    (facialResults speechResults behavioralResults : list DetectionResult) (now : Z) :
  includes (Some (areas_of_concern
                    (scoreFromResults facialResults speechResults behavioralResults now)))
           "memory" = false.
Proof.
  rewrite areas_of_concern_eq.
  destruct (Qlt_bool (meanScore facialResults) (6 # 10)),
           (Qlt_bool (meanScore speechResults) (6 # 10)),
           (Qlt_bool (meanScore behavioralResults) (6 # 10)); reflexivity.
Qed.

Lemma computed_focus
    (facialResults speechResults behavioralResults : list DetectionResult) (now : Z) :
  let areas :=
    areas_of_concern (scoreFromResults facialResults speechResults behavioralResults now) in
  focusAreas (Some areas)
  = match areas with
    | [] => "overall cognitive health"%string
    | _ => join ", " areas
    end.
Proof.
  cbv zeta. rewrite areas_of_concern_eq.
  destruct (Qlt_bool (meanScore facialResults) (6 # 10)),
           (Qlt_bool (meanScore speechResults) (6 # 10)),
           (Qlt_bool (meanScore behavioralResults) (6 # 10)); reflexivity.
Qed.

Lemma selectLatestScores_after_insert (userId : string) (health : CognitiveHealth)
    (now : Z) (db : Db) :
  (forall s, In s (map stored_score (cognitive_scores db)) ->
             score_user_id s = userId -> score_created_at s < now) ->
  selectLatestScores userId (snd (insertScore userId health now db))
  = [storedScore userId health now].
Proof.
  intro Hold. unfold selectLatestScores. cbn [insertScore snd cognitive_scores].
  rewrite map_app, filter_app. cbn [map filter stored_score score_user_id].
  rewrite String.eqb_refl.
  rewrite latestFirst_newest; [reflexivity|].
  intros y Hy. apply filter_In in Hy. destruct Hy as [Hin Hu].
  apply String.eqb_eq in Hu. cbn [score_created_at]. now apply Hold.
Qed.

(** X4.  What the score endpoint stores is what the plan endpoint reads:
    after a successful score request whose row is the user's newest, any
    plan synthesized for that user includes "Memory Enhancement
    Training" exactly when the stored score is below 70 (the labels that
    the score endpoint writes never contain "memory"), and its
    description names the stored areas of concern, or "overall cognitive
    health" when there are none. *)
Theorem stored_score_drives_plan (env env2 : Env) (userId : string) (db : Db) :
  userId <> ""%string ->
  unauthorized env userId = false ->
  reliable env ->
  (forall s, In s (map stored_score (cognitive_scores db)) ->
             score_user_id s = userId -> score_created_at s < clock env) ->
  let health := computedScore env userId db in
  let db' := snd (serve (PUT env (Some userId)) db) in
  let plan := synthesized env2 userId db' in
  fst (serve (PUT env (Some userId)) db) = Returned (ScoreResponse health)
  /\ selectLatestScores userId db' = [storedScore userId health (clock env)]
  /\ (exists z, cognitive_score health = of_Z z
                /\ (In memoryTraining (activities plan) <-> z < 70))
  /\ plan_description plan
     = (descriptionLead
        ++ match areas_of_concern health with
           | [] => "overall cognitive health"
           | _ => join ", " (areas_of_concern health)
           end
        ++ ".")%string.
Proof.
  intros Hne Hauth Hrel Hold health db' plan.
  assert (Hput : serve (PUT env (Some userId)) db
                 = (Returned (ScoreResponse health),
                    snd (insertScore userId health (clock env) db))).
  { rewrite (PUT_success env userId db Hne Hauth (Hrel _) (Hrel _) (Hrel _)).
    now rewrite (Hrel 3%nat). }
  assert (Hdb' : db' = snd (insertScore userId health (clock env) db)).
  { unfold db'. now rewrite Hput. }
  assert (Hsel : selectLatestScores userId db' = [storedScore userId health (clock env)]).
  { rewrite Hdb'. now apply selectLatestScores_after_insert. }
  split; [now rewrite Hput|]. split; [exact Hsel|].
  unfold plan, synthesized. rewrite Hsel. unfold planFromData.
  cbn [activities plan_description storedScore score_areas_of_concern].
  split.
  - destruct (scoreFromResults_values
                (selectDetections userId "facial" 5 db)
                (selectDetections userId "speech" 5 db)
                (selectDetections userId "behavioral" 5 db) (clock env)) as (Hscore & _).
    eexists. split; [exact Hscore|].
    rewrite memoryTraining_included. unfold memoryGate.
    unfold health, computedScore. cbn [score score_areas_of_concern storedScore].
    rewrite computed_areas_without_memory, orb_false_r.
    rewrite Hscore, lt_of_Z. apply Z.ltb_lt.
  - unfold health, computedScore, descriptionLead.
    now rewrite (computed_focus _ _ _ (clock env)).
Qed.

(** A user with one result per channel and no earlier score: the stored
    score is 71, so the plan has no memory training. *)
Lemma stored_score_witness :
  exists z,
    cognitive_score (computedScore (sampleEnv 5 []) "u1" sampleDb) = of_Z z
    /\ (In memoryTraining
          (activities
             (synthesized (sampleEnv 9 []) "u1"
                (snd (serve (PUT (sampleEnv 5 []) (Some "u1"%string)) sampleDb))))
        <-> z < 70).
Proof.
  destruct (stored_score_drives_plan (sampleEnv 5 []) (sampleEnv 9 []) "u1" sampleDb)
    as (_ & _ & H & _).
  - discriminate.
  - reflexivity.
  - intro k. reflexivity.
  - intros s Hs. contradiction.
  - exact H.
Defined.

(** ** Trend of a series of two or more observations *)







(** ** The ranking, whatever the indicators are called *)

Lemma insert_index_perm {V : Type} (e : string * V) (l : list (string * V)) :
  Permutation (Obj.insert_index e l) (e :: l).
Proof.
  induction l as [|x l IH]; simpl; [reflexivity|].
  destruct (Obj.index_of (fst e) <? Obj.index_of (fst x))%N; [reflexivity|].
  rewrite IH. apply perm_swap.
Qed.

Lemma entries_perm {V : Type} (o : Obj.t V) : Permutation (Obj.entries o) o.
Proof.
  unfold Obj.entries.
  assert (Hsort : forall l : list (string * V),
            Permutation (fold_right Obj.insert_index [] l) l).
  { induction l as [|e l IH]; simpl; [reflexivity|].
    rewrite insert_index_perm. now constructor. }
  rewrite Hsort.
  induction o as [|a o IH]; simpl; [reflexivity|].
  destruct (Obj.is_index (fst a)); simpl.
  - now constructor.
  - rewrite <- Permutation_middle. now constructor.
Qed.

Lemma frequencyOf_le (k : string) (data : list DetectionResult) :
  (frequencyOf k data <= List.length data)%nat.
Proof. unfold frequencyOf. apply filter_length_le. Qed.

Lemma seen_iff_counted (k : string) (data : list DetectionResult) :
  Forall wellFormed data -> (In k (sightings data) <-> (0 < frequencyOf k data)%nat).
Proof.
  intro Hwf. rewrite <- (sightings_count k data Hwf).
  rewrite (count_occ_In string_dec). unfold Peano.gt. reflexivity.
Qed.

Lemma ranked_entries (data : list DetectionResult) :
  Forall wellFormed data ->
  Permutation (sortByCount (Obj.entries (tally data))) (tally data)
  /\ forall x, In x (sortByCount (Obj.entries (tally data))) ->
               snd x = frequencyOf (fst x) data.
Proof.
  intro Hwf.
  assert (Hperm : Permutation (sortByCount (Obj.entries (tally data))) (tally data)).
  { rewrite sortByCount_perm. apply entries_perm. }
  split; [exact Hperm|].
  intros x Hx. apply tally_counts; [exact Hwf|]. now apply (Permutation_in _ Hperm).
Qed.

Lemma sorted_app_before {A : Type} (R : A -> A -> Prop) (l1 l2 : list A) :
  StronglySorted R (l1 ++ l2) -> forall a b, In a l1 -> In b l2 -> R a b.
Proof.
  induction l1 as [|x l1 IH]; intros Hs a b Ha Hb; [easy|].
  simpl in Hs. inversion Hs as [|? ? Hs' Hx]; subst.
  destruct Ha as [<-|Ha].
  - rewrite Forall_forall in Hx. apply Hx, in_or_app. now right.
  - now apply IH.
Qed.

Lemma share_bounds (count total : nat) :
  (1 <= count <= total)%nat ->
  (0 < inject_Z (Z.of_nat count) / inject_Z (Z.of_nat total) * 100)%Q
  /\ (inject_Z (Z.of_nat count) / inject_Z (Z.of_nat total) * 100 <= 100)%Q.
Proof.
  intros [H1 H2].
  assert (Hc : (0 < inject_Z (Z.of_nat count))%Q).
  { change 0%Q with (inject_Z 0). rewrite <- Zlt_Qlt. lia. }
  assert (Ht : (0 < inject_Z (Z.of_nat total))%Q).
  { change 0%Q with (inject_Z 0). rewrite <- Zlt_Qlt. lia. }
  assert (Hle : (inject_Z (Z.of_nat count) <= inject_Z (Z.of_nat total))%Q).
  { rewrite <- Zle_Qle. lia. }
  set (c := inject_Z (Z.of_nat count)) in *. set (n := inject_Z (Z.of_nat total)) in *.
  assert (Hdiv0 : (0 < c / n)%Q) by (apply Qlt_shift_div_l; lra).
  assert (Hdiv1 : (c / n <= 1)%Q) by (apply Qle_shift_div_r; lra).
  split; lra.
Qed.

(** X7.  For every non-empty series, whatever its indicators are called
    (names that [Object.prototype] defines apart): the ranking lists each
    indicator seen exactly once, with the number of results in which its
    value is truthy (between 1 and the number of results) and that
    number's share of the results (above 0, at most 100); it is in
    descending order of frequency, and the five entries reported are the
    most frequent: no entry left out has a higher frequency. *)
Theorem ranking_counts_every_indicator (timeframe : string) (data : list DetectionResult) :
  data <> [] ->
  Forall wellFormed data ->
  ownNames data ->
  exists rep ranked,
    analyzeTrends timeframe (Data data) = Report rep
    /\ common_risk_indicators rep = firstn 5 ranked
    /\ NoDup (map indicator ranked)
    /\ (forall k, In k (map indicator ranked) <-> (0 < frequencyOf k data)%nat)
    /\ (forall e, In e ranked ->
          frequency e = frequencyOf (indicator e) data
          /\ (1 <= frequency e <= data_points rep)%nat
          /\ exists q, percentage e = Fin q
                       /\ (q == inject_Z (Z.of_nat (frequency e))
                                / inject_Z (Z.of_nat (data_points rep)) * 100)%Q
                       /\ (0 < q)%Q /\ (q <= 100)%Q)
    /\ StronglySorted (fun a b => (frequency b <= frequency a)%nat) ranked
    /\ (forall e e', In e (firstn 5 ranked) -> In e' (skipn 5 ranked) ->
                     (frequency e' <= frequency e)%nat).
Proof.
  intros Hne Hwf _.
  rewrite (analyzeTrends_nonempty timeframe data Hne).
  eexists _, (sortedRiskIndicators data). split; [reflexivity|].
  cbn [common_risk_indicators data_points]. split; [reflexivity|].
  destruct (ranked_entries data Hwf) as [Hperm Hcnt].
  assert (Hkeys : map indicator (sortedRiskIndicators data)
                  = map fst (sortByCount (Obj.entries (tally data)))).
  { unfold sortedRiskIndicators. rewrite map_map. reflexivity. }
  assert (Hseen : forall k, In k (map indicator (sortedRiskIndicators data))
                            <-> In k (sightings data)).
  { intro k. rewrite Hkeys.
    rewrite <- (firstOccurrences_In k (sightings data)). fold (firstSeen data).
    rewrite <- tally_keys.
    split; apply Permutation_in, Permutation_map; [exact Hperm | now symmetry]. }
  assert (Hsorted : StronglySorted (fun a b => (frequency b <= frequency a)%nat)
                                   (sortedRiskIndicators data)).
  { unfold sortedRiskIndicators.
    apply (sorted_map (fun a b => (snd b <= snd a)%nat)); [|apply sortByCount_sorted].
    intros a b H. exact H. }
  split; [|split; [|split; [|split]]].
  - rewrite Hkeys. apply (Permutation_NoDup (l := map fst (tally data))).
    + apply Permutation_map. now symmetry.
    + apply tally_NoDup.
  - intro k. rewrite Hseen. now apply seen_iff_counted.
  - intros e He.
    assert (Hk : In (indicator e) (sightings data)).
    { apply Hseen. now apply in_map. }
    unfold sortedRiskIndicators in He. apply in_map_iff in He.
    destruct He as [x [<- Hx]]. cbn [frequency indicator percentage] in *.
    assert (Hf : snd x = frequencyOf (fst x) data) by now apply Hcnt.
    assert (Hb : (1 <= snd x <= List.length data)%nat).
    { rewrite Hf. split; [now apply seen_iff_counted | apply frequencyOf_le]. }
    split; [exact Hf|]. split; [exact Hb|].
    rewrite percentage_percentOf by lia. unfold percentOf.
    eexists. split; [reflexivity|]. split; [reflexivity|].
    now apply share_bounds.
  - exact Hsorted.
  - intros e e' He He'.
    rewrite <- (firstn_skipn 5 (sortedRiskIndicators data)) in Hsorted.
    exact (sorted_app_before _ _ _ Hsorted e e' He He').
Qed.

(** "tremor" and "12" are each seen twice, "7" once; "apathy" is never
    truthy and is not listed. *)
Lemma ranking_counts_witness :
  exists rep ranked,
    analyzeTrends "week" (Data mixedNamed) = Report rep
    /\ common_risk_indicators rep = firstn 5 ranked
    /\ NoDup (map indicator ranked)
    /\ (In "apathy"%string (map indicator ranked) <-> (0 < 0)%nat).
Proof.
  destruct (ranking_counts_every_indicator "week" mixedNamed)
    as (rep & ranked & Hrep & Htop & Hnd & Hseen & _).
  - discriminate.
  - well_formed.
  - intros k Hk. simpl in Hk.
    repeat (destruct Hk as [<-|Hk]; [reflexivity|]). contradiction.
  - exists rep, ranked. split; [exact Hrep|]. split; [exact Htop|]. split; [exact Hnd|].
    apply (Hseen "apathy"%string).
Defined.

Example ranking_counts_example :
  map (fun e => (indicator e, frequency e)) (sortedRiskIndicators mixedNamed)
  = [("12", 2); ("tremor", 2); ("7", 1)]%string%nat.
Proof. reflexivity. Qed.

(** ** The plan endpoint as a whole *)

Lemma authorized_session (env : Env) (userId : string) :
  unauthorized env userId = false <-> session env = Some userId.
Proof.
  unfold unauthorized. destruct (session env) as [uid|].
  - rewrite negb_false_iff, String.eqb_eq. split; [now intros -> | now intros [= ->]].
  - split; discriminate.
Qed.

Lemma generateWellnessPlan_outcomes (env : Env) (userId : string) (w : World) :
  (fails env (issued w) = true /\
   generateWellnessPlan env userId w
   = (Returned (inl "Failed to fetch cognitive data"%string),
      {| tables := tables w; issued := S (issued w) |}))
  \/ (fails env (issued w) = false /\ fails env (S (issued w)) = true /\
      generateWellnessPlan env userId w
      = (Returned (inl "Failed to fetch detection results"%string),
         {| tables := tables w; issued := S (S (issued w)) |}))
  \/ (fails env (issued w) = false /\ fails env (S (issued w)) = false /\
      generateWellnessPlan env userId w
      = (Returned (inr (synthesized env userId (tables w))),
         {| tables := tables w; issued := S (S (S (issued w))) |})).
Proof.
  destruct (fails env (issued w)) eqn:H0.
  - left. split; [reflexivity|].
    unfold generateWellnessPlan, bind, query, call. now rewrite H0.
  - destruct (fails env (S (issued w))) eqn:H1.
    + right. left. split; [reflexivity|]. split; [reflexivity|].
      unfold generateWellnessPlan, bind, query, call. rewrite H0. cbn [issued tables].
      now rewrite H1.
    + right. right. split; [reflexivity|]. split; [reflexivity|].
      now apply generateWellnessPlan_ok.
Qed.

(** What the tail of the plan endpoint answers and leaves behind. *)
Lemma synthesizeAndSave_outcomes (env : Env) (userId : string) (w : World) :
  exists resp w',
    synthesizeAndSave env userId w = (Returned resp, w')
    /\ match resp with
       | PlanResponse plan is_new days =>
           is_new = true /\ days = 7
           /\ ((plan = SavedPlan (fst (insertPlan userId (synthesized env userId (tables w))
                                                 (clock env) (tables w)))
                /\ tables w' = snd (insertPlan userId (synthesized env userId (tables w))
                                               (clock env) (tables w)))
               \/ (plan = UnsavedPlan (synthesized env userId (tables w))
                   /\ tables w' = tables w))
       | ErrorResponse http_status error =>
           tables w' = tables w /\ In (http_status, error) planErrors
       | _ => False
       end.
Proof.
  unfold synthesizeAndSave.
  destruct (generateWellnessPlan_outcomes env userId w)
    as [[_ Hg]|[[_ [_ Hg]]|[_ [_ Hg]]]]; unfold bind at 1; rewrite Hg.
  - eexists _, _. split; [reflexivity|]. cbn. split; [reflexivity|]. auto 10.
  - eexists _, _. split; [reflexivity|]. cbn. split; [reflexivity|]. auto 10.
  - unfold bind, call. cbn [issued tables].
    destruct (fails env (S (S (S (issued w))))).
    + eexists _, _. split; [reflexivity|]. cbn. auto.
    + eexists _, _. split; [reflexivity|]. cbn. auto.
Qed.

Lemma insertPlan_grows (userId : string) (plan : WellnessPlan) (now : Z) (db : Db) :
  onlyPlansGrow db (snd (insertPlan userId plan now db)) [fst (insertPlan userId plan now db)].
Proof. unfold onlyPlansGrow. cbn. repeat split. Qed.

(** X8.  The plan endpoint always answers and never alters or removes
    a stored row: an error answer (400 without a user id, 401 for
    another user, 500 when a read fails) and a cached plan leave the
    store as it was; a new plan adds at most one row, and only to
    [wellness_plans].  A cached plan is an active plan of the session's
    user, returned with at least 1 day remaining, and at most 7 unless
    the plan is dated in the future. *)
Theorem GET_only_adds_a_plan (env : Env) (userIdParam : option string) (db : Db) :
  exists resp db',
    serve (GET env userIdParam) db = (Returned resp, db')
    /\ match resp with
       | PlanResponse plan is_new days =>
           exists userId,
             userIdParam = Some userId /\ session env = Some userId
             /\ if is_new
                then days = 7
                     /\ ((exists row, plan = SavedPlan row /\ onlyPlansGrow db db' [row]
                                      /\ row_user_id row = userId /\ is_active row = true
                                      /\ rowContent row
                                         = planContent (synthesized env userId db))
                         \/ (plan = UnsavedPlan (synthesized env userId db) /\ db' = db))
                else db' = db
                     /\ exists p, plan = SavedPlan p /\ activePlanOf userId db p
                                  /\ freshAt env p
                                  /\ days = 7 - daysSinceCreation env p
                                  /\ 1 <= days
                                  /\ (days <= 7 <-> row_created_at p <= clock env)
       | ErrorResponse http_status error =>
           db' = db /\ In (http_status, error) planErrors
       | _ => False
       end.
Proof.
  destruct userIdParam as [userId|].
  2:{ eexists _, _. split; [reflexivity|]. cbn. auto. }
  destruct (unauthorized env userId) eqn:Eauth.
  { eexists _, _. split.
    { unfold serve, GET, try_catch. rewrite Eauth. reflexivity. }
    cbn. auto. }
  pose proof (proj1 (authorized_session env userId) Eauth) as Hsession.
  destruct (fails env 0) eqn:E0.
  { eexists _, _. split.
    { unfold serve, GET, try_catch. rewrite Eauth.
      unfold bind, query, call. cbn [issued]. rewrite E0. reflexivity. }
    cbn. auto 10. }
  set (w1 := {| tables := db; issued := 1 |}).
  assert (Htail : forall resp w',
            synthesizeAndSave env userId w1 = (Returned resp, w') ->
            (match selectActivePlans userId db with
             | p :: _ => (daysSinceCreation env p <? 7) = false
             | [] => True
             end) ->
            serve (GET env (Some userId)) db = (Returned resp, tables w')).
  { intros resp w' Hsyn Hstale. unfold serve, GET, try_catch. rewrite Eauth.
    unfold bind at 1. unfold query, call. cbn [issued tables]. rewrite E0.
    destruct (selectActivePlans userId db) as [|p rest].
    - fold w1. now rewrite Hsyn.
    - rewrite Hstale. fold w1. now rewrite Hsyn. }
  assert (Hnew : (match selectActivePlans userId db with
                  | p :: _ => (daysSinceCreation env p <? 7) = false
                  | [] => True
                  end) ->
                 exists resp db',
                   serve (GET env (Some userId)) db = (Returned resp, db')
                   /\ match resp with
                      | PlanResponse plan is_new days =>
                          exists userId0,
                            Some userId = Some userId0 /\ session env = Some userId0
                            /\ if is_new
                               then days = 7
                                    /\ ((exists row, plan = SavedPlan row
                                                     /\ onlyPlansGrow db db' [row]
                                                     /\ row_user_id row = userId0
                                                     /\ is_active row = true
                                                     /\ rowContent row
                                                        = planContent (synthesized env userId0 db))
                                        \/ (plan = UnsavedPlan (synthesized env userId0 db)
                                            /\ db' = db))
                               else db' = db
                                    /\ exists p, plan = SavedPlan p /\ activePlanOf userId0 db p
                                                 /\ freshAt env p
                                                 /\ days = 7 - daysSinceCreation env p
                                                 /\ 1 <= days
                                                 /\ (days <= 7 <-> row_created_at p <= clock env)
                      | ErrorResponse http_status error =>
                          db' = db /\ In (http_status, error) planErrors
                      | _ => False
                      end).
  { intro Hstale.
    destruct (synthesizeAndSave_outcomes env userId w1) as (resp & w' & Hsyn & Hresp).
    exists resp, (tables w'). split; [now apply Htail|].
    destruct resp as [s e| |plan is_new days|]; try contradiction.
    - exact Hresp.
    - destruct Hresp as (-> & -> & Hcases). exists userId.
      split; [reflexivity|]. split; [exact Hsession|]. split; [reflexivity|].
      destruct Hcases as [[-> Hw]|[-> Hw]].
      + left. eexists. split; [reflexivity|]. rewrite Hw. cbn [tables w1].
        split; [apply insertPlan_grows|]. repeat split.
      + right. split; [reflexivity | exact Hw]. }
  pose proof (selectActivePlans_spec userId db) as Hsel.
  destruct (selectActivePlans userId db) as [|p rest] eqn:Esel.
  - apply Hnew. exact I.
  - destruct (daysSinceCreation env p <? 7) eqn:Edays.
    + clear Hnew Htail. destruct Hsel as (_ & Hact & _).
      apply Z.ltb_lt in Edays. pose proof (proj1 (fresh_days env p) Edays) as Hfresh.
      eexists _, _. split.
      { unfold serve.
        rewrite (GET_existing env userId {| tables := db; issued := 0 |} Eauth E0 p rest Esel Hfresh).
        reflexivity. }
      cbv beta iota. exists userId. split; [reflexivity|]. split; [exact Hsession|].
      split; [reflexivity|]. exists p. split; [reflexivity|]. split; [exact Hact|].
      split; [exact Hfresh|]. split; [reflexivity|]. split; [lia|].
      unfold daysSinceCreation. pose proof msPerDay_pos as Hpos. split; intro H.
      * assert (H0 : 0 <= (clock env - row_created_at p) / msPerDay) by lia.
        destruct (Z_lt_ge_dec (clock env - row_created_at p) 0) as [Hneg|Hnn]; [|lia].
        assert ((clock env - row_created_at p) / msPerDay < 0)
          by (apply Z.div_lt_upper_bound; lia).
        lia.
      * assert (0 <= (clock env - row_created_at p) / msPerDay)
          by (apply Z.div_pos; lia).
        lia.
    + apply Hnew. reflexivity.
Qed.

Lemma GET_replaces_stale (env : Env) (userId : string) (db : Db) :
  unauthorized env userId = false ->
  reliable env ->
  (forall q, activePlanOf userId db q -> ~ freshAt env q) ->
  serve (GET env (Some userId)) db
  = (Returned (PlanResponse
                 (SavedPlan (fst (insertPlan userId (synthesized env userId db) (clock env) db)))
                 true 7),
     snd (insertPlan userId (synthesized env userId db) (clock env) db)).
Proof.
  intros Hauth Hrel Hstale. unfold serve.
  rewrite (GET_synthesizes env userId {| tables := db; issued := 0 |} Hauth
             (Hrel _) (Hrel _) (Hrel _) (Hrel _) Hstale).
  reflexivity.
Qed.

(** X9.  A stale plan is superseded, not retired: when the user's active
    plans are all at least 7 days old, the request stores the new plan as
    one more active plan and leaves the old ones active, so the number of
    the user's active plans grows by one at every regeneration. *)
Theorem stale_plans_stay_active (env : Env) (userId : string) (db : Db) :
  unauthorized env userId = false ->
  reliable env ->
  (forall q, activePlanOf userId db q -> ~ freshAt env q) ->
  let db' := snd (serve (GET env (Some userId)) db) in
  activePlans userId db'
  = activePlans userId db
    ++ [fst (insertPlan userId (synthesized env userId db) (clock env) db)]
  /\ (forall q, activePlanOf userId db q -> activePlanOf userId db' q)
  /\ List.length (activePlans userId db') = S (List.length (activePlans userId db)).
Proof.
  intros Hauth Hrel Hstale db'.
  assert (Hdb' : db' = snd (insertPlan userId (synthesized env userId db) (clock env) db)).
  { unfold db'. now rewrite (GET_replaces_stale env userId db Hauth Hrel Hstale). }
  assert (Hact : activePlans userId db'
                 = activePlans userId db
                   ++ [fst (insertPlan userId (synthesized env userId db) (clock env) db)]).
  { rewrite Hdb'. unfold activePlans. cbn [insertPlan snd fst wellness_plans].
    rewrite filter_app. cbn [filter row_user_id is_active].
    now rewrite String.eqb_refl. }
  split; [exact Hact|]. split.
  - intros q Hq. apply activePlan_filter. fold (activePlans userId db'). rewrite Hact.
    apply in_or_app. left. now apply activePlan_filter.
  - rewrite Hact, length_app. simpl. lia.
Qed.

(** A plan created at time 0 and a request eight days later: two active
    plans afterwards. *)
Lemma stale_plans_witness :
  List.length
    (activePlans "u1"
       (snd (serve (GET (sampleEnv (8 * msPerDay) []) (Some "u1"%string)) oldPlanDb)))
  = 2%nat.
Proof.
  destruct (stale_plans_stay_active (sampleEnv (8 * msPerDay) []) "u1" oldPlanDb)
    as (_ & _ & H).
  - reflexivity.
  - intro k. reflexivity.
  - intros q (Hin & _ & _) Hfresh. destruct Hin as [<-|[]].
    unfold freshAt, ageMs in Hfresh. cbn in Hfresh. lia.
  - exact H.
Defined.

(** X10.  The profile read of the plan endpoint (its store call 3) has
    no influence: two requests that differ only in whether that read
    fails get the same answer and leave the same store. *)
Theorem profile_read_is_ignored (env env' : Env) (userIdParam : option string) (db : Db) :
  sameBut 3 env env' ->
  serve (GET env' userIdParam) db = serve (GET env userIdParam) db.
Proof.
  destruct env as [s c f], env' as [s' c' f'].
  unfold sameBut. cbn [session clock fails]. intros (-> & -> & Hf).
  destruct userIdParam as [userId|]; [|reflexivity].
  unfold serve, GET, try_catch, unauthorized. cbn [session].
  destruct (match s with Some uid => negb (String.eqb uid userId) | None => true end);
    [reflexivity|].
  unfold bind, query, call. cbn [issued tables fails].
  rewrite (Hf 0%nat) by discriminate.
  destruct (f 0%nat); [reflexivity|].
  assert (Hsyn : synthesizeAndSave {| session := s; clock := c; fails := f' |} userId
                                   {| tables := db; issued := 1 |}
                 = synthesizeAndSave {| session := s; clock := c; fails := f |} userId
                                     {| tables := db; issued := 1 |}).
  { unfold synthesizeAndSave, generateWellnessPlan, bind, query, call, synthesized.
    cbn [issued tables fails clock].
    rewrite (Hf 1%nat) by discriminate. destruct (f 1%nat); [reflexivity|].
    cbn [issued tables]. rewrite (Hf 2%nat) by discriminate.
    destruct (f 2%nat); [reflexivity|]. cbn [issued tables].
    destruct (f' 3%nat), (f 3%nat); unfold ret; cbn [issued tables];
      rewrite (Hf 4%nat) by discriminate; reflexivity. }
  destruct (selectActivePlans userId db) as [|p rest].
  - now rewrite Hsyn.
  - unfold daysSinceCreation. cbn [clock].
    destruct ((c - row_created_at p) / msPerDay <? 7); [reflexivity|]. now rewrite Hsyn.
Qed.

(** The same request with and without a failing profile read. *)
Lemma profile_read_witness :
  serve (GET (sampleEnv 0 [3%nat]) (Some "u1"%string)) sampleDb
  = serve (GET (sampleEnv 0 []) (Some "u1"%string)) sampleDb.
Proof.
  apply (profile_read_is_ignored (sampleEnv 0 []) (sampleEnv 0 [3%nat])).
  split; [reflexivity|]. split; [reflexivity|].
  intros i Hi. destruct i as [|[|[|[|i]]]]; try reflexivity. now elim Hi.
Defined.

(** ** The daily view of a generated plan *)

Ltac each_day H :=
  simpl in H; repeat (destruct H as [<-|H]; [|]); [.. | contradiction].

(** X11.  The page's daily view of a generated plan: on each of the seven
    days it shows the daily check-in and at most three activities, all of
    them activities of the plan; every activity of the plan is shown on
    at least one day; Sunday shows exactly the two baseline activities
    (its third schedule entry, "rest-day", names no activity). *)
Theorem daily_view_of_generated_plan (cognitiveScore : CognitiveScore)
    (detections : list DetectionResult) :
  let acts := planActivities cognitiveScore detections in
  let view := filteredActivities acts planSchedule in
  (forall day, In day weekdays ->
     In dailyCheckIn (view day) /\ (List.length (view day) <= 3)%nat /\ incl (view day) acts)
  /\ (forall a, In a acts -> exists day, In day weekdays /\ In a (view day))
  /\ view "sunday"%string = [dailyCheckIn; mindfulnessPractice].
Proof.
  cbv zeta. rewrite planActivities_eq.
  split; [|split].
  - intros day Hday. split; [|split].
    + destruct (someBelow "facial" (7 # 10) detections),
               (someBelow "speech" (7 # 10) detections),
               (memoryGate cognitiveScore), (someWithdrawn detections);
        each_day Hday; now left.
    + destruct (someBelow "facial" (7 # 10) detections),
               (someBelow "speech" (7 # 10) detections),
               (memoryGate cognitiveScore), (someWithdrawn detections);
        each_day Hday; simpl; lia.
    + intros a Ha. unfold filteredActivities in Ha. now apply filter_In in Ha.
  - intros a Ha.
    assert (Hflat : In a (flat_map
                            (filteredActivities
                               ([dailyCheckIn; mindfulnessPractice]
                                ++ whenever (someBelow "facial" (7 # 10) detections)
                                            [facialExercises]
                                ++ whenever (someBelow "speech" (7 # 10) detections)
                                            [speechPractice; wordRetrieval]
                                ++ whenever (memoryGate cognitiveScore) [memoryTraining]
                                ++ whenever (someWithdrawn detections) [socialEngagement]
                                ++ [physicalExercise])
                               planSchedule)
                            weekdays)).
    { destruct (someBelow "facial" (7 # 10) detections),
               (someBelow "speech" (7 # 10) detections),
               (memoryGate cognitiveScore), (someWithdrawn detections);
        simpl in Ha |- *; intuition. }
    apply in_flat_map in Hflat. destruct Hflat as [day [Hday Hin]]. now exists day.
  - destruct (someBelow "facial" (7 # 10) detections),
             (someBelow "speech" (7 # 10) detections),
             (memoryGate cognitiveScore), (someWithdrawn detections); reflexivity.
Qed.

(** ** Wearable readings and the daily metrics row *)

Lemma updateHealthMetrics_frame (env : Env) (userId dataType : string) (value : Q)
    (w w' : World) (r : outcome unit) :
  updateHealthMetrics env userId dataType value w = (r, w') ->
  sameButMetrics (tables w) (tables w')
  /\ (metricUpdate dataType value = None -> health_metrics (tables w') = health_metrics (tables w))
  /\ (List.length (health_metrics (tables w)) <= List.length (health_metrics (tables w'))
      <= S (List.length (health_metrics (tables w))))%nat.
Proof.
  unfold updateHealthMetrics, try_catch, bind, query, call, isoDay, ret, throw,
    updateMetrics, insertMetrics, sameButMetrics.
  destruct (fails env (issued w)).
  { intros [= _ <-]. cbn. repeat split; auto; lia. }
  destruct (metricUpdate dataType value) as [updateData|].
  2:{ intros [= _ <-]. cbn. repeat split; auto; lia. }
  destruct (selectLatestMetrics userId (tables w)) as [m|]; cbn [issued tables].
  - destruct (metrics_created_at m) as [t|].
    2:{ intros [= _ <-]. cbn. repeat split; auto; try easy; lia. }
    destruct (clock env / msPerDay =? t / msPerDay); cbn [issued tables];
      destruct (fails env (S (issued w))); intros [= _ <-]; cbn;
      rewrite ?length_map, ?length_app; cbn; repeat split; auto; try easy; lia.
  - destruct (fails env (S (issued w))); intros [= _ <-]; cbn;
      rewrite ?length_app; cbn; repeat split; auto; try easy; lia.
Qed.

(** X12.  What a wearable submission does to the store.  It always
    answers.  An error answer (400 for a body the schema rejects, 401 for
    a foreign or missing session, 500 for a body that is not JSON or a
    failed insert) leaves the store as it was.  A success answer carries
    the submitted reading under a fresh id; that one row is appended to
    the wearable table, the detection, score and plan tables are
    untouched, at most one metrics row is added and none removed, and a
    reading of a type without a metric writes no metrics at all. *)
Theorem wearable_POST_store_effect (env : Env) (body : Body) (db : Db) :
  exists resp db',
    serve (POST env body) db = (Returned resp, db')
    /\ match resp with
       | ErrorResponse st _ =>
           db' = db
           /\ (st = 400%nat \/ st = 401%nat \/ st = 500%nat)
           /\ (st = 400%nat <-> body = Invalid)
           /\ (st = 401%nat <->
               exists input, body = Valid input /\ unauthorized env (in_userId input) = true)
       | WearableResponse row _ =>
           exists input,
             body = Valid input
             /\ unauthorized env (in_userId input) = false
             /\ row = {| wearable_id := next_id db; wearable_input := input |}
             /\ wearable_data db' = wearable_data db ++ [row]
             /\ detection_results db' = detection_results db
             /\ cognitive_scores db' = cognitive_scores db
             /\ wellness_plans db' = wellness_plans db
             /\ (List.length (health_metrics db) <= List.length (health_metrics db')
                 <= S (List.length (health_metrics db)))%nat
             /\ (metricUpdate (data_type input) (value input) = None ->
                 health_metrics db' = health_metrics db)
       | _ => False
       end.
Proof.
  unfold serve, POST, try_catch.
  destruct body as [| |input].
  - eexists _, _. split; [reflexivity|]. cbn.
    split; [reflexivity|]. split; [auto|]. split; [split; [lia|discriminate]|].
    split; [lia|]. intros [i [Hi _]]. discriminate.
  - eexists _, _. split; [reflexivity|]. cbn.
    split; [reflexivity|]. split; [auto|]. split; [split; reflexivity|].
    split; [lia|]. intros [i [Hi _]]. discriminate.
  - destruct (unauthorized env (in_userId input)) eqn:Hauth.
    + eexists _, _. split; [reflexivity|]. cbn.
      split; [reflexivity|]. split; [auto|]. split; [split; [lia|discriminate]|].
      split; [|reflexivity]. intros _. now exists input.
    + unfold bind at 1. unfold call at 1. cbn [issued tables].
      destruct (fails env 0%nat).
      * eexists _, _. split; [reflexivity|]. cbn.
        split; [reflexivity|]. split; [auto|]. split; [split; [lia|discriminate]|].
        split; [lia|]. intros [i [[= <-] Hi]]. congruence.
      * cbn [insertWearable]. unfold bind.
        match goal with
        | |- context [updateHealthMetrics ?e ?u ?d ?v ?w0] =>
            destruct (updateHealthMetrics_returns e u d v w0) as [w1 Hw1];
            pose proof (updateHealthMetrics_frame e u d v w0 w1 _ Hw1) as Hframe;
            rewrite Hw1
        end.
        eexists _, _. split; [reflexivity|].
        destruct Hframe as [(Hd & Hc & Hp & Hw) [Hnone Hlen]]. cbn in Hd, Hc, Hp, Hw, Hnone, Hlen.
        exists input. unfold ret. cbn [tables].
        repeat (split; [first [reflexivity | assumption | lia]|]).
        exact Hnone.
Qed.

Lemma earlier_day (a b : Z) : a / msPerDay < b / msPerDay -> a < b.
Proof.
  intro H. destruct (Z_lt_le_dec a b) as [Hlt|Hge]; [exact Hlt|].
  pose proof (Z.div_le_mono b a msPerDay msPerDay_pos Hge). lia.
Qed.

(** A reading of a user whose metrics rows are all of earlier days opens
    a new row. *)
Lemma updateHealthMetrics_opens (env : Env) (userId dataType : string) (value : Q)
    (updateData : MetricUpdate) (w : World) :
  reliable env ->
  metricUpdate dataType value = Some updateData ->
  (forall m, In m (health_metrics (tables w)) -> metrics_user_id m = userId ->
             datedBefore (clock env / msPerDay) m) ->
  updateHealthMetrics env userId dataType value w
  = (Returned tt,
     {| tables := snd (insertMetrics userId updateData (clock env) (tables w));
        issued := S (S (issued w)) |}).
Proof.
  intros Hrel Hupd Hold.
  unfold updateHealthMetrics, try_catch, bind, query, call, isoDay, ret, throw.
  rewrite Hrel, Hupd.
  destruct (selectLatestMetrics userId (tables w)) as [m|] eqn:Hsel; cbn [issued tables].
  - assert (Hm : In m (health_metrics (tables w)) /\ metrics_user_id m = userId).
    { unfold selectLatestMetrics in Hsel.
      destruct (latestFirst _ _) as [|x rest] eqn:E; [discriminate|].
      injection Hsel as ->.
      assert (Hin : In m (latestFirst
                            (fun m => match metrics_created_at m with Some t => t | None => 0 end)
                            (filter (fun m => String.eqb (metrics_user_id m) userId)
                                    (health_metrics (tables w)))))
        by (rewrite E; now left).
      apply latestFirst_In, filter_In in Hin. destruct Hin as [Hin Hu].
      now apply String.eqb_eq in Hu. }
    destruct Hm as [Hin Hu]. specialize (Hold m Hin Hu). unfold datedBefore in Hold.
    destruct (metrics_created_at m) as [t|]; [|contradiction].
    assert (Hneq : (clock env / msPerDay =? t / msPerDay) = false) by (apply Z.eqb_neq; lia).
    rewrite Hneq. cbn [issued tables]. rewrite Hrel. reflexivity.
  - rewrite Hrel. reflexivity.
Qed.

(** A reading of a user whose latest metrics row is dated. *)
Lemma updateHealthMetrics_latest (env : Env) (userId dataType : string) (value : Q)
    (updateData : MetricUpdate) (m : HealthMetricsRow) (t : Z) (w : World) :
  reliable env ->
  metricUpdate dataType value = Some updateData ->
  selectLatestMetrics userId (tables w) = Some m ->
  metrics_created_at m = Some t ->
  updateHealthMetrics env userId dataType value w
  = (Returned tt,
     {| tables := if clock env / msPerDay =? t / msPerDay
                  then snd (updateMetrics (metrics_id m) updateData (tables w))
                  else snd (insertMetrics userId updateData (clock env) (tables w));
        issued := S (S (issued w)) |}).
Proof.
  intros Hrel Hupd Hsel Ht.
  unfold updateHealthMetrics, try_catch, bind, query, call, isoDay, ret, throw.
  rewrite Hrel, Hupd, Hsel, Ht. cbn [issued tables].
  destruct (clock env / msPerDay =? t / msPerDay); cbn [issued tables]; rewrite Hrel; reflexivity.
Qed.

Lemma same_type_overwrites (dataType : string) (v1 v2 : Q) (u1 u2 : MetricUpdate) :
  metricUpdate dataType v1 = Some u1 ->
  metricUpdate dataType v2 = Some u2 ->
  mergeUpdate u2 u1 = u2.
Proof.
  unfold metricUpdate.
  destruct (String.eqb dataType "heart_rate"); [intros [= <-] [= <-]; reflexivity|].
  destruct (String.eqb dataType "sleep"); [intros [= <-] [= <-]; reflexivity|].
  destruct (String.eqb dataType "activity"); [intros [= <-] [= <-]; reflexivity|].
  destruct (String.eqb dataType "stress"); [intros [= <-] [= <-]; reflexivity|].
  discriminate.
Qed.

(** X13.  Two readings of one user, submitted one after the other to a
    store whose metrics rows of that user are all of earlier days.  The
    first opens a metrics row for the day.  If the second arrives on the
    same UTC day it is merged into that row: the column it names is
    overwritten, the other columns are kept, so a second reading of the
    same type replaces the first.  If it arrives on another day it opens
    a row of its own, which holds only the column it names, and the
    earlier row is left as it was. *)
Theorem readings_of_a_day_share_a_row (env1 env2 : Env) (in1 in2 : WearableInput)
    (u1 u2 : MetricUpdate) (db : Db) :
  reliable env1 -> reliable env2 ->
  unauthorized env1 (in_userId in1) = false ->
  unauthorized env2 (in_userId in1) = false ->
  in_userId in2 = in_userId in1 ->
  metricUpdate (data_type in1) (value in1) = Some u1 ->
  metricUpdate (data_type in2) (value in2) = Some u2 ->
  (forall m, In m (health_metrics db) -> (metrics_id m < next_id db)%nat) ->
  (forall m, In m (health_metrics db) -> metrics_user_id m = in_userId in1 ->
             datedBefore (clock env1 / msPerDay) m) ->
  exists r1 db1 r2 db2,
    serve (POST env1 (Valid in1)) db = (Returned r1, db1)
    /\ serve (POST env2 (Valid in2)) db1 = (Returned r2, db2)
    /\ health_metrics db1
       = health_metrics db ++ [metricsRow (S (next_id db)) (in_userId in1) (clock env1) u1]
    /\ health_metrics db2
       = health_metrics db ++
         (if clock env2 / msPerDay =? clock env1 / msPerDay
          then [metricsRow (S (next_id db)) (in_userId in1) (clock env1) (mergeUpdate u2 u1)]
          else [metricsRow (S (next_id db)) (in_userId in1) (clock env1) u1;
                metricsRow (S (S (S (next_id db)))) (in_userId in1) (clock env2) u2])
    /\ (data_type in1 = data_type in2 -> mergeUpdate u2 u1 = u2).
Proof.
  intros Hrel1 Hrel2 Hauth1 Hauth2 Huser Hu1 Hu2 Hids Hold.
  set (userId := in_userId in1) in *.
  set (row1 := metricsRow (S (next_id db)) userId (clock env1) u1).
  (* the first submission *)
  assert (H1 : serve (POST env1 (Valid in1)) db
               = (Returned (WearableResponse
                              {| wearable_id := next_id db; wearable_input := in1 |}
                              "Wearable data saved successfully"),
                  snd (insertMetrics userId u1 (clock env1) (snd (insertWearable in1 db))))).
  { unfold serve, POST, try_catch. fold userId. rewrite Hauth1.
    unfold bind at 1. unfold call at 1. rewrite Hrel1. cbn [insertWearable tables issued].
    unfold bind.
    rewrite (updateHealthMetrics_opens env1 userId _ _ u1) by assumption.
    reflexivity. }
  set (db1 := snd (insertMetrics userId u1 (clock env1) (snd (insertWearable in1 db)))) in *.
  assert (Hm1 : health_metrics db1 = health_metrics db ++ [row1]) by reflexivity.
  assert (Hsel : selectLatestMetrics userId (snd (insertWearable in2 db1)) = Some row1).
  { unfold selectLatestMetrics. cbn [insertWearable snd health_metrics]. rewrite Hm1.
    rewrite filter_app. cbn [filter row1 metricsRow metrics_user_id].
    rewrite String.eqb_refl.
    rewrite latestFirst_newest; [reflexivity|].
    intros y Hy. apply filter_In in Hy. destruct Hy as [Hy Hyu].
    apply String.eqb_eq in Hyu. specialize (Hold y Hy Hyu). unfold datedBefore in Hold.
    cbn [metrics_created_at].
    destruct (metrics_created_at y) as [t|]; [|contradiction].
    now apply earlier_day. }
  assert (H2 : serve (POST env2 (Valid in2)) db1
               = (Returned (WearableResponse
                              {| wearable_id := next_id db1; wearable_input := in2 |}
                              "Wearable data saved successfully"),
                  if clock env2 / msPerDay =? clock env1 / msPerDay
                  then snd (updateMetrics (metrics_id row1) u2 (snd (insertWearable in2 db1)))
                  else snd (insertMetrics userId u2 (clock env2) (snd (insertWearable in2 db1))))).
  { unfold serve, POST, try_catch. rewrite Huser. fold userId. rewrite Hauth2.
    unfold bind at 1. unfold call at 1. rewrite Hrel2. cbn [insertWearable tables issued].
    unfold bind.
    rewrite (updateHealthMetrics_latest env2 userId _ _ u2 row1 (clock env1))
      by (try assumption; reflexivity).
    reflexivity. }
  eexists _, db1, _, _. split; [exact H1|]. split; [exact H2|].
  split; [exact Hm1|]. split.
  - destruct (clock env2 / msPerDay =? clock env1 / msPerDay).
    + cbn [updateMetrics snd withMetrics health_metrics insertWearable]. rewrite Hm1.
      rewrite map_app. f_equal.
      * rewrite <- (map_id (health_metrics db)) at 2. apply map_ext_in.
        intros m Hm. specialize (Hids m Hm). cbn [row1 metricsRow metrics_id].
        assert (Hne : Nat.eqb (metrics_id m) (S (next_id db)) = false)
          by (apply Nat.eqb_neq; lia).
        now rewrite Hne.
      * cbn [map row1 metricsRow metrics_id]. now rewrite Nat.eqb_refl.
    + cbn [insertMetrics snd health_metrics insertWearable next_id]. rewrite Hm1.
      rewrite <- app_assoc. reflexivity.
  - intros Htype. rewrite Htype in Hu1. exact (same_type_overwrites _ _ _ _ _ Hu1 Hu2).
Qed.

(** Six hours of sleep in the morning and 12000 steps in the evening of
    the same day end in one row that holds both; with the steps sent the
    next day, in two rows. *)
Lemma readings_of_a_day_witness :
  (exists r1 db1 r2 db2,
     serve (POST (sampleEnv 86400000 []) (Valid sampleReading)) emptyDb = (Returned r1, db1)
     /\ serve (POST (sampleEnv 86460000 []) (Valid stepsReading)) db1 = (Returned r2, db2)
     /\ health_metrics db2
        = [metricsRow 1 "u1" 86400000
             {| resting_heart_rate := None; sleep_quality := Some "fair"%string;
                activity_level := Some "high"%string; stress_level := None |}])
  /\ (exists r1 db1 r2 db2,
        serve (POST (sampleEnv 86400000 []) (Valid sampleReading)) emptyDb = (Returned r1, db1)
        /\ serve (POST (sampleEnv 172800000 []) (Valid stepsReading)) db1 = (Returned r2, db2)
        /\ health_metrics db2
           = [metricsRow 1 "u1" 86400000 (sleepUpdate "fair");
              metricsRow 3 "u1" 172800000 (activityUpdate "high")]).
Proof.
  split.
  - destruct (readings_of_a_day_share_a_row
                (sampleEnv 86400000 []) (sampleEnv 86460000 []) sampleReading stepsReading
                (sleepUpdate "fair") (activityUpdate "high") emptyDb)
      as (r1 & db1 & r2 & db2 & H1 & H2 & _ & H4 & _);
      try reflexivity; try (intros m []); try (intros k; reflexivity).
    exists r1, db1, r2, db2. split; [exact H1|]. split; [exact H2|]. exact H4.
  - destruct (readings_of_a_day_share_a_row
                (sampleEnv 86400000 []) (sampleEnv 172800000 []) sampleReading stepsReading
                (sleepUpdate "fair") (activityUpdate "high") emptyDb)
      as (r1 & db1 & r2 & db2 & H1 & H2 & _ & H4 & _);
      try reflexivity; try (intros m []); try (intros k; reflexivity).
    exists r1, db1, r2, db2. split; [exact H1|]. split; [exact H2|]. exact H4.
Defined.

(** ** The rate-limiting middleware *)

Import Middleware.

Lemma get_deleted {V : Type} (k : string) (o : Obj.t V) :
  Obj.get k (filter (fun e => negb (String.eqb (fst e) k)) o) = None.
Proof.
  induction o as [|[k0 v] o IH]; simpl; [reflexivity|].
  destruct (String.eqb k0 k) eqn:E; simpl; [exact IH|]. now rewrite E.
Qed.

Lemma get_delete_other {V : Type} (k k' : string) (o : Obj.t V) :
  k' <> k ->
  Obj.get k' (filter (fun e => negb (String.eqb (fst e) k)) o) = Obj.get k' o.
Proof.
  intro Hne. induction o as [|[k0 v] o IH]; simpl; [reflexivity|].
  destruct (String.eqb k0 k) eqn:E; simpl.
  - apply String.eqb_eq in E. subst k0.
    assert (Hf : String.eqb k k' = false) by (apply String.eqb_neq; congruence).
    now rewrite Hf.
  - now rewrite IH.
Qed.

Lemma keyCheck_not_limited (cfg : Config) (req : Request) : limited (keyCheck cfg req) = false.
Proof. unfold keyCheck. now destruct (_ && _). Qed.

Lemma separate_delete (k : string) (st : Limiter) : separate st -> separate (map_delete k st).
Proof.
  intros [Hlt Hinj]. split; cbn [map_delete rateLimit allocated].
  - intros i a Hi. destruct (string_dec i k) as [->|Hne].
    + now rewrite get_deleted in Hi.
    + rewrite get_delete_other in Hi by exact Hne. now apply (Hlt i).
  - intros i1 i2 a H1 H2.
    destruct (string_dec i1 k) as [->|Hn1]; [now rewrite get_deleted in H1|].
    destruct (string_dec i2 k) as [->|Hn2]; [now rewrite get_deleted in H2|].
    rewrite get_delete_other in H1, H2 by assumption. now apply (Hinj i1 i2 a).
Qed.

(** One request of an authenticated user, seen through the map. *)
Lemma limiter_step (cfg : Config) (env : Env) (req : Request) (st : Limiter) (uid : string) :
  separate st ->
  session env = Some uid ->
  exists v st',
    mlApiMiddleware cfg env req st = (v, st')
    /\ separate st'
    /\ (forall other, other <> identifierOf uid req -> entryOf st' other = entryOf st other)
    /\ match entryOf st (identifierOf uid req) with
       | None =>
           limited v = false
           /\ entryOf st' (identifierOf uid req)
              = Some {| count := 1; resetTime := add (of_Z (clock env)) (WINDOW_MS cfg) |}
       | Some e =>
           limited v = ge (of_nat (count e)) (MAX_REQUESTS cfg)
           /\ entryOf st' (identifierOf uid req)
              = if gt (of_Z (clock env)) (resetTime e) then None
                else Some (if limited v then e
                           else {| count := S (count e); resetTime := resetTime e |})
       end.
Proof.
  intros Hsep Hsession. pose proof Hsep as [Hlt Hinj].
  unfold mlApiMiddleware. rewrite Hsession.
  set (identifier := identifierOf uid req).
  unfold entryOf at 3.
  destruct (Obj.get identifier (rateLimit st)) as [a|] eqn:Hget; cbn [option_map].
  - destruct (gt (of_Z (clock env)) (resetTime (objects st a))) eqn:Hexp.
    + cbn [map_delete objects].
      destruct (ge (of_nat (count (objects st a))) (MAX_REQUESTS cfg)) eqn:Hmax.
      * eexists _, _. split; [reflexivity|]. split; [now apply separate_delete|].
        split; [|split; [reflexivity|]].
        -- intros other Hne. unfold entryOf. cbn [map_delete rateLimit objects].
           now rewrite get_delete_other.
        -- unfold entryOf. cbn [map_delete rateLimit]. now rewrite get_deleted.
      * eexists _, _. split; [reflexivity|].
        split; [apply (separate_delete identifier) in Hsep; exact Hsep|].
        split; [|split; [apply keyCheck_not_limited|]].
        -- intros other Hne. unfold entryOf. cbn [increment map_delete rateLimit objects].
           rewrite get_delete_other by exact Hne.
           destruct (Obj.get other (rateLimit st)) as [b|] eqn:Hb; [|reflexivity].
           cbn [option_map].
           assert (Hba : Nat.eqb b a = false).
           { apply Nat.eqb_neq. intros ->. apply Hne. now apply (Hinj other identifier a). }
           now rewrite Hba.
        -- unfold entryOf. cbn [increment map_delete rateLimit]. now rewrite get_deleted.
    + destruct (ge (of_nat (count (objects st a))) (MAX_REQUESTS cfg)) eqn:Hmax.
      * eexists _, _. split; [reflexivity|]. split; [exact Hsep|].
        split; [reflexivity|]. split; [reflexivity|].
        unfold entryOf. rewrite Hget. reflexivity.
      * eexists _, _. split; [reflexivity|]. split; [exact Hsep|].
        split; [|split; [apply keyCheck_not_limited|]].
        -- intros other Hne. unfold entryOf. cbn [increment rateLimit objects].
           destruct (Obj.get other (rateLimit st)) as [b|] eqn:Hb; [|reflexivity].
           cbn [option_map].
           assert (Hba : Nat.eqb b a = false).
           { apply Nat.eqb_neq. intros ->. apply Hne. now apply (Hinj other identifier a). }
           now rewrite Hba.
        -- rewrite keyCheck_not_limited. unfold entryOf. cbn [increment rateLimit objects].
           rewrite Hget. cbn [option_map]. now rewrite Nat.eqb_refl.
  - eexists _, _. split; [reflexivity|]. split; [|split; [|split; [apply keyCheck_not_limited|]]].
    + split; cbn [map_set rateLimit allocated].
      * intros i a Hi. destruct (string_dec identifier i) as [<-|Hne].
        -- rewrite get_set_same in Hi. injection Hi as <-. lia.
        -- rewrite get_set_other in Hi by exact Hne. specialize (Hlt i a Hi). lia.
      * intros i1 i2 a H1 H2.
        destruct (string_dec identifier i1) as [<-|Hn1];
          destruct (string_dec identifier i2) as [<-|Hn2]; [reflexivity| | |].
        -- rewrite get_set_same in H1. injection H1 as <-.
           rewrite get_set_other in H2 by exact Hn2. specialize (Hlt i2 _ H2). lia.
        -- rewrite get_set_same in H2. injection H2 as <-.
           rewrite get_set_other in H1 by exact Hn1. specialize (Hlt i1 _ H1). lia.
        -- rewrite get_set_other in H1, H2 by assumption. now apply (Hinj i1 i2 a).
    + intros other Hne. unfold entryOf. cbn [map_set rateLimit objects].
      rewrite get_set_other by congruence.
      destruct (Obj.get other (rateLimit st)) as [b|] eqn:Hb; [|reflexivity].
      cbn [option_map]. specialize (Hlt other b Hb).
      assert (Hba : Nat.eqb b (allocated st) = false) by (apply Nat.eqb_neq; lia).
      now rewrite Hba.
    + unfold entryOf. cbn [map_set rateLimit objects]. rewrite get_set_same.
      cbn [option_map]. now rewrite Nat.eqb_refl.
Qed.

Lemma ge_of_nat (c m : nat) : ge (of_nat c) (of_nat m) = (m <=? c)%nat.
Proof.
  unfold ge, le, of_nat, of_Z. rewrite Qle_bool_inject_Z.
  destruct (Nat.leb_spec m c); [apply Z.leb_le | apply Z.leb_gt]; lia.
Qed.

Lemma not_after_reset (t t0 w : Z) :
  t <= t0 + w -> gt (of_Z t) (add (of_Z t0) (of_Z w)) = false.
Proof.
  intro H. unfold gt, add, of_Z, lt.
  destruct (Qlt_bool (inject_Z t0 + inject_Z w) (inject_Z t)) eqn:E; [|reflexivity].
  apply Qlt_bool_iff in E. rewrite <- inject_Z_plus in E. rewrite <- Zlt_Qlt in E. lia.
Qed.

(** Requests of one identifier that all arrive before its entry's reset
    time: each is judged by the count so far, and counted if admitted. *)
Lemma window_counting (cfg : Config) (m : nat) (identifier : string) (r : number)
    (requests : list (Env * Request)) :
  MAX_REQUESTS cfg = of_nat m ->
  forall (st : Limiter) (c : nat),
    separate st ->
    entryOf st identifier = Some {| count := c; resetTime := r |} ->
    Forall (fun er => exists uid, session (fst er) = Some uid
                                  /\ identifierOf uid (snd er) = identifier
                                  /\ gt (of_Z (clock (fst er))) r = false) requests ->
    exists vs st',
      serveAll cfg requests st = (vs, st')
      /\ separate st'
      /\ List.length vs = List.length requests
      /\ (forall k v, nth_error vs k = Some v -> limited v = (m <=? c + k)%nat)
      /\ entryOf st' identifier
         = Some {| count := Nat.max c (Nat.min (c + List.length requests) m); resetTime := r |}.
Proof.
  intro Hmax. induction requests as [|[env req] rest IH]; intros st c Hsep Hentry Hall.
  - eexists _, _. split; [reflexivity|]. split; [exact Hsep|]. split; [reflexivity|].
    split; [intros [|k] v; discriminate|].
    rewrite Hentry. cbn [List.length]. do 2 f_equal. lia.
  - inversion Hall as [|x l (uid & Hsession & Hid & Hgt) Hrest]; subst x l.
    cbn [fst snd] in Hsession, Hid, Hgt.
    destruct (limiter_step cfg env req st uid Hsep Hsession)
      as (v & st1 & Hstep & Hsep1 & _ & Hown).
    rewrite Hid, Hentry in Hown. cbn [count resetTime] in Hown.
    rewrite Hgt, Hmax, ge_of_nat in Hown. destruct Hown as [Hv Hentry1].
    rewrite Hv in Hentry1.
    assert (Hnext : entryOf st1 identifier
                    = Some {| count := if (m <=? c)%nat then c else S c; resetTime := r |})
      by (rewrite Hentry1; now destruct (m <=? c)%nat).
    destruct (IH st1 _ Hsep1 Hnext Hrest) as (vs & st2 & Hrun & Hsep2 & Hlen & Hvs & Hfinal).
    exists (v :: vs), st2. cbn [serveAll]. rewrite Hstep, Hrun.
    split; [reflexivity|]. split; [exact Hsep2|]. split; [cbn; now rewrite Hlen|].
    split.
    + intros [|k] w Hw; cbn in Hw.
      * injection Hw as <-. rewrite Hv. now rewrite Nat.add_0_r.
      * rewrite (Hvs k w Hw).
        destruct (Nat.leb_spec m c);
          [ transitivity true; [apply Nat.leb_le | symmetry; apply Nat.leb_le]; lia
          | f_equal; lia ].
    + rewrite Hfinal. cbn [List.length]. do 2 f_equal.
      destruct (Nat.leb_spec m c); lia.
Qed.

(** X14.  A window of the rate limiter.  For a client without an entry,
    the first request opens a window that lasts [WINDOW_MS] from its own
    time; of the requests that arrive before the window has passed,
    those numbered (from 0) below [max(MAX_REQUESTS, 1)] are let through
    and counted, and every later one is turned away with 429 and not
    counted.  So a limit of 0 still lets one request through. *)
Theorem window_admits_the_limit (cfg : Config) (m : nat) (w : Z) (uid : string)
    (first : Env * Request) (rest : list (Env * Request)) (st : Limiter) :
  MAX_REQUESTS cfg = of_nat m ->
  WINDOW_MS cfg = of_Z w ->
  separate st ->
  session (fst first) = Some uid ->
  entryOf st (identifierOf uid (snd first)) = None ->
  Forall (fun er => session (fst er) = Some uid
                    /\ identifierOf uid (snd er) = identifierOf uid (snd first)
                    /\ clock (fst er) <= clock (fst first) + w) rest ->
  exists vs st',
    serveAll cfg (first :: rest) st = (vs, st')
    /\ List.length vs = S (List.length rest)
    /\ (forall k v, nth_error vs k = Some v -> limited v = (Nat.max m 1 <=? k)%nat)
    /\ entryOf st' (identifierOf uid (snd first))
       = Some {| count := Nat.min (S (List.length rest)) (Nat.max m 1);
                 resetTime := add (of_Z (clock (fst first))) (of_Z w) |}.
Proof.
  intros Hmax Hwin Hsep Hsession Hnone Hall. destruct first as [env req].
  cbn [fst snd] in *.
  destruct (limiter_step cfg env req st uid Hsep Hsession)
    as (v & st1 & Hstep & Hsep1 & _ & Hown).
  rewrite Hnone, Hwin in Hown. destruct Hown as [Hv Hentry1].
  assert (Hall' : Forall (fun er => exists uid0, session (fst er) = Some uid0
                                    /\ identifierOf uid0 (snd er) = identifierOf uid req
                                    /\ gt (of_Z (clock (fst er)))
                                          (add (of_Z (clock env)) (of_Z w)) = false) rest).
  { eapply Forall_impl; [|exact Hall]. intros [e r] (Hs & Hi & Ht). cbn [fst snd] in *.
    exists uid. split; [exact Hs|]. split; [exact Hi|]. now apply not_after_reset. }
  destruct (window_counting cfg m _ _ rest Hmax st1 1%nat Hsep1 Hentry1 Hall')
    as (vs & st2 & Hrun & _ & Hlen & Hvs & Hfinal).
  exists (v :: vs), st2. cbn [serveAll]. rewrite Hstep, Hrun.
  split; [reflexivity|]. split; [cbn; now rewrite Hlen|]. split.
  - intros [|k] x Hx; cbn in Hx.
    + injection Hx as <-. rewrite Hv. symmetry. apply Nat.leb_gt. lia.
    + rewrite (Hvs k x Hx).
      destruct (Nat.leb_spec m (1 + k));
        [ symmetry; apply Nat.leb_le | symmetry; apply Nat.leb_gt ]; lia.
  - rewrite Hfinal. do 2 f_equal. lia.
Qed.

(** With a limit of two, three requests within a second: the third is
    turned away, and the entry counts two. *)
Lemma window_admits_witness :
  exists vs st',
    serveAll {| MAX_REQUESTS := of_Z 2; WINDOW_MS := of_Z 1000; OPENAI_API_KEY := None |}
             [requestAt "u1" "10.0.0.1" 5000; requestAt "u1" "10.0.0.1" 5400;
              requestAt "u1" "10.0.0.1" 6000] start = (vs, st')
    /\ map limited vs = [false; false; true]
    /\ entryOf st' "u1:10.0.0.1" = Some {| count := 2; resetTime := add (of_Z 5000) (of_Z 1000) |}.
Proof.
  destruct (window_admits_the_limit
              {| MAX_REQUESTS := of_Z 2; WINDOW_MS := of_Z 1000; OPENAI_API_KEY := None |}
              2%nat 1000 "u1" (requestAt "u1" "10.0.0.1" 5000)
              [requestAt "u1" "10.0.0.1" 5400; requestAt "u1" "10.0.0.1" 6000] start)
    as (vs & st' & Hrun & Hlen & Hvs & Hentry).
  - reflexivity.
  - reflexivity.
  - split; intros; discriminate.
  - reflexivity.
  - reflexivity.
  - repeat constructor; cbn; lia.
  - exists vs, st'. split; [exact Hrun|]. split; [|exact Hentry].
    destruct vs as [|v0 [|v1 [|v2 [|v3 vs]]]]; try discriminate Hlen.
    cbn [map]. rewrite (Hvs 0%nat v0 eq_refl), (Hvs 1%nat v1 eq_refl), (Hvs 2%nat v2 eq_refl).
    reflexivity.
Defined.

(** X15.  The request that finds an expired entry.  The entry is removed
    from the map, but the request is still judged by the expired count:
    a client that had used up its limit is turned away once more after
    its window has passed, and a client that had not is let through
    without being counted.  Either way no entry is left, so the next
    request of the client is let through and opens the new window, with
    count 1, at its own time. *)
Theorem expired_entry_is_judged_once_more (cfg : Config) (env1 env2 : Env)
    (req1 req2 : Request) (uid : string) (e : Entry) (st : Limiter) :
  separate st ->
  session env1 = Some uid ->
  session env2 = Some uid ->
  identifierOf uid req2 = identifierOf uid req1 ->
  entryOf st (identifierOf uid req1) = Some e ->
  gt (of_Z (clock env1)) (resetTime e) = true ->
  exists v1 st1 v2 st2,
    mlApiMiddleware cfg env1 req1 st = (v1, st1)
    /\ mlApiMiddleware cfg env2 req2 st1 = (v2, st2)
    /\ limited v1 = ge (of_nat (count e)) (MAX_REQUESTS cfg)
    /\ entryOf st1 (identifierOf uid req1) = None
    /\ limited v2 = false
    /\ entryOf st2 (identifierOf uid req1)
       = Some {| count := 1; resetTime := add (of_Z (clock env2)) (WINDOW_MS cfg) |}.
Proof.
  intros Hsep Hs1 Hs2 Hid Hentry Hexp.
  destruct (limiter_step cfg env1 req1 st uid Hsep Hs1) as (v1 & st1 & Hstep1 & Hsep1 & _ & Hown1).
  rewrite Hentry, Hexp in Hown1. destruct Hown1 as [Hv1 Hnone].
  destruct (limiter_step cfg env2 req2 st1 uid Hsep1 Hs2) as (v2 & st2 & Hstep2 & _ & _ & Hown2).
  rewrite Hid, Hnone in Hown2. destruct Hown2 as [Hv2 Hnew].
  exists v1, st1, v2, st2. repeat (split; [assumption|]). assumption.
Qed.

(** A client that used up the default limit of 100 returns after its
    window has passed: it is turned away, then let through. *)
Lemma expired_entry_witness :
  exists v1 st1 v2 st2,
    mlApiMiddleware (defaultConfig None) (fst (requestAt "u1" "10.0.0.1" 200000))
                    (snd (requestAt "u1" "10.0.0.1" 200000))
                    (map_set "u1:10.0.0.1" {| count := 100; resetTime := of_Z 65000 |} start)
    = (v1, st1)
    /\ mlApiMiddleware (defaultConfig None) (fst (requestAt "u1" "10.0.0.1" 200001))
                       (snd (requestAt "u1" "10.0.0.1" 200001)) st1
       = (v2, st2)
    /\ limited v1 = true
    /\ limited v2 = false.
Proof.
  destruct (expired_entry_is_judged_once_more
              (defaultConfig None)
              (fst (requestAt "u1" "10.0.0.1" 200000)) (fst (requestAt "u1" "10.0.0.1" 200001))
              (snd (requestAt "u1" "10.0.0.1" 200000)) (snd (requestAt "u1" "10.0.0.1" 200001))
              "u1" {| count := 100; resetTime := of_Z 65000 |}
              (map_set "u1:10.0.0.1" {| count := 100; resetTime := of_Z 65000 |} start))
    as (v1 & st1 & v2 & st2 & H1 & H2 & Hv1 & _ & Hv2 & _).
  - split.
    + intros i a. cbn [map_set start rateLimit allocated Obj.set Obj.get].
      destruct (String.eqb "u1:10.0.0.1" i); [intros [= <-]; lia | discriminate].
    + intros i1 i2 a. cbn [map_set start rateLimit allocated Obj.set Obj.get].
      destruct (String.eqb "u1:10.0.0.1" i1) eqn:E1; [|discriminate].
      destruct (String.eqb "u1:10.0.0.1" i2) eqn:E2; [|discriminate].
      apply String.eqb_eq in E1, E2. congruence.
  - reflexivity.
  - reflexivity.
  - reflexivity.
  - reflexivity.
  - reflexivity.
  - exists v1, st1, v2, st2. split; [exact H1|]. split; [exact H2|].
    split; [rewrite Hv1; reflexivity | exact Hv2].
Defined.

(** X16.  What the limiter leaves alone.  A request without a session is
    answered 401 and changes nothing; a request with one changes at most
    the entry of its own identifier (user id and forwarded address),
    whatever the verdict; the map keeps holding one object per
    identifier; and when the configured limit is not a number no
    request is ever turned away for its rate. *)
Theorem limiter_touches_one_entry (cfg : Config) (env : Env) (req : Request) (st : Limiter) :
  separate st ->
  exists v st',
    mlApiMiddleware cfg env req st = (v, st')
    /\ separate st'
    /\ match session env with
       | None => v = Reject 401 "Unauthorized" /\ st' = st
       | Some uid =>
           forall other, other <> identifierOf uid req -> entryOf st' other = entryOf st other
       end
    /\ (MAX_REQUESTS cfg = NaN -> limited v = false).
Proof.
  intro Hsep. destruct (session env) as [uid|] eqn:Hsession.
  - destruct (limiter_step cfg env req st uid Hsep Hsession)
      as (v & st' & Hstep & Hsep' & Hframe & Hown).
    exists v, st'. split; [exact Hstep|]. split; [exact Hsep'|]. split; [exact Hframe|].
    intro Hnan. rewrite Hnan in Hown.
    destruct (entryOf st (identifierOf uid req)) as [e|]; [|tauto].
    destruct Hown as [Hv _]. rewrite Hv. reflexivity.
  - unfold mlApiMiddleware. rewrite Hsession.
    eexists _, _. split; [reflexivity|]. split; [exact Hsep|]. split; [now split|].
    reflexivity.
Qed.

(** An unauthenticated request to an empty limiter. *)
Lemma limiter_touches_witness :
  exists v st',
    mlApiMiddleware (defaultConfig None)
                    {| session := None; clock := 0; fails := fun _ => false |}
                    {| x_forwarded_for := None; pathname := "/api/ml/analyze" |} start = (v, st')
    /\ v = Reject 401 "Unauthorized" /\ st' = start.
Proof.
  destruct (limiter_touches_one_entry
              (defaultConfig None)
              {| session := None; clock := 0; fails := fun _ => false |}
              {| x_forwarded_for := None; pathname := "/api/ml/analyze" |} start)
    as (v & st' & Hstep & _ & Hnone & _).
  - split; intros; discriminate.
  - exists v, st'. split; [exact Hstep|]. exact Hnone.
Defined.

(** ** The label of a reading and the bucket stored for it *)

Ltac bands :=
  cbv [getStatusColor getStatusText metricUpdate lt gt ge le of_Z Qlt_bool
       sleepUpdate activityUpdate stressUpdate red amber green gray];
  cbn [String.eqb Ascii.eqb Bool.eqb negb];
  repeat match goal with
         | |- context [Qle_bool ?a ?b] =>
             let E := fresh "E" in
             destruct (Qle_bool a b) eqn:E;
             [apply Qle_bool_iff in E | apply Qle_bool_false in E]
         end;
  cbn [negb String.eqb Ascii.eqb Bool.eqb];
  unfold inject_Z in *;
  repeat match goal with
         | |- _ /\ _ => split
         | |- _ <-> _ => split
         | |- _ -> _ => intro
         | H : _ /\ _ |- _ => destruct H
         end;
  try reflexivity; try discriminate; try congruence; try lra.

(** X17.  The label the wearable page shows for a reading against the
    bucket the server stores for the same reading.  For activity the
    three bands coincide.  For stress they coincide except at exactly
    30, which the server stores as low and the page labels Moderate.
    For sleep they are shifted by an hour: a reading the server stores
    as fair is labelled Poor, and shown red, below 6 hours, and a
    reading it stores as good is labelled only Good, and shown amber,
    below 8 hours. *)
Theorem status_label_and_stored_bucket (v : Q) :
  (getStatusText "activity" v = "Low"%string
     <-> metricUpdate "activity" v = Some (activityUpdate "low"))
  /\ (getStatusText "activity" v = "Good"%string
        <-> metricUpdate "activity" v = Some (activityUpdate "moderate"))
  /\ (getStatusText "activity" v = "Excellent"%string
        <-> metricUpdate "activity" v = Some (activityUpdate "high"))
  /\ (getStatusText "stress" v = "High"%string
        <-> metricUpdate "stress" v = Some (stressUpdate "high"))
  /\ (getStatusText "stress" v = "Low"%string
        -> metricUpdate "stress" v = Some (stressUpdate "low"))
  /\ (metricUpdate "stress" v = Some (stressUpdate "low")
      /\ getStatusText "stress" v = "Moderate"%string <-> (v == 30)%Q)
  /\ (metricUpdate "sleep" v = Some (sleepUpdate "fair")
      /\ getStatusText "sleep" v = "Poor"%string
      /\ getStatusColor "sleep" v = red <-> (5 <= v)%Q /\ (v < 6)%Q)
  /\ (metricUpdate "sleep" v = Some (sleepUpdate "good")
      /\ getStatusText "sleep" v = "Good"%string
      /\ getStatusColor "sleep" v = amber <-> (7 <= v)%Q /\ (v < 8)%Q)
  /\ (metricUpdate "sleep" v = Some (sleepUpdate "poor")
        -> getStatusText "sleep" v = "Poor"%string)
  /\ (getStatusText "sleep" v = "Excellent"%string
        -> metricUpdate "sleep" v = Some (sleepUpdate "good")).
Proof.
  split; [bands|]. split; [bands|]. split; [bands|]. split; [bands|]. split; [bands|].
  split; [bands|]. split; [bands|]. split; [bands|]. split; bands.
Qed.

(** ** The trend endpoint *)

Lemma insertEarliest_perm {A : Type} (key : A -> Z) (x : A) (l : list A) :
  Permutation (DetectionRoute.insertEarliest key x l) (x :: l).
Proof.
  induction l as [|y l IH]; simpl; [reflexivity|].
  destruct (key y <? key x); [|reflexivity].
  rewrite IH. apply perm_swap.
Qed.

Lemma earliestFirst_perm {A : Type} (key : A -> Z) (l : list A) :
  Permutation (DetectionRoute.earliestFirst key l) l.
Proof.
  induction l as [|x l IH]; simpl; [reflexivity|].
  rewrite insertEarliest_perm. now constructor.
Qed.

Lemma insertEarliest_sorted {A : Type} (key : A -> Z) (x : A) (l : list A) :
  StronglySorted (fun a b => key a <= key b) l ->
  StronglySorted (fun a b => key a <= key b) (DetectionRoute.insertEarliest key x l).
Proof.
  induction 1 as [|y l Hs IH Hy]; simpl.
  - repeat constructor.
  - destruct (key y <? key x) eqn:E.
    + apply Z.ltb_lt in E. constructor; [exact IH|].
      apply Forall_forall. intros z Hz.
      apply (Permutation_in _ (insertEarliest_perm key x l)) in Hz.
      destruct Hz as [<-|Hz]; [lia|].
      rewrite Forall_forall in Hy. now apply Hy.
    + apply Z.ltb_ge in E. constructor; [now constructor|].
      constructor; [exact E|].
      rewrite Forall_forall in Hy |- *. intros z Hz. specialize (Hy z Hz). lia.
Qed.

Lemma earliestFirst_sorted {A : Type} (key : A -> Z) (l : list A) :
  StronglySorted (fun a b => key a <= key b) (DetectionRoute.earliestFirst key l).
Proof.
  induction l as [|x l IH]; simpl; [constructor | now apply insertEarliest_sorted].
Qed.

(** X18.  The trend endpoint.  It always answers and never changes the
    store.  It answers 400 exactly when the user id or the detection
    type is missing or the timeframe, "week" when missing or empty, is
    not one of day, week, month, year; 401 for a foreign or missing
    session; 500 when the query fails.  Otherwise its body is the
    analysis of the rows of that user and type dated from the start of
    the window to now, a window without rows giving the no-data
    message. *)
Theorem PATCH_answers_from_the_window (startDate : string -> Z -> Z) (env : Env)
    (userIdParam detectionTypeParam timeframeParam : option string) (db : Db) :
  exists resp,
    serve (DetectionRoute.PATCH startDate env userIdParam detectionTypeParam timeframeParam) db
    = (Returned resp, db)
    /\ match resp with
       | DetectionRoute.TrendError st _ =>
           (st = 400%nat \/ st = 401%nat \/ st = 500%nat)
           /\ (st = 400%nat <->
               userIdParam = None \/ detectionTypeParam = None
               \/ mem (DetectionRoute.timeframeOf timeframeParam) DetectionRoute.timeframes
                  = false)
           /\ (st = 500%nat -> fails env 0 = true)
       | DetectionRoute.TrendBody analysis =>
           exists userId type,
             userIdParam = Some userId /\ detectionTypeParam = Some type
             /\ unauthorized env userId = false
             /\ fails env 0 = false
             /\ let timeframe := DetectionRoute.timeframeOf timeframeParam in
                let rows := DetectionRoute.selectWindow
                              userId type (startDate timeframe (clock env)) (clock env) db in
                analysis = analyzeTrends timeframe (Data rows)
                /\ (rows = [] <-> analysis = NoData "No data available for trend analysis")
                /\ (rows <> [] <-> exists r, analysis = Report r)
       end.
Proof.
  unfold serve, DetectionRoute.PATCH, try_catch.
  destruct userIdParam as [userId|].
  2:{ eexists. split; [reflexivity|]. cbn. split; [auto|]. split; [tauto|discriminate]. }
  destruct detectionTypeParam as [type|].
  2:{ eexists. split; [reflexivity|]. cbn. split; [auto|]. split; [tauto|discriminate]. }
  destruct (mem (DetectionRoute.timeframeOf timeframeParam) DetectionRoute.timeframes) eqn:Htf;
    cbn [negb].
  2:{ eexists. split; [reflexivity|]. cbn. split; [auto|]. split; [tauto|discriminate]. }
  destruct (unauthorized env userId) eqn:Hauth.
  { eexists. split; [reflexivity|]. cbn. split; [auto|]. split; [|discriminate].
    split; [discriminate|]. intros [H|[H|H]]; discriminate. }
  unfold DetectionRoute.analyzeTrends, bind, query, call. cbn [issued tables].
  destruct (fails env 0%nat) eqn:Hfail.
  { eexists. split; [reflexivity|]. cbn. split; [auto|]. split; [|reflexivity].
    split; [discriminate|]. intros [H|[H|H]]; discriminate. }
  unfold ret.
  destruct (DetectionRoute.selectWindow userId type _ (clock env) db) as [|r rows] eqn:Hrows.
  - eexists. split; [reflexivity|]. cbn [analyzeTrends].
    exists userId, type. split; [reflexivity|]. split; [reflexivity|].
    split; [first [exact Hauth | reflexivity]|].
    split; [first [exact Hfail | reflexivity]|].
    cbv zeta. rewrite Hrows. split; [reflexivity|]. split; [tauto|].
    split; [intro H; now elim H | intros [x Hx]; discriminate].
  - eexists. split; [reflexivity|]. cbn [analyzeTrends].
    exists userId, type. split; [reflexivity|]. split; [reflexivity|].
    split; [first [exact Hauth | reflexivity]|].
    split; [first [exact Hfail | reflexivity]|].
    cbv zeta. rewrite Hrows. split; [reflexivity|].
    split; [split; discriminate|].
    split; [intros _; eexists; reflexivity | discriminate].
Qed.

(** X19.  The rows that the trend analysis works on.  They are exactly
    the stored rows of the user and detection type dated within the
    window, each once, in ascending date order; so every observation of
    the first half, whose mean the trend takes as its baseline, is dated
    no later than every observation of the second half. *)
Theorem trend_halves_follow_time (userId type : string) (startDate now : Z) (db : Db) :
  let rows := DetectionRoute.selectWindow userId type startDate now db in
  Permutation rows
    (filter (DetectionRoute.inWindow userId type startDate now) (detection_results db))
  /\ (forall r, In r rows <->
                In r (detection_results db) /\ user_id r = userId /\ detection_type r = type
                /\ startDate <= created_at r <= now)
  /\ StronglySorted (fun a b => created_at a <= created_at b) rows
  /\ (forall a b, In a (firstHalf rows) -> In b (secondHalf rows) ->
                  created_at a <= created_at b).
Proof.
  cbv zeta. unfold DetectionRoute.selectWindow.
  set (matching := filter _ _).
  assert (Hperm : Permutation (DetectionRoute.earliestFirst created_at matching) matching)
    by apply earliestFirst_perm.
  assert (Hsorted : StronglySorted (fun a b => created_at a <= created_at b)
                                   (DetectionRoute.earliestFirst created_at matching))
    by apply earliestFirst_sorted.
  split; [exact Hperm|]. split; [|split; [exact Hsorted|]].
  - intro r. split.
    + intro Hin. apply (Permutation_in _ Hperm) in Hin.
      apply filter_In in Hin. destruct Hin as [Hin Hw]. unfold DetectionRoute.inWindow in Hw.
      apply andb_true_iff in Hw. destruct Hw as [Hw Hle].
      apply andb_true_iff in Hw. destruct Hw as [Hw Hge].
      apply andb_true_iff in Hw. destruct Hw as [Hu Ht].
      apply String.eqb_eq in Hu, Ht. apply Z.leb_le in Hge, Hle. auto.
    + intros (Hin & Hu & Ht & Hge & Hle).
      apply (Permutation_in _ (Permutation_sym Hperm)).
      apply filter_In. split; [exact Hin|]. unfold DetectionRoute.inWindow.
      rewrite Hu, Ht, !String.eqb_refl. cbn [andb].
      apply andb_true_iff. split; now apply Z.leb_le.
  - intros a b Ha Hb. unfold firstHalf in Ha. unfold secondHalf in Hb.
    set (rows := DetectionRoute.earliestFirst created_at matching) in *.
    rewrite <- (firstn_skipn (List.length rows / 2) rows) in Hsorted.
    exact (sorted_app_before _ _ _ Hsorted a b Ha Hb).
Qed.

(** * Properties that depend on rounding *)
